(** * User-Feedback-Analyzer: the GraphRAG build and query pipeline

    A shallow embedding of [graph_builder.py], [query_engine.py],
    [scraper.py] and [main.py].

    - [Py]    : the Python values the code manipulates (insertion-ordered
                dicts, list indexing with negative positions, exceptions,
                f-string formatting).
    - [Nx]    : the part of networkx's [MultiDiGraph] the code calls, and
                community detection as the specification describes it.
    - [Faiss] : the flat L2 index ([IndexFlatL2]): [add] and [search],
                over the distances that the library computes.
    - [GraphBuilder], [QueryEngine] : the build and the query.
    - [Examples] : a small corpus, services and index directories.
    - [Text], [Corpus] : more of Python's strings, and the extractions of
                a reviews directory.
    - [Scraper], [Main] : the scraper and the command-line loop, on a
                disk of app directories.
    - [Samples] : a page of review cards, browsers and further inputs.

    The generation and embedding services, the JSON parser, the
    float32 arithmetic of faiss, the review files and the browser are
    outside the program; they enter as the fields of a [services]
    record, as a dict from file names to texts and as a function from
    addresses to pages. A function that can raise returns
    an [outcome]; the query path also returns the service calls it made.

    The facts about each module follow the definitions; then come the
    properties of the specification (C1 to C10), and last the further
    facts and properties of the code (X1 to X21). *)

From stdpp Require Import gmap strings list pretty sorting.

(* ===================================================================== *)
(** ** Python values *)
(* ===================================================================== *)

Module Py.

(** The newline and the double quote, which string literals here do not
    spell directly. *)
Definition nl : string := String (Ascii.ascii_of_nat 10) "".
Definition dq : string := String (Ascii.ascii_of_nat 34) "".
Definition lbrace : Ascii.ascii := Ascii.ascii_of_nat 123.
Definition rbrace : Ascii.ascii := Ascii.ascii_of_nat 125.

(** [sep.join(parts)] *)
Definition join (sep : string) (parts : list string) : string :=
  String.concat sep parts.

(** What an f-string prints for [d.get(key)]: the text, or [None]. *)
Definition fmt (o : option string) : string := default "None" o.

(** Truthiness of a string-or-None value: [if s]. *)
Definition truthy (o : option string) : bool :=
  match o with
  | Some s => bool_decide (s ≠ "")
  | None => false
  end.

(** Exceptions that may leave a function of this program uncaught. *)
Inductive exn :=
| IndexError
| KeyError (key : string)
| FileNotFoundError
| AssertionError
| ValueError
| RuntimeError
| BackendError (msg : string).

(** The result of a call that may raise. *)
Inductive outcome (A : Type) :=
| Ok (a : A)
| Raised (e : exn).
Arguments Ok {A} a.
Arguments Raised {A} e.

(** Sequencing: an exception skips the rest. *)
Global Instance outcome_ret : MRet outcome := λ A a, Ok a.
Global Instance outcome_bind : MBind outcome := λ A B k m,
  match m with
  | Ok a => k a
  | Raised e => Raised e
  end.

Global Instance outcome_fmap : FMap outcome := λ A B f m,
  match m with
  | Ok a => Ok (f a)
  | Raised e => Raised e
  end.

(** [try: m except Exception: return fallback] *)
Definition try_except {A} (m : outcome A) (fallback : exn → A) : A :=
  match m with
  | Ok a => a
  | Raised e => fallback e
  end.

(** [str(e)] for the exceptions above. *)
Definition str_exn (e : exn) : string :=
  match e with
  | IndexError => "list index out of range"
  | KeyError k => "'" +:+ k +:+ "'"
  | FileNotFoundError => "[Errno 2] No such file or directory"
  | AssertionError => ""
  | ValueError => "setting an array element with a sequence."
  | RuntimeError => "could not open the file for reading"
  | BackendError msg => msg
  end.

(** [l[i]] on a list: positions [0 .. len-1] count from the front,
    [-len .. -1] from the back, anything else raises [IndexError]. *)
Definition index {A} (l : list A) (i : Z) : outcome A :=
  let n := Z.of_nat (length l) in
  let j := if bool_decide (i < 0)%Z then (i + n)%Z else i in
  if bool_decide (0 ≤ j < n)%Z then
    match l !! Z.to_nat j with
    | Some a => Ok a
    | None => Raised IndexError
    end
  else Raised IndexError.

(** [[f(x) for x in xs]] where [f] may raise: the first exception ends
    the comprehension. *)
Fixpoint comprehension {A B} (f : A → outcome B) (xs : list A)
  : outcome (list B) :=
  match xs with
  | [] => Ok []
  | x :: xs' =>
      b ← f x; bs ← comprehension f xs'; mret (b :: bs)
  end.

(** [for x in xs: st = body(st, x)] where the body may raise. *)
Fixpoint for_each {S A} (body : S → A → outcome S) (xs : list A) (st : S)
  : outcome S :=
  match xs with
  | [] => Ok st
  | x :: xs' => st' ← body st x; for_each body xs' st'
  end.

(** An insertion-ordered dict with string keys: a key keeps the position
    of its first insertion, and assigning to it again replaces the value
    in place. *)
Definition dict (V : Type) := list (string * V).

Fixpoint get {V} (d : dict V) (k : string) : option V :=
  match d with
  | [] => None
  | (k', v) :: d' => if decide (k = k') then Some v else get d' k
  end.

Definition contains {V} (d : dict V) (k : string) : bool :=
  bool_decide (is_Some (get d k)).

(** [d[k]]: a key that is not there raises [KeyError]. *)
Definition item {V} (d : dict V) (k : string) : outcome V :=
  match get d k with
  | Some v => Ok v
  | None => Raised (KeyError k)
  end.

(** The result of a call that returned. *)
Definition returned {A} (m : outcome A) : option A :=
  match m with
  | Ok a => Some a
  | Raised _ => None
  end.

(** [d[k] = f(d.get(k))]: the update every write to a dict goes through. *)
Fixpoint upsert {V} (f : option V → V) (k : string) (d : dict V) : dict V :=
  match d with
  | [] => [(k, f None)]
  | (k', v) :: d' =>
      if decide (k = k') then (k', f (Some v)) :: d'
      else (k', v) :: upsert f k d'
  end.

Definition keys {V} (d : dict V) : list string := d.*1.

(** The distinct elements of a list, each at its first occurrence: the
    order in which a dict or set filled from the list holds them. *)
Fixpoint distinct `{EqDecision A} (l : list A) : list A :=
  match l with
  | [] => []
  | x :: l' => x :: filter (λ y, y ≠ x) (distinct l')
  end.

(** What a loop appends that goes through [l] and appends each element
    it has not seen, with [seen] marked at the start. *)
Definition unseen `{Countable A} (seen : gset A) (l : list A) : list A :=
  filter (λ y, y ∉ seen) (distinct l).

(** [s.startswith(prefix)] *)
Fixpoint startswith (s prefix : string) : bool :=
  match prefix, s with
  | EmptyString, _ => true
  | String p prefix', String c s' =>
      bool_decide (p = c) && startswith s' prefix'
  | String _ _, EmptyString => false
  end.

(** [sub in s] *)
Fixpoint occurs (sub s : string) : bool :=
  startswith s sub ||
  match s with
  | String _ s' => occurs sub s'
  | EmptyString => false
  end.

(** [s.endswith(suffix)] *)
Definition endswith (s suffix : string) : bool :=
  bool_decide (String.length suffix ≤ String.length s) &&
  bool_decide (String.substring (String.length s - String.length suffix)
                                (String.length suffix) s = suffix).

(** The suffix of [s] that starts at the first [c], if [c] occurs. *)
Fixpoint from_first (c : Ascii.ascii) (s : string) : option string :=
  match s with
  | EmptyString => None
  | String c' s' => if decide (c = c') then Some s else from_first c s'
  end.

(** The prefix of [s] that ends at the last [c], if [c] occurs. *)
Definition upto_last (c : Ascii.ascii) (s : string) : option string :=
  String.rev <$> from_first c (String.rev s).

(** [re.search(open + ".*" + close, s, re.DOTALL).group(0)] for
    one-character [open] and [close]: from the first [open] to the last
    [close] after it. *)
Definition search_block (open close : Ascii.ascii) (s : string)
  : option string :=
  from_first open s ≫= upto_last close.

(** Python's whitespace, the characters for which [str.isspace] holds,
    in the UTF-8 bytes of a text: the ASCII characters with codes 9 to
    13 and 28 to 32; U+0085 and U+00A0, of two bytes; U+1680, U+2000 to
    U+200A, U+2028, U+2029, U+202F, U+205F and U+3000, of three. *)
Definition space1 (a : Ascii.ascii) : bool :=
  let a := Ascii.nat_of_ascii a in
  bool_decide (9 ≤ a ≤ 13 ∨ 28 ≤ a ≤ 32).

Definition space2 (a b : Ascii.ascii) : bool :=
  let a := Ascii.nat_of_ascii a in
  let b := Ascii.nat_of_ascii b in
  bool_decide (a = 194 ∧ (b = 133 ∨ b = 160)).

Definition space3 (a b c : Ascii.ascii) : bool :=
  let a := Ascii.nat_of_ascii a in
  let b := Ascii.nat_of_ascii b in
  let c := Ascii.nat_of_ascii c in
  bool_decide ((a = 225 ∧ b = 154 ∧ c = 128) ∨
               (a = 226 ∧ b = 128 ∧
                (128 ≤ c ≤ 138 ∨ c = 168 ∨ c = 169 ∨ c = 175)) ∨
               (a = 226 ∧ b = 129 ∧ c = 159) ∨
               (a = 227 ∧ b = 128 ∧ c = 128)).

(** The text after the whitespace at its front, [two] and [three]
    telling the whitespace of two and of three bytes. *)
Fixpoint lstrip_by (two : Ascii.ascii → Ascii.ascii → bool)
    (three : Ascii.ascii → Ascii.ascii → Ascii.ascii → bool) (s : string)
  : string :=
  match s with
  | String a s1 =>
      if space1 a then lstrip_by two three s1
      else
        match s1 with
        | String b s2 =>
            if two a b then lstrip_by two three s2
            else
              match s2 with
              | String c s3 =>
                  if three a b c then lstrip_by two three s3 else s
              | EmptyString => s
              end
        | EmptyString => s
        end
  | EmptyString => EmptyString
  end.

(** [str.lstrip()] *)
Definition lstrip (s : string) : string := lstrip_by space2 space3 s.

(** [str.strip()]: the whitespace at the end is that at the front of
    the reversed text, its bytes in reverse. *)
Definition strip (s : string) : string :=
  String.rev
    (lstrip_by (λ b a, space2 a b) (λ c b a, space3 a b c)
               (String.rev (lstrip s))).

End Py.

Export Py (outcome, Ok, Raised).

(* ===================================================================== *)
(** ** networkx: the directed multigraph *)
(* ===================================================================== *)

Module Nx.

(** The attribute dict of a node, with the four keys this program
    writes; an absent key is [None]. *)
Record node_data := NodeData {
  type : option string;
  value : option string;
  source_file : option string;
  community_id : option nat
}.

Definition no_attrs : node_data := NodeData None None None None.

(** [old.update(new)]: the keys of [new] overwrite, the others stay. *)
Definition update (new old : node_data) : node_data :=
  {| type := from_option Some (type old) (type new);
     value := from_option Some (value old) (value new);
     source_file := from_option Some (source_file old) (source_file new);
     community_id := from_option Some (community_id old) (community_id new) |}.

(** One edge of the multigraph; parallel edges are repeated entries. *)
Record edge := Edge { src : string; dst : string; label : string }.

(** [MultiDiGraph]: the node dict in insertion order and the edges in
    insertion order. *)
Record graph := Graph {
  nodes : Py.dict node_data;
  edges : list edge
}.

Definition empty : graph := Graph [] [].

Definition has_node (G : graph) (n : string) : bool :=
  Py.contains (nodes G) n.

Definition number_of_nodes (G : graph) : nat := length (nodes G).
Definition number_of_edges (G : graph) : nat := length (edges G).

(** [G.add_node(n, **attrs)]: a new node gets [attrs]; on a node already
    there the attribute dict is updated with [attrs]. *)
Definition add_node (G : graph) (n : string) (attrs : node_data) : graph :=
  {| nodes := Py.upsert (λ old, update attrs (default no_attrs old)) n (nodes G);
     edges := edges G |}.

(** [G.add_edge(u, v, type=t)]: endpoints that are not nodes yet are
    created with no attributes, then the edge is appended. *)
Definition add_edge (G : graph) (u v t : string) : graph :=
  let G1 := add_node G u no_attrs in
  let G2 := add_node G1 v no_attrs in
  {| nodes := nodes G2; edges := edges G2 ++ [Edge u v t] |}.

(** What networkx maintains: node keys are unique and every edge joins
    two nodes. *)
Definition wf (G : graph) : Prop :=
  NoDup (Py.keys (nodes G)) ∧
  Forall (λ e, src e ∈ Py.keys (nodes G) ∧ dst e ∈ Py.keys (nodes G))
         (edges G).

(** [G.nodes[n]] *)
Definition node (G : graph) (n : string) : outcome node_data :=
  match Py.get (nodes G) n with
  | Some d => Ok d
  | None => Raised (Py.KeyError n)
  end.

(** [G.neighbors(n)] on a directed graph is [G.successors(n)]: the keys
    of the adjacency dict of [n], one per distinct target of an edge
    leaving [n], in the order the first such edge was added. *)
Definition neighbors (G : graph) (n : string) : list string :=
  Py.distinct (dst <$> filter (λ e, src e = n) (edges G)).


(** The attribute dict [d] after [d['community_id'] = c]. *)
Definition tagged (c : nat) (d : node_data) : node_data :=
  update (NodeData None None None (Some c)) d.

(** [G.nodes[n]['community_id'] = c], passed over when [n] is no node. *)
Definition set_community (G : graph) (n : string) (c : nat) : graph :=
  if has_node G n then
    add_node G n (NodeData None None None (Some c))
  else G.

(** [nx.set_node_attributes(G, values, 'community_id')]: one assignment
    for each entry of [values], in order. *)
Definition set_node_attributes (G : graph) (values : Py.dict nat) : graph :=
  fold_left (λ G' kv, set_community G' kv.1 kv.2) values G.

(** *** The undirected projection and community detection *)

(** An undirected simple graph: nodes, and edges as unordered pairs
    stored with the smaller endpoint first. *)
Record ugraph := UGraph {
  unodes : list string;
  uedges : list (string * string)
}.

Definition unordered (u v : string) : string * string :=
  if bool_decide (u ≤ v)%string then (u, v) else (v, u).

(** Modelled from the spec: [G.to_undirected()], which is networkx code
    and not part of this repository. The spec has the projection keep the
    nodes, forget direction and edge type, and collapse parallel edges. *)
Definition to_undirected (G : graph) : ugraph :=
  {| unodes := Py.keys (nodes G);
     uedges := Py.distinct ((λ e, unordered (src e) (dst e)) <$> edges G) |}.

(** No edge of [g] ends at [n]. *)
Definition untouched (g : ugraph) (n : string) : Prop :=
  ∀ e, e ∈ uedges g → e.1 ≠ n ∧ e.2 ≠ n.

Definition degree (g : ugraph) (n : string) : nat :=
  length (filter (λ e, e.1 = n) (uedges g)) +
  length (filter (λ e, e.2 = n) (uedges g)).

Definition community_degree (g : ugraph) (c : list string) : nat :=
  sum_list (degree g <$> c).

(** The number of edges with one end in [c1] and the other in [c2]. *)
Definition links (g : ugraph) (c1 c2 : list string) : nat :=
  length (filter (λ e, (e.1 ∈ c1 ∧ e.2 ∈ c2) ∨ (e.1 ∈ c2 ∧ e.2 ∈ c1))
                 (uedges g)).

(** The modularity increase of merging [c1] and [c2], scaled by the
    positive constant [2 m^2] ([m] the number of edges) so that it stays
    an integer: [dQ = links/m - deg1*deg2/(2 m^2)]. *)
Definition gain (g : ugraph) (c1 c2 : list string) : Z :=
  (2 * Z.of_nat (length (uedges g)) * Z.of_nat (links g c1 c2)
   - Z.of_nat (community_degree g c1) * Z.of_nat (community_degree g c2))%Z.

Definition gain_at (g : ugraph) (comms : list (list string))
    (p : nat * nat) : Z :=
  match comms !! p.1, comms !! p.2 with
  | Some c1, Some c2 => gain g c1 c2
  | _, _ => 0%Z
  end.

(** All pairs of positions [i < j] below [n], in lexicographic order. *)
Definition pairs (n : nat) : list (nat * nat) :=
  i ← seq 0 n; (λ j, (i, j)) <$> seq (S i) (n - S i).

(** The pair whose merge increases modularity most, if any merge
    increases it; among equal increases the first pair is kept. *)
Definition better (g : ugraph) (comms : list (list string))
    (best : option (nat * nat)) (p : nat * nat) : option (nat * nat) :=
  let d := gain_at g comms p in
  match best with
  | None => if bool_decide (0 < d)%Z then Some p else None
  | Some b => if bool_decide (gain_at g comms b < d)%Z then Some p else best
  end.

Definition best_merge (g : ugraph) (comms : list (list string))
  : option (nat * nat) :=
  fold_left (better g comms) (pairs (length comms)) None.

(** Community [j] joins community [i] (with [i < j]). *)
Definition merge (comms : list (list string)) (i j : nat)
  : list (list string) :=
  match comms !! i, comms !! j with
  | Some a, Some b => <[i := a ++ b]> (delete j comms)
  | _, _ => comms
  end.

Fixpoint agglomerate (g : ugraph) (fuel : nat) (comms : list (list string))
  : list (list string) :=
  match fuel with
  | O => comms
  | S fuel' =>
      match best_merge g comms with
      | Some (i, j) => agglomerate g fuel' (merge comms i j)
      | None => comms
      end
  end.

(** Modelled from the spec: [greedy_modularity_communities], which is
    networkx code and not part of this repository. Following the spec,
    every node starts as its own community, and the pair of communities
    whose merge increases modularity most is merged until no merge
    increases it. Each merge removes one community, so as many rounds as
    there are nodes always reach the end. *)
Definition greedy_modularity_communities (g : ugraph) : list (list string) :=
  agglomerate g (length (unodes g)) ((λ n, [n]) <$> unodes g).

End Nx.

(* ===================================================================== *)
(** ** faiss: the flat L2 index *)
(* ===================================================================== *)

Module Faiss.

(** An embedding. The coordinates are float32 values in the program;
    here each is an integer that stands for one, and the model computes
    nothing from them: the distances are those of the library, which
    [search] takes as [distance]. *)
Definition vec := list Z.

(** [faiss.IndexFlatL2(d)] with the rows added so far, in order. *)
Record index := IndexFlatL2 { d : nat; xb : list vec }.

Definition ntotal (ix : index) : nat := length (xb ix).

(** [index.add(x)]: the rows of [x] are appended; their width must be
    [d]. *)
Definition add (ix : index) (x : list vec) : outcome index :=
  if bool_decide (Forall (λ v, length v = d ix) x) then
    Ok {| d := d ix; xb := xb ix ++ x |}
  else Raised Py.AssertionError.

(** The squared Euclidean distance in exact arithmetic: what the
    library computes as long as no rounding and no overflow occurs. *)
Definition l2 (a b : vec) : Z :=
  foldr Z.add 0%Z (zip_with (λ x y, (x - y) * (x - y))%Z a b).

(** The order of the results: by distance, and at equal distances by
    position. *)
Definition closer (a b : Z * nat) : Prop :=
  (a.1 < b.1)%Z ∨ (a.1 = b.1 ∧ a.2 ≤ b.2).

Global Instance closer_dec : RelDecision closer.
Proof. intros a b. unfold closer. apply _. Defined.

(** The rows at a finite distance from [q], each with its distance and
    its position. *)
Definition candidates (distance : vec → vec → option Z) (q : vec)
    (rows : list vec) : list (Z * nat) :=
  omap (λ r : option Z * nat, (λ x, (x, r.2)) <$> r.1)
       (imap (λ i v, (distance q v, i)) rows).

(** [index.search(q, k)] for one query: the positions of the [k] rows
    nearest to [q], nearest first and the lower position first at equal
    distances. [distance q v] is the squared distance the library
    computes in float32, as an integer that keeps the order of the
    float32 values, and [None] when it is not a finite number: such a
    row is never returned. The places that no row fills hold [-1]. The
    wrapper asserts that the query has the width of the index and that
    [k] is positive. *)
Definition search (distance : vec → vec → option Z) (ix : index) (q : vec)
    (k : nat) : outcome (list Z) :=
  if bool_decide (length q = d ix ∧ 0 < k) then
    let ranked := merge_sort closer (candidates distance q (xb ix)) in
    let found := take k ((λ r, Z.of_nat r.2) <$> ranked) in
    Ok (found ++ replicate (k - length found) (-1)%Z)
  else Raised Py.AssertionError.

End Faiss.

(* ===================================================================== *)
(** ** The services outside the program *)
(* ===================================================================== *)

Inductive task_type := RETRIEVAL_DOCUMENT | RETRIEVAL_QUERY.

(** One extracted entity and one extracted relationship with the three
    keys of the prompt's schema, as the loops of the build read them
    from an object of the answer. *)
Record entity := Entity {
  entity_id : string;
  entity_type : string;
  entity_value : string
}.

Record relationship := Relationship {
  rel_source : string;
  rel_target : string;
  rel_type : string
}.

(** The entities and the relationships of one extraction. *)
Record extraction := Extraction {
  entities : list entity;
  relationships : list relationship
}.

(** The JSON object of one extraction answer as [json.loads] returns
    it: the objects of its two lists, each a dict from its keys to the
    texts they hold. An object may lack a key of the schema; the values
    are taken to be texts. An absent list reads as the empty list
    ([extracted_data.get(key, [])]). *)
Record parsed := Parsed {
  entity_objects : list (Py.dict string);
  relationship_objects : list (Py.dict string)
}.

(** The JSON of an entity, of a relationship and of an extraction, with
    every key. *)
Definition entity_object (e : entity) : Py.dict string :=
  [("id", entity_id e); ("type", entity_type e); ("value", entity_value e)].

Definition relationship_object (rel : relationship) : Py.dict string :=
  [("source", rel_source rel); ("target", rel_target rel);
   ("type", rel_type rel)].

Definition json_of (ex : extraction) : parsed :=
  Parsed (entity_object <$> entities ex)
         (relationship_object <$> relationships ex).

Record services := Services {
  (** [model.generate_content(prompt).text] *)
  generate_content : string → outcome string;
  (** [genai.embed_content(model, content, task_type)['embedding']] for
      one text; a batch is embedded text by text, in order. *)
  embed_content : task_type → string → outcome Faiss.vec;
  (** [json.loads] on the JSON block of an extraction answer. *)
  json_loads : string → outcome parsed;
  (** The squared distance that faiss computes between a query and a
      row, in float32: [None] when it is not a finite number. *)
  fvec_L2sqr : Faiss.vec → Faiss.vec → option Z
}.

(** The four files of an index directory; [None] is a file that is not
    there. The summaries are a JSON object, so their keys are strings. *)
Record index_dir := IndexDir {
  graph_pkl : option Nx.graph;
  community_summaries_json : option (Py.dict string);
  entity_embeddings_faiss : option Faiss.index;
  faiss_node_ids_json : option (list string)
}.

Definition no_index : index_dir := IndexDir None None None None.

(* ===================================================================== *)
(** ** graph_builder.py *)
(* ===================================================================== *)

Module GraphBuilder.

(** The prompt of [extract_entities_from_review]. *)
Definition extraction_prompt (review_text : string) : string :=
  Py.join Py.nl [
    "";
    "    Analyze the following user review and extract key entities and their relationships.";
    "    The entities to extract are:";
    "    - FEATURE_REQUEST: A specific feature the user is asking for.";
    "    - BUG_REPORT: An issue or bug the user is reporting.";
    Py.join Py.dq ["    - USER_SENTIMENT: The overall sentiment of the review (e.g., "; "Positive"; ", "; "Negative"; ", "; "Mixed"; ", "; "Neutral"; ")."];
    Py.join Py.dq ["    - PRODUCT_COMPONENT: A specific part of the app mentioned (e.g., "; "UI"; ", "; "Playlist"; ", "; "Search"; ", "; "Login"; ")."];
    "";
    Py.join Py.dq ["    Return the output as a JSON object with two keys: "; "entities"; " and "; "relationships"; "."];
    "    Example:";
    Py.join Py.dq ["    Review: "; "The new update is terrible. The app crashes every time I open my playlist. I wish there was a dark mode."; ""];
    "    Output:";
    "    {";
    Py.join Py.dq ["      "; "entities"; ": ["];
    Py.join Py.dq ["        {"; "id"; ": "; "app_crash"; ", "; "type"; ": "; "BUG_REPORT"; ", "; "value"; ": "; "App crashes on opening playlist"; "},"];
    Py.join Py.dq ["        {"; "id"; ": "; "playlist_feature"; ", "; "type"; ": "; "PRODUCT_COMPONENT"; ", "; "value"; ": "; "Playlist"; "},"];
    Py.join Py.dq ["        {"; "id"; ": "; "dark_mode_request"; ", "; "type"; ": "; "FEATURE_REQUEST"; ", "; "value"; ": "; "Dark mode"; "},"];
    Py.join Py.dq ["        {"; "id"; ": "; "negative_sentiment"; ", "; "type"; ": "; "USER_SENTIMENT"; ", "; "value"; ": "; "Negative"; "}"];
    "      ],";
    Py.join Py.dq ["      "; "relationships"; ": ["];
    Py.join Py.dq ["        {"; "source"; ": "; "app_crash"; ", "; "target"; ": "; "playlist_feature"; ", "; "type"; ": "; "related_to"; "},"];
    Py.join Py.dq ["        {"; "source"; ": "; "negative_sentiment"; ", "; "target"; ": "; "app_crash"; ", "; "type"; ": "; "describes"; "},"];
    Py.join Py.dq ["        {"; "source"; ": "; "negative_sentiment"; ", "; "target"; ": "; "dark_mode_request"; ", "; "type"; ": "; "describes"; "}"];
    "      ]";
    "    }";
    "";
    "    Now, analyze this review:";
    "    ---";
    "    " +:+ review_text;
    "    ---";
    "    "
  ].

(** The extraction of one review: [None] when the model call fails, when
    its answer holds no JSON block, or when the block does not parse. *)
Definition extract_entities_from_review (sv : services) (review_text : string)
  : option parsed :=
  Py.try_except
    (response_text ← generate_content sv (extraction_prompt review_text);
     match Py.search_block Py.lbrace Py.rbrace response_text with
     | Some json_text => Some <$> json_loads sv json_text
     | None => mret None
     end)
    (λ _, None).

(** The pairs [(node, i)] in the order
    [for i, community_nodes in enumerate(communities)
       for node in community_nodes] takes them. *)
Definition memberships (communities : list (list string))
  : list (string * nat) :=
  mjoin (imap (λ i community_nodes, (λ node, (node, i)) <$> community_nodes)
              communities).

(** [{node: i for i, community_nodes in enumerate(communities)
           for node in community_nodes}] *)
Definition community_map (communities : list (list string)) : Py.dict nat :=
  fold_left (λ m kv, Py.upsert (λ _, kv.2) kv.1 m) (memberships communities) [].

Definition detect_and_store_communities (G : Nx.graph)
  : Nx.graph * list (list string) :=
  let undirected_G := Nx.to_undirected G in
  let communities := Nx.greedy_modularity_communities undirected_G in
  (Nx.set_node_attributes G (community_map communities), communities).

(** The prompt of [generate_community_summaries]. *)
Definition summary_prompt (context_str : string) : string :=
  Py.join Py.nl [
    "";
    "        The following is a list of entities and concepts belonging to a single community detected within a knowledge graph of app reviews.";
    "        Summarize the main theme or topic of this community in a single, concise sentence.";
    "";
    "        Entities:";
    "        " +:+ context_str;
    "";
    "        Summary:";
    "        "
  ].

Definition community_line (node_data : Nx.node_data) : string :=
  "- Entity: " +:+ Py.fmt (Nx.value node_data) +:+
  " (Type: " +:+ Py.fmt (Nx.type node_data) +:+ ")".

(** One round of the loop of [generate_community_summaries]: a failing
    model call leaves the failure marker; [G.nodes[node_id]] is outside
    the [try]. *)
Definition summarize (sv : services) (G : Nx.graph)
    (community_nodes : list string) : outcome string :=
  community_data ← Py.comprehension
    (λ node_id, community_line <$> Nx.node G node_id) community_nodes;
  let context_str := Py.join Py.nl community_data in
  mret (Py.try_except
          (Py.strip <$> generate_content sv (summary_prompt context_str))
          (λ _, "Summary generation failed.")).

Definition generate_community_summaries (sv : services) (G : Nx.graph)
    (communities : list (list string)) : outcome (list (nat * string)) :=
  Py.comprehension (λ ic, pair ic.1 <$> summarize sv G ic.2)
                   (imap pair communities).

(** The first loop of [create_entity_embeddings_index]: ids and values
    of the nodes that have a value, appended in step. *)
Definition collect_values (G : Nx.graph) : list string * list string :=
  fold_left
    (λ acc nd,
       match Nx.value nd.2 with
       | Some v => (acc.1 ++ [nd.1], acc.2 ++ [v])
       | None => acc
       end)
    (Nx.nodes G) ([], []).

(** The nodes that have a value, each with its value: what the loop
    above goes through. *)
Definition valued (nodes : Py.dict Nx.node_data) : list (string * string) :=
  omap (λ nd, pair nd.1 <$> Nx.value nd.2) nodes.

(** [np.array(rows).astype('float32').shape[1]] *)
Definition shape1 (rows : list Faiss.vec) : outcome nat :=
  match rows with
  | [] => Raised Py.IndexError
  | r :: _ =>
      if bool_decide (Forall (λ v, length v = length r) rows)
      then Ok (length r) else Raised Py.ValueError
  end.

(** [None] stands for the pair [(None, None)]. *)
Definition create_entity_embeddings_index (sv : services) (G : Nx.graph)
  : option (Faiss.index * list string) :=
  let '(node_ids, node_values) := collect_values G in
  if bool_decide (node_values = []) then None
  else
    Py.try_except
      (embeddings ← Py.comprehension (embed_content sv RETRIEVAL_DOCUMENT)
                                     node_values;
       dimension ← shape1 embeddings;
       index ← Faiss.add (Faiss.IndexFlatL2 dimension []) embeddings;
       mret (Some (index, node_ids)))
      (λ _, None).

(** The two inner loops of step 1 on the entities and relationships
    read: [G.add_node] with the three attributes, and [G.add_edge]
    behind its two tests. *)
Definition add_entity (filename : string) (G : Nx.graph) (e : entity)
  : Nx.graph :=
  Nx.add_node G (entity_id e)
    (Nx.NodeData (Some (entity_type e)) (Some (entity_value e))
                 (Some filename) None).

Definition add_relationship (G : Nx.graph) (rel : relationship) : Nx.graph :=
  if Nx.has_node G (rel_source rel) && Nx.has_node G (rel_target rel)
  then Nx.add_edge G (rel_source rel) (rel_target rel) (rel_type rel)
  else G.

Definition add_extraction (filename : string) (G : Nx.graph)
    (extracted_data : extraction) : Nx.graph :=
  fold_left add_relationship (relationships extracted_data)
    (fold_left (add_entity filename) (entities extracted_data) G).

(** The edge a relationship becomes. *)
Definition edge_of (rel : relationship) : Nx.edge :=
  Nx.Edge (rel_source rel) (rel_target rel) (rel_type rel).

(** Whether both ends of a relationship are nodes of [G]. *)
Definition anchored (G : Nx.graph) (rel : relationship) : bool :=
  Nx.has_node G (rel_source rel) && Nx.has_node G (rel_target rel).

(** The keys of an object of the [entities] list, read in the order of
    the call [G.add_node(entity["id"], type=entity["type"],
    value=entity["value"], source_file=filename)]: the first key that is
    not there raises [KeyError]. *)
Definition read_entity (o : Py.dict string) : outcome entity :=
  id ← Py.item o "id";
  type ← Py.item o "type";
  value ← Py.item o "value";
  mret (Entity id type value).

(** The three keys of an object of the [relationships] list. *)
Definition read_relationship (o : Py.dict string) : outcome relationship :=
  source ← Py.item o "source";
  target ← Py.item o "target";
  type ← Py.item o "type";
  mret (Relationship source target type).

(** The body of the loop over the entities of an answer. *)
Definition add_entity_object (filename : string) (G : Nx.graph)
    (o : Py.dict string) : outcome Nx.graph :=
  e ← read_entity o; mret (add_entity filename G e).

(** The body of the loop over the relationships of an answer:
    [rel["target"]] is read when [rel["source"]] is a node, and
    [rel["type"]] when both are. *)
Definition add_relationship_object (G : Nx.graph) (o : Py.dict string)
  : outcome Nx.graph :=
  source ← Py.item o "source";
  if Nx.has_node G source then
    target ← Py.item o "target";
    if Nx.has_node G target then
      type ← Py.item o "type";
      mret (Nx.add_edge G source target type)
    else mret G
  else mret G.

(** The two inner loops of step 1 on the object of one answer. Nothing
    around them catches the [KeyError] of a missing key. *)
Definition add_parsed (filename : string) (G : Nx.graph)
    (extracted_data : parsed) : outcome Nx.graph :=
  G ← Py.for_each (add_entity_object filename)
                  (entity_objects extracted_data) G;
  Py.for_each add_relationship_object (relationship_objects extracted_data) G.

(** The objects of an answer that hold their three keys, as entities
    and relationships: what the two loops add when they go through. *)
Definition as_read (extracted_data : parsed) : extraction :=
  Extraction
    (omap (λ o, Py.returned (read_entity o)) (entity_objects extracted_data))
    (omap (λ o, Py.returned (read_relationship o))
          (relationship_objects extracted_data)).

(** The body of the loop over the review files; a file is a pair of
    its name and its text. *)
Definition add_review (sv : services) (G : Nx.graph) (file : string * string)
  : outcome Nx.graph :=
  match extract_entities_from_review sv file.2 with
  | Some extracted_data => add_parsed file.1 G extracted_data
  | None => Ok G
  end.

(** Step 1 of [build_knowledge_graph]. *)
Definition initial_graph (sv : services) (reviews_dir : Py.dict string)
  : outcome Nx.graph :=
  let review_files := filter (λ f, Py.endswith f.1 ".txt") reviews_dir in
  Py.for_each (add_review sv) review_files Nx.empty.

(** The review files, in the order the loop takes them. *)
Definition review_files (reviews_dir : Py.dict string) : Py.dict string :=
  filter (λ f, Py.endswith f.1 ".txt") reviews_dir.

(** The names of the files whose extraction holds an entity with the id
    [id], in the order the loop adds them. *)
Definition writers (sv : services) (files : Py.dict string) (id : string)
  : list string :=
  omap (λ file,
          match extract_entities_from_review sv file.2 with
          | Some extracted_data =>
              if decide (id ∈ entity_id <$>
                                entities (as_read extracted_data))
              then Some file.1 else None
          | None => None
          end)
       files.

(** [G.nodes[id].get('source_file')], [None] also when [id] is no node. *)
Definition source_file_of (G : Nx.graph) (id : string) : option string :=
  Py.get (Nx.nodes G) id ≫= Nx.source_file.

(** [json.dump] of the summaries: the integer keys become their decimal
    text. *)
Definition json_dump_summaries (summaries : list (nat * string))
  : Py.dict string :=
  (λ kv, (pretty kv.1, kv.2)) <$> summaries.

(** The build: the returned boolean and the index directory after it. *)
Definition build_knowledge_graph (sv : services)
    (reviews_dir : Py.dict string) (index_path : index_dir)
  : outcome bool * index_dir :=
  match initial_graph sv reviews_dir with
  | Raised e => (Raised e, index_path)
  | Ok G =>
      if bool_decide (Nx.number_of_nodes G = 0) then (Ok false, index_path)
      else
        let '(G, communities) := detect_and_store_communities G in
        match generate_community_summaries sv G communities with
        | Raised e => (Raised e, index_path)
        | Ok community_summaries =>
            match create_entity_embeddings_index sv G with
            | None => (Ok false, index_path)
            | Some (faiss_index, faiss_node_ids) =>
                (Ok true,
                 {| graph_pkl := Some G;
                    community_summaries_json :=
                      Some (json_dump_summaries community_summaries);
                    entity_embeddings_faiss := Some faiss_index;
                    faiss_node_ids_json := Some faiss_node_ids |})
            end
        end
  end.

End GraphBuilder.

(* ===================================================================== *)
(** ** query_engine.py *)
(* ===================================================================== *)

Module QueryEngine.

(** The calls a query makes to the services, in order. *)
Inductive call :=
| EmbedContent (task : task_type) (content : string)
| GenerateContent (prompt : string).

(** The [context] dict and the two [seen] sets of step 2. *)
Record context := Context {
  local_graph : list string;
  global_community : list string;
  source_text : list string
}.

Record scan := Scan {
  ctx : context;
  seen_communities : gset nat;
  seen_source_files : gset string
}.

Definition scan0 : scan := Scan (Context [] [] []) ∅ ∅.

Definition local_info (node_data : Nx.node_data) : string :=
  "Entity '" +:+ Py.fmt (Nx.value node_data) +:+
  "' (Type: " +:+ Py.fmt (Nx.type node_data) +:+ ") is related to:".

Definition neighbor_line (neighbor_data : Nx.node_data) : string :=
  "  - '" +:+ Py.fmt (Nx.value neighbor_data) +:+
  "' (Type: " +:+ Py.fmt (Nx.type neighbor_data) +:+ ")".

Definition no_relationships : string := "  - No direct relationships found.".

(** A. The local-graph fragment of one entry point. *)
Definition local_fragment (G : Nx.graph) (node_id : string)
    (node_data : Nx.node_data) : outcome string :=
  neighbors_info ← Py.comprehension
    (λ neighbor_id, neighbor_line <$> Nx.node G neighbor_id)
    (Nx.neighbors G node_id);
  let neighbors_info :=
    if bool_decide (neighbors_info = []) then [no_relationships]
    else neighbors_info in
  mret (local_info node_data +:+ Py.nl +:+ Py.join Py.nl neighbors_info).

Definition summary_fragment (summaries : Py.dict string) (community_id : nat)
  : string :=
  let summary :=
    default "No summary available." (Py.get summaries (pretty community_id)) in
  "This topic belongs to a community summarized as: '" +:+ summary +:+ "'".

Definition excerpt (source_file review_text : string) : string :=
  "--- START OF RELEVANT REVIEW (" +:+ source_file +:+ ") ---" +:+ Py.nl +:+
  review_text +:+ Py.nl +:+ "--- END OF REVIEW ---".

(** B. The community summary, once per community id. *)
Definition add_community (summaries : Py.dict string)
    (node_data : Nx.node_data) (global : list string) (seen : gset nat)
  : list string * gset nat :=
  match Nx.community_id node_data with
  | Some community_id =>
      if bool_decide (community_id ∉ seen) then
        (global ++ [summary_fragment summaries community_id],
         {[community_id]} ∪ seen)
      else (global, seen)
  | None => (global, seen)
  end.

(** C. The source text, once per file; a file that is not there is
    skipped and not marked. *)
Definition add_source (reviews_dir : Py.dict string)
    (node_data : Nx.node_data) (source : list string) (seen : gset string)
  : list string * gset string :=
  match Nx.source_file node_data with
  | Some source_file =>
      if Py.truthy (Some source_file) && bool_decide (source_file ∉ seen)
      then
        match Py.get reviews_dir source_file with
        | Some review_text =>
            (source ++ [excerpt source_file review_text],
             {[source_file]} ∪ seen)
        | None => (source, seen)
        end
      else (source, seen)
  | None => (source, seen)
  end.

(** The body of the loop over the entry points. *)
Definition visit (G : Nx.graph) (summaries reviews_dir : Py.dict string)
    (st : scan) (node_id : string) : outcome scan :=
  node_data ← Nx.node G node_id;
  fragment ← local_fragment G node_id node_data;
  let local := local_graph (ctx st) ++ [fragment] in
  let '(global, seen_c) :=
    add_community summaries node_data
      (global_community (ctx st)) (seen_communities st) in
  let '(source, seen_f) :=
    add_source reviews_dir node_data
      (source_text (ctx st)) (seen_source_files st) in
  mret (Scan (Context local global source) seen_c seen_f).

(** The community id of an entry point, when it has one. *)
Definition community_of (G : Nx.graph) (node_id : string) : option nat :=
  Py.get (Nx.nodes G) node_id ≫= Nx.community_id.

(** The source file of an entry point, when it names a file that is
    there. *)
Definition readable_file_of (G : Nx.graph) (reviews_dir : Py.dict string)
    (node_id : string) : option string :=
  f ← Py.get (Nx.nodes G) node_id ≫= Nx.source_file;
  if Py.truthy (Some f) && Py.contains reviews_dir f then Some f else None.

Definition excerpt_of (reviews_dir : Py.dict string) (source_file : string)
  : string :=
  excerpt source_file (default "" (Py.get reviews_dir source_file)).

(** Step 2: the loop. *)
Definition augment (G : Nx.graph) (summaries reviews_dir : Py.dict string)
    (entry_point_node_ids : list string) : outcome scan :=
  Py.for_each (visit G summaries reviews_dir) entry_point_node_ids scan0.

(** Step 3: the final context string. *)
Definition header : string := "CONTEXT FOR YOUR ANSWER:" +:+ Py.nl +:+ Py.nl.

Definition assemble (c : context) : string :=
  header
  +:+ (if bool_decide (global_community c = []) then ""
       else "## Overall Topic Summaries" +:+ Py.nl +:+
            Py.join Py.nl (global_community c) +:+ Py.nl +:+ Py.nl)
  +:+ (if bool_decide (local_graph c = []) then ""
       else "## Specific Entity Relationships" +:+ Py.nl +:+
            Py.join (Py.nl +:+ Py.nl) (local_graph c) +:+ Py.nl +:+ Py.nl)
  +:+ (if bool_decide (source_text c = []) then ""
       else "## Grounding Source Text from Original Reviews" +:+ Py.nl +:+
            Py.join (Py.nl +:+ Py.nl) (source_text c)).

(** The entry points: [[faiss_node_ids[i] for i in indices[0]]]. *)
Definition entry_points (faiss_node_ids : list string) (indices : list Z)
  : outcome (list string) :=
  Py.comprehension (Py.index faiss_node_ids) indices.

(** The result and the service calls made. *)
Definition retrieve_and_build_context (sv : services) (query : string)
    (G : Nx.graph) (faiss_index : Faiss.index) (faiss_node_ids : list string)
    (summaries reviews_dir : Py.dict string) (top_k : nat)
  : outcome string * list call :=
  let calls := [EmbedContent RETRIEVAL_QUERY query] in
  match embed_content sv RETRIEVAL_QUERY query with
  | Raised e => (Ok "", calls)
  | Ok query_embedding =>
      (indices ← Faiss.search (fvec_L2sqr sv) faiss_index query_embedding
                              top_k;
       entry_point_node_ids ← entry_points faiss_node_ids indices;
       st ← augment G summaries reviews_dir entry_point_node_ids;
       mret (assemble (ctx st)),
       calls)
  end.

Definition missing_index : string :=
  "Could not find the necessary index files. Please build the index first.".

Definition nothing_relevant : string :=
  "I couldn't find any relevant information in the knowledge graph to answer your question.".

Definition generation_error (e : Py.exn) : string :=
  "An error occurred while generating the answer: " +:+ Py.str_exn e.

(** Loading the four artifacts, in the order the code opens them: a
    missing pickle or JSON file raises [FileNotFoundError], a missing
    index file makes [faiss.read_index] raise its own error. *)
Definition load (index_path : index_dir)
  : outcome (Nx.graph * Py.dict string * Faiss.index * list string) :=
  G ← from_option Ok (Raised Py.FileNotFoundError) (graph_pkl index_path);
  summaries ← from_option Ok (Raised Py.FileNotFoundError)
                (community_summaries_json index_path);
  faiss_index ← from_option Ok (Raised Py.RuntimeError)
                  (entity_embeddings_faiss index_path);
  faiss_node_ids ← from_option Ok (Raised Py.FileNotFoundError)
                     (faiss_node_ids_json index_path);
  mret (G, summaries, faiss_index, faiss_node_ids).

(** The prompt of [answer_query_with_graph]. *)
Definition answer_prompt (context_text : string) (query : string) : string :=
  Py.join Py.nl [
    "";
    "    You are an AI assistant for a product manager. Your task is to answer questions based on a knowledge graph built from user reviews.";
    "    Use the provided context, which includes global summaries, local entity relationships, and original review text, to synthesize a comprehensive and actionable answer.";
    Py.join Py.dq ["    Do not mention the internal mechanics (e.g., "; "based on the community summary"; "). Answer the question directly and professionally."];
    "";
    "    " +:+ context_text;
    "    ---";
    "";
    "    USER'S QUESTION:";
    (Py.join Py.dq ["    "; ""]) +:+ query +:+ (Py.join Py.dq [""; ""]);
    "";
    "    ANSWER:";
    "    "
  ].

Definition answer_query_with_graph (sv : services) (query : string)
    (index_path : index_dir) (reviews_dir : Py.dict string)
  : outcome string * list call :=
  match load index_path with
  | Raised Py.FileNotFoundError => (Ok missing_index, [])
  | Raised e => (Raised e, [])
  | Ok (G, summaries, faiss_index, faiss_node_ids) =>
      let '(retrieved, calls) :=
        retrieve_and_build_context sv query G faiss_index faiss_node_ids
                                   summaries reviews_dir 5 in
      match retrieved with
      | Raised e => (Raised e, calls)
      | Ok context_text =>
          if bool_decide (context_text = "") then (Ok nothing_relevant, calls)
          else
            let prompt := answer_prompt context_text query in
            (Ok (Py.try_except (generate_content sv prompt) generation_error),
             calls ++ [GenerateContent prompt])
      end
  end.

End QueryEngine.

(* ===================================================================== *)
(** ** Sample inputs *)
(* ===================================================================== *)

Module Examples.

Definition first_review : string :=
  "Opening a playlist closes the app on my phone.".
Definition second_review : string :=
  "It crashed again after the update. Please add a dark mode.".

(** A reviews directory: two reviews and a file the build passes over. *)
Definition reviews_dir : Py.dict string :=
  [("a.txt", first_review); ("b.txt", second_review);
   ("notes.md", "not a review")].

(** What the model extracts from the two reviews. Both name the entity
    [app_crash]; the second relationship of the first review points at
    an entity that was never extracted. *)
Definition first_extraction : extraction :=
  Extraction
    [Entity "app_crash" "BUG_REPORT" "App crashes on opening playlist";
     Entity "playlist" "PRODUCT_COMPONENT" "Playlist"]
    [Relationship "app_crash" "playlist" "related_to";
     Relationship "negative_sentiment" "app_crash" "describes"].

Definition second_extraction : extraction :=
  Extraction
    [Entity "app_crash" "BUG_REPORT" "App crashed after the update";
     Entity "dark_mode" "FEATURE_REQUEST" "Dark mode"]
    [].

(** The largest finite float32. *)
Definition float32_max : Z := 340282346638528859811704183484516925440%Z.

(** The distances of the samples: the exact squared distance while it
    is no more than the largest float32, and no finite number past it.
    The coordinates of the samples are integers that float32 holds
    exactly, with squared distances that it holds exactly, or integers
    so large that the squared distance overflows. *)
Definition sample_L2sqr (q v : Faiss.vec) : option Z :=
  let x := Faiss.l2 q v in
  if bool_decide (x ≤ float32_max)%Z then Some x else None.

(** The no-break space U+00A0 in UTF-8. *)
Definition nbsp : string :=
  String (Ascii.ascii_of_nat 194) (String (Ascii.ascii_of_nat 160) "").

(** Services that answer every call; the summaries of the model end in
    a no-break space. *)
Definition sv : services :=
  {| generate_content := λ prompt,
       if Py.occurs "Now, analyze this review:" prompt then
         if Py.occurs first_review prompt
         then Ok "Here is the JSON: {first} as requested."
         else Ok "{second}"
       else if Py.occurs "Summarize the main theme" prompt
       then Ok (" Crashes around the playlist. " +:+ nbsp)
       else Ok "Users report crashes when opening playlists.";
     embed_content := λ _ text, Ok [Z.of_nat (String.length text); 1%Z];
     json_loads := λ json_text,
       if decide (json_text = "{first}") then Ok (json_of first_extraction)
       else if decide (json_text = "{second}")
       then Ok (json_of second_extraction)
       else Raised Py.ValueError;
     fvec_L2sqr := sample_L2sqr |}.

(** The same services with the embedding of queries out of order. *)
Definition sv_query_embedding_down : services :=
  {| generate_content := generate_content sv;
     embed_content := λ task text,
       match task with
       | RETRIEVAL_QUERY => Raised (Py.BackendError "429 quota exceeded")
       | RETRIEVAL_DOCUMENT => embed_content sv task text
       end;
     json_loads := json_loads sv;
     fvec_L2sqr := fvec_L2sqr sv |}.

(** The index directory the build leaves for [reviews_dir]. *)
Definition built_index : index_dir :=
  (GraphBuilder.build_knowledge_graph sv reviews_dir no_index).2.

(** An index directory whose index holds no row. *)
Definition empty_index : index_dir :=
  IndexDir (Some Nx.empty) (Some []) (Some (Faiss.IndexFlatL2 2 [])) (Some []).

(** A graph with one edge, from [dark_mode] to [ui]. *)
Definition one_edge : Nx.graph :=
  Nx.Graph
    [("dark_mode", Nx.NodeData (Some "FEATURE_REQUEST") (Some "Dark mode")
                               (Some "a.txt") (Some 0));
     ("ui", Nx.NodeData (Some "PRODUCT_COMPONENT") (Some "Interface")
                        (Some "a.txt") (Some 0));
     ("login", Nx.NodeData (Some "PRODUCT_COMPONENT") (Some "Login")
                           (Some "b.txt") (Some 1))]
    [Nx.Edge "dark_mode" "ui" "related_to"].


Definition query : string := "Why does the app crash?".

(** Services whose embedding calls all fail. *)
Definition sv_embedding_down : services :=
  {| generate_content := generate_content sv;
     embed_content := λ _ _, Raised (Py.BackendError "503 unavailable");
     json_loads := json_loads sv;
     fvec_L2sqr := fvec_L2sqr sv |}.

(** The services of [sv] when the embedding of a query lies so far from
    every row that no squared distance is a finite float32. *)
Definition sv_far_query : services :=
  {| generate_content := generate_content sv;
     embed_content := λ task text,
       match task with
       | RETRIEVAL_QUERY => Ok [100000000000000000000%Z; 1%Z]
       | RETRIEVAL_DOCUMENT => embed_content sv task text
       end;
     json_loads := json_loads sv;
     fvec_L2sqr := fvec_L2sqr sv |}.

(** An answer whose entity lacks the key [value]. *)
Definition incomplete_answer : parsed :=
  Parsed [[("id", "dark_mode"); ("type", "FEATURE_REQUEST")]] [].

(** The services of [sv] when the answer for the second review is
    [incomplete_answer]. *)
Definition sv_incomplete : services :=
  {| generate_content := generate_content sv;
     embed_content := embed_content sv;
     json_loads := λ json_text,
       if decide (json_text = "{second}") then Ok incomplete_answer
       else json_loads sv json_text;
     fvec_L2sqr := fvec_L2sqr sv |}.

End Examples.

(* ===================================================================== *)
(** ** Vocabulary for the further properties *)
(* ===================================================================== *)

Module Text.

(** The character [c] does not occur in [s]. *)
Definition lacks (c : Ascii.ascii) (s : string) : Prop :=
  Py.occurs (String c "") s = false.

Definition space : Ascii.ascii := Ascii.ascii_of_nat 32.
Definition underscore : Ascii.ascii := Ascii.ascii_of_nat 95.

(** [s.lower()] on an ASCII text: the letters [A] to [Z] become [a] to
    [z] and every other character stays as it is. The bytes of a
    character outside ASCII stay too, where Python may change the
    character. *)
Definition lower_char (c : Ascii.ascii) : Ascii.ascii :=
  let n := Ascii.nat_of_ascii c in
  if bool_decide (65 ≤ n ≤ 90) then Ascii.ascii_of_nat (n + 32) else c.

Fixpoint lower (s : string) : string :=
  match s with
  | String c s' => String (lower_char c) (lower s')
  | EmptyString => EmptyString
  end.

(** [s.replace(old, new)] for one-character [old] and [new]. *)
Fixpoint replace (old new : Ascii.ascii) (s : string) : string :=
  match s with
  | String c s' =>
      String (if decide (c = old) then new else c) (replace old new s')
  | EmptyString => EmptyString
  end.

(** The number that the decimal digits at the front of [s] spell after
    the digits already read, which spell [acc]. *)
Fixpoint digits_value (acc : nat) (s : string) : nat :=
  match s with
  | String c s' =>
      match Ascii.is_nat c with
      | Some d => digits_value (10 * acc + d) s'
      | None => acc
      end
  | EmptyString => acc
  end.

(** [int(re.search(r'\d+', s).group())] on an ASCII text: the number
    spelled by the first run of the digits [0] to [9] of [s]; [None]
    when [s] holds no digit, where the code raises. Python takes the
    decimal digits of other scripts for digits too. *)
Fixpoint first_number (s : string) : option nat :=
  match s with
  | String c s' =>
      match Ascii.is_nat c with
      | Some _ => Some (digits_value 0 s)
      | None => first_number s'
      end
  | EmptyString => None
  end.

(** Every character of [s] is an ASCII character: on such a text
    [lower] is Python's [str.lower] and [first_number] is Python's
    search for digits. *)
Fixpoint ascii (s : string) : Prop :=
  match s with
  | String c s' => Ascii.nat_of_ascii c < 128 ∧ ascii s'
  | EmptyString => True
  end.

(** An ASCII text of at most 4300 characters: [int] converts every run
    of its digits, which it refuses by default for a run of more than
    4300 digits. *)
Definition plain (s : string) : Prop :=
  ascii s ∧ String.length s ≤ 4300.

(** No character of [s] is a decimal digit. *)
Fixpoint no_digit (s : string) : Prop :=
  match s with
  | String c s' => Ascii.is_nat c = None ∧ no_digit s'
  | EmptyString => True
  end.

(** [s] does not start with a decimal digit. *)
Definition no_digit_first (s : string) : Prop :=
  match s with
  | String c _ => Ascii.is_nat c = None
  | EmptyString => True
  end.

End Text.

(** The directory [reviews/<name>] of one app: its files, and the
    directory [graphrag_index] inside it when that is there. *)
Record app_dir := AppDir {
  files : Py.dict string;
  graphrag_index : option index_dir
}.

(** The directories under [reviews/], by name, on a file system that
    tells capitals from small letters. A name stands for the path
    [reviews/<name>], which is right for a name that is one path
    component ([Scraper.component]); the empty name, [.], [..] and a
    name with a slash make other paths. *)
Definition disk := Py.dict app_dir.

Module Corpus.

(** The extractions that succeed, each with the name of its file and
    with the entities and relationships that hold their keys, in the
    order the build loop meets them. *)
Definition successes (sv : services) (reviews_dir : Py.dict string)
  : list (string * extraction) :=
  omap (λ file,
          (λ extracted_data, (file.1, GraphBuilder.as_read extracted_data))
            <$> GraphBuilder.extract_entities_from_review sv file.2)
       (GraphBuilder.review_files reviews_dir).

(** The entity ids of those extractions, in the order the loop adds
    them. *)
Definition entity_ids (sv : services) (reviews_dir : Py.dict string)
  : list string :=
  successes sv reviews_dir ≫= λ fe, entity_id <$> entities fe.2.

(** The attribute dict [add_node] leaves for an extracted entity. *)
Definition attrs_of (filename : string) (e : entity) : Nx.node_data :=
  Nx.NodeData (Some (entity_type e)) (Some (entity_value e))
              (Some filename) None.

(** Every node holds the attributes of one entity of the extractions
    [fes]. *)
Definition from_entities (fes : list (string * extraction)) (G : Nx.graph)
  : Prop :=
  ∀ n d, Py.get (Nx.nodes G) n = Some d →
    ∃ fe e, fe ∈ fes ∧ e ∈ entities fe.2 ∧ entity_id e = n ∧
            d = attrs_of fe.1 e.

(** Every edge is the edge of a relationship of the extractions [fes]. *)
Definition from_relationships (fes : list (string * extraction))
    (G : Nx.graph) : Prop :=
  ∀ edge, edge ∈ Nx.edges G →
    ∃ fe rel, fe ∈ fes ∧ rel ∈ relationships fe.2 ∧
              edge = GraphBuilder.edge_of rel.

End Corpus.

(* ===================================================================== *)
(** ** scraper.py *)
(* ===================================================================== *)

Module Scraper.

(** What the selectors of the code find in a review card or in its
    modal: the text of the title, the [aria-label] of the star rating and
    the text of the body. [None] is an element or an attribute that is
    not there, where the code raises. *)
Record fields := Fields {
  title_text : option string;
  aria_label : option string;
  body_text : option string
}.

(** What one round of the extraction loop meets on the page. *)
Inductive card :=
(** The card has no button for more text: the review is read from the
    card. *)
| Short (on_card : fields)
(** The button is clicked and the modal appears: the review is read from
    the modal, which then closes or does not. *)
| Long (in_modal : fields) (closes : bool)
(** The card is not on the page any more, the click fails or no modal
    appears. *)
| Broken.

(** The page of an app: the review cards in the batches in which the
    page shows them, the first batch at once and one more for each click
    on the button for more reviews, which is there as long as a batch is
    left. Starting the browser and opening the page can fail, and that
    exception leaves the function; once the page is open the loading
    loop meets the button or the end of its wait, and nothing else. *)
Definition browser := string → outcome (list (list card)).

(** One entry of [all_reviews_data]. *)
Record row := Row { title : string; rating : nat; review : string }.

Definition sanitized (app_name : string) : string :=
  Text.replace Text.space Text.underscore (Text.lower app_name).


Definition url (country sanitized_app_name app_id : string) : string :=
  "https://apps.apple.com/" +:+ country +:+ "/app/" +:+ sanitized_app_name
  +:+ "/id" +:+ app_id +:+ "?see-all=reviews".

(** Step 2, the loop that loads the batches: it ends when the page
    shows [review_count] cards or more, or when the wait for the button
    times out. *)
Fixpoint load_batches (review_count : nat) (reviews_on_page : list card)
    (pending : list (list card)) : list card :=
  if bool_decide (review_count ≤ length reviews_on_page) then reviews_on_page
  else
    match pending with
    | batch :: pending' =>
        load_batches review_count (reviews_on_page ++ batch) pending'
    | [] => reviews_on_page
    end.

(** The title, the rating and the body, as the code reads them from a
    card or from a modal; any step that raises gives [None]. *)
Definition read (f : fields) : option row :=
  title ← title_text f;
  aria_label ← aria_label f;
  rating ← Text.first_number aria_label;
  body ← body_text f;
  Some (Row (Py.strip title) rating (Py.strip body)).

(** One round of the extraction loop. Every exception is caught and the
    card skipped; the review of a modal is appended before the modal is
    closed. *)
Definition extract (all_reviews_data : list row) (c : card) : list row :=
  match c with
  | Short on_card =>
      match read on_card with
      | Some data => all_reviews_data ++ [data]
      | None => all_reviews_data
      end
  | Long in_modal _ =>
      match read in_modal with
      | Some data => all_reviews_data ++ [data]
      | None => all_reviews_data
      end
  | Broken => all_reviews_data
  end.



(** The review that a round of the loop takes from a card, if any. *)
Definition review_of (c : card) : option row :=
  match c with
  | Short on_card => read on_card
  | Long in_modal _ => read in_modal
  | Broken => None
  end.

(** Steps 2 and 3 on an opened page. *)
Definition collect (review_count : nat) (page : list (list card))
  : list row :=
  let review_elements :=
    load_batches review_count (default [] (head page)) (tail page) in
  fold_left extract
    (take (length review_elements `min` review_count) review_elements) [].

Definition review_text (r : row) : string :=
  "Title: " +:+ title r +:+ Py.nl +:+
  "Rating: " +:+ pretty (rating r) +:+ "/5" +:+ Py.nl +:+ Py.nl +:+ review r.

Definition file_name (index : nat) : string :=
  "review_" +:+ pretty (index + 1) +:+ ".txt".

(** Step 4: one file for each row, written over a file of that name. *)
Definition save (all_reviews_data : list row) (dir : Py.dict string)
  : Py.dict string :=
  fold_left (λ d ir, Py.upsert (λ _, review_text ir.2) (file_name ir.1) d)
            (imap pair all_reviews_data) dir.


(** The returned directory, by its name under [reviews/] ([None] as in
    the code), and the disk after the call. *)
Definition scrape_and_save_reviews (open_page : browser)
    (app_name app_id country : string) (review_count : nat) (fs : disk)
  : outcome (option string) * disk :=
  let sanitized_app_name := sanitized app_name in
  let output_dir := sanitized_app_name in
  if Py.contains fs output_dir then (Ok (Some output_dir), fs)
  else
    let fs := Py.upsert (λ _, AppDir [] None) output_dir fs in
    match open_page (url country sanitized_app_name app_id) with
    | Raised e => (Raised e, fs)
    | Ok page =>
        let all_reviews_data := collect review_count page in
        if bool_decide (all_reviews_data = []) then (Ok None, fs)
        else
          (Ok (Some output_dir),
           Py.upsert
             (λ old, AppDir (save all_reviews_data
                                  (default [] (files <$> old)))
                            (old ≫= graphrag_index))
             output_dir fs)
    end.

End Scraper.

(* ===================================================================== *)
(** ** main.py *)
(* ===================================================================== *)

Module Main.

(** How a run of [main] ends. *)
Inductive ending :=
(** The scraper returned no directory. *)
| NoReviews
(** The build returned [False]. *)
| BuildFailed
(** The user typed [exit]. *)
| Exit
(** An exception left [main]. *)
| Uncaught (e : Py.exn)
(** [input()] met the end of the input. *)
| EOFError.

(** A run: the answers printed, in order, how it ended, and the disk it
    left. *)
Record run := Run {
  answers : list string;
  ended : ending;
  disk_after : disk
}.

(** Step 3, the query loop: the answers printed and the way out. *)
Fixpoint query_loop (sv : services) (index_path : index_dir)
    (reviews_dir : Py.dict string) (stdin : list string)
  : list string * ending :=
  match stdin with
  | [] => ([], EOFError)
  | query :: stdin' =>
      if decide (Text.lower query = "exit") then ([], Exit)
      else
        match (QueryEngine.answer_query_with_graph sv query index_path
                                                   reviews_dir).1 with
        | Ok answer =>
            let '(answers, e) :=
              query_loop sv index_path reviews_dir stdin' in
            (answer :: answers, e)
        | Raised e => ([], Uncaught e)
        end
  end.

(** The files of the directory [name], in the order in which they were
    written. [os.listdir] gives them in an order of its own; the order
    matters to the build, which goes through the files one by one, and
    not to a query, which opens a file by its name. *)
Definition listdir (fs : disk) (name : string) : Py.dict string :=
  default [] (files <$> Py.get fs name).

(** [main()], with the lines the user types as [stdin]. *)
Definition main (sv : services) (open_page : Scraper.browser)
    (stdin : list string) (fs : disk) : run :=
  match stdin with
  | app_name :: country :: app_id :: stdin' =>
      let sanitized_app_name := Scraper.sanitized app_name in
      let reviews_dir := sanitized_app_name in
      match Py.get fs reviews_dir ≫= graphrag_index with
      | Some index_path =>
          let '(answers, e) :=
            query_loop sv index_path (listdir fs reviews_dir) stdin' in
          Run answers e fs
      | None =>
          let '(scraped_dir, fs) :=
            Scraper.scrape_and_save_reviews open_page app_name app_id
                                            country 200 fs in
          match scraped_dir with
          | Raised e => Run [] (Uncaught e) fs
          | Ok None => Run [] NoReviews fs
          | Ok (Some scraped_dir) =>
              let '(success, index_path) :=
                GraphBuilder.build_knowledge_graph
                  sv (listdir fs scraped_dir) no_index in
              match success with
              | Raised e => Run [] (Uncaught e) fs
              | Ok false => Run [] BuildFailed fs
              | Ok true =>
                  let fs :=
                    Py.upsert
                      (λ old, AppDir (default [] (files <$> old))
                                     (Some index_path))
                      reviews_dir fs in
                  let '(answers, e) :=
                    query_loop sv index_path (listdir fs reviews_dir)
                               stdin' in
                  Run answers e fs
              end
          end
      end
  | _ => Run [] EOFError fs
  end.

End Main.

(* ===================================================================== *)
(** ** Further sample inputs *)
(* ===================================================================== *)

Module Samples.

(** Services whose generation model is out of order. *)
Definition sv_generation_down : services :=
  {| generate_content := λ _, Raised (Py.BackendError "503 unavailable");
     embed_content := embed_content Examples.sv;
     json_loads := json_loads Examples.sv;
     fvec_L2sqr := fvec_L2sqr Examples.sv |}.

(** Two communities of the nodes of [Examples.one_edge]. *)
Definition communities : list (list string) :=
  [["dark_mode"; "ui"]; ["login"]].

(** An index of two rows whose id array names a node that
    [Examples.one_edge] does not hold. *)
Definition stale_index : Faiss.index :=
  Faiss.IndexFlatL2 2 [[20; 1]; [90; 1]]%Z.

Definition stale_ids : list string := ["ui"; "removed_entity"].

(** A context with one fragment of each kind. *)
Definition small_context : QueryEngine.context :=
  QueryEngine.Context ["Entity 'Login' (Type: PRODUCT_COMPONENT) is related to:"]
                      ["This topic belongs to a community summarized as: 'Login.'"]
                      ["--- START OF RELEVANT REVIEW (b.txt) ---"].

(** A page of two batches: a short review, a card that fails, a long
    review whose modal does not close, and a card without a rating. *)
Definition page : list (list Scraper.card) :=
  [[Scraper.Short
      (Scraper.Fields (Some " Great app ") (Some "5 out of 5")
                      (Some "Love the playlists."));
    Scraper.Broken];
   [Scraper.Long
      (Scraper.Fields (Some "Crashes") (Some "1 out of 5")
                      (Some "Opening a playlist closes the app on my phone."))
      false;
    Scraper.Short
      (Scraper.Fields (Some "No stars") None (Some "No rating given."))]].

(** A browser that shows [page] for Spotify Music in the US store and
    fails on every other address. *)
Definition open_page : Scraper.browser := λ url,
  if decide (url = Scraper.url "us" "spotify_music" "324684580")
  then Ok page
  else Raised (Py.BackendError "net::ERR_NAME_NOT_RESOLVED").

(** A browser that cannot be started. *)
Definition no_browser : Scraper.browser := λ _,
  Raised (Py.BackendError "chrome not reachable").

End Samples.

(* ===================================================================== *)
(** ** Facts about the Python values *)
(* ===================================================================== *)

Section PyFacts.

Context {V : Type}.
Implicit Types (d : Py.dict V) (k : string).

Lemma get_None d k : Py.get d k = None ↔ k ∉ Py.keys d.
Proof.
  induction d as [|[k' v] d IH]; simpl.
  - split; [intros _; apply not_elem_of_nil | done].
  - case_decide as Hk; subst.
    + split; [done | intros H; exfalso; apply H; left].
    + rewrite IH, not_elem_of_cons. naive_solver.
Qed.

Lemma get_Some_elem d k v : Py.get d k = Some v → (k, v) ∈ d.
Proof.
  induction d as [|[k' v'] d IH]; simpl; [done|].
  case_decide; subst.
  - intros [= ->]. left.
  - intros Hg. right. by apply IH.
Qed.

Lemma get_is_Some d k : is_Some (Py.get d k) ↔ k ∈ Py.keys d.
Proof.
  destruct (Py.get d k) eqn:E.
  - split; [intros _|by eauto].
    apply get_Some_elem in E. unfold Py.keys.
    apply list_elem_of_fmap. by exists (k, v).
  - apply get_None in E. split; [by intros [? ?] | done].
Qed.

Lemma contains_true d k : Py.contains d k = true ↔ k ∈ Py.keys d.
Proof. unfold Py.contains. rewrite bool_decide_eq_true. apply get_is_Some. Qed.

Lemma contains_false d k : Py.contains d k = false ↔ k ∉ Py.keys d.
Proof.
  unfold Py.contains. rewrite bool_decide_eq_false, get_is_Some. done.
Qed.

Lemma elem_get d k v : NoDup (Py.keys d) → (k, v) ∈ d → Py.get d k = Some v.
Proof.
  induction d as [|[k' v'] d IH]; simpl; intros Hnd Hin.
  - by apply elem_of_nil in Hin.
  - apply NoDup_cons in Hnd as [Hk' Hnd].
    apply elem_of_cons in Hin as [[= -> ->]|Hin].
    + by rewrite decide_True.
    + rewrite decide_False; [by apply IH|].
      intros ->. apply Hk'. apply list_elem_of_fmap. by exists (k', v).
Qed.

Lemma get_upsert_eq (f : option V → V) k d :
  Py.get (Py.upsert f k d) k = Some (f (Py.get d k)).
Proof.
  induction d as [|[k' v] d IH]; simpl.
  - by rewrite decide_True.
  - case_decide; subst; simpl.
    + by rewrite decide_True.
    + by rewrite decide_False.
Qed.

Lemma get_upsert_ne (f : option V → V) k k' d :
  k ≠ k' → Py.get (Py.upsert f k d) k' = Py.get d k'.
Proof.
  intros Hne. induction d as [|[k0 v] d IH]; simpl.
  - by rewrite decide_False.
  - destruct (decide (k = k0)); subst; simpl.
    + by rewrite !decide_False.
    + case_decide; [done | apply IH].
Qed.

Lemma keys_upsert_old (f : option V → V) k d :
  k ∈ Py.keys d → Py.keys (Py.upsert f k d) = Py.keys d.
Proof.
  induction d as [|[k' v] d IH]; simpl; intros Hin.
  - by apply elem_of_nil in Hin.
  - case_decide; subst; simpl; [done|].
    apply elem_of_cons in Hin as [?|Hin]; [done|].
    f_equal. by apply IH.
Qed.

Lemma keys_upsert_new (f : option V → V) k d :
  k ∉ Py.keys d → Py.keys (Py.upsert f k d) = Py.keys d ++ [k].
Proof.
  induction d as [|[k' v] d IH]; simpl; intros Hin; [done|].
  apply not_elem_of_cons in Hin as [? Hin].
  rewrite decide_False by done. simpl. f_equal. by apply IH.
Qed.

Lemma upsert_new (f : option V → V) k d :
  k ∉ Py.keys d → Py.upsert f k d = d ++ [(k, f None)].
Proof.
  induction d as [|[k' v] d IH]; simpl; intros Hin; [done|].
  apply not_elem_of_cons in Hin as [? Hin].
  rewrite decide_False by done. f_equal. by apply IH.
Qed.

Lemma upsert_id (f : option V → V) k d :
  (∀ v, f (Some v) = v) → k ∈ Py.keys d → Py.upsert f k d = d.
Proof.
  intros Hf. induction d as [|[k' v] d IH]; simpl; intros Hin.
  - by apply elem_of_nil in Hin.
  - case_decide; subst; [by rewrite Hf|].
    apply elem_of_cons in Hin as [?|Hin]; [done|].
    f_equal. by apply IH.
Qed.

Lemma elem_of_keys_upsert (f : option V → V) k k' d :
  k' ∈ Py.keys (Py.upsert f k d) ↔ k' = k ∨ k' ∈ Py.keys d.
Proof.
  destruct (decide (k ∈ Py.keys d)) as [Hin|Hin].
  - rewrite keys_upsert_old by done. naive_solver.
  - rewrite keys_upsert_new, elem_of_app, list_elem_of_singleton by done.
    naive_solver.
Qed.

Lemma NoDup_keys_upsert (f : option V → V) k d :
  NoDup (Py.keys d) → NoDup (Py.keys (Py.upsert f k d)).
Proof.
  intros Hnd. destruct (decide (k ∈ Py.keys d)) as [Hin|Hin].
  - by rewrite keys_upsert_old.
  - rewrite keys_upsert_new by done. apply NoDup_app. split; [done|].
    split; [|apply NoDup_singleton].
    intros x Hx ->%list_elem_of_singleton. done.
Qed.

End PyFacts.

Section ListFacts.

Context `{EqDecision A}.
Implicit Types (l : list A) (x : A).

Lemma elem_of_distinct l x : x ∈ Py.distinct l ↔ x ∈ l.
Proof.
  induction l as [|y l IH]; simpl; [done|].
  rewrite !elem_of_cons, list_elem_of_filter, IH.
  destruct (decide (x = y)); naive_solver.
Qed.

Lemma NoDup_distinct l : NoDup (Py.distinct l).
Proof.
  induction l as [|y l IH]; simpl; [apply NoDup_nil_2|].
  apply NoDup_cons. split.
  - rewrite list_elem_of_filter. naive_solver.
  - by apply NoDup_filter.
Qed.

End ListFacts.

Lemma filter_none {A} (P : A → Prop) `{∀ x, Decision (P x)} (l : list A) :
  (∀ x, x ∈ l → ¬ P x) → filter P l = [].
Proof.
  induction l as [|x l IH]; intros Hl; [done|].
  rewrite filter_cons_False by (apply Hl; left).
  apply IH. intros y Hy. apply Hl. by right.
Qed.

Lemma omap_cons_option_list {A B} (f : A → option B) x xs :
  omap f (x :: xs) = option_list (f x) ++ omap f xs.
Proof. simpl. by destruct (f x). Qed.

Section Unseen.

Context `{Countable A}.
Implicit Types (l : list A) (x : A) (seen : gset A).

Lemma unseen_nil seen : Py.unseen seen [] = [].
Proof. done. Qed.

Lemma unseen_cons_seen seen x l :
  x ∈ seen → Py.unseen seen (x :: l) = Py.unseen seen l.
Proof.
  intros Hx. unfold Py.unseen. simpl.
  rewrite filter_cons_False by (intros ?; done).
  rewrite list_filter_filter. apply list_filter_iff.
  intros y. split; [naive_solver|]. intros Hy. split; [done|].
  intros ->. done.
Qed.

Lemma unseen_cons_new seen x l :
  x ∉ seen → Py.unseen seen (x :: l) = x :: Py.unseen ({[x]} ∪ seen) l.
Proof.
  intros Hx. unfold Py.unseen. simpl.
  rewrite filter_cons_True by done. f_equal.
  rewrite list_filter_filter. apply list_filter_iff.
  intros y. rewrite not_elem_of_union, not_elem_of_singleton. naive_solver.
Qed.

Lemma unseen_empty l : Py.unseen ∅ l = Py.distinct l.
Proof.
  unfold Py.unseen. induction (Py.distinct l) as [|y l' IH]; [done|].
  rewrite filter_cons_True by apply not_elem_of_empty. by f_equal.
Qed.

End Unseen.

Section IndexFacts.

Context {A : Type}.
Implicit Types (l : list A).

Lemma index_front l (i : nat) x :
  l !! i = Some x → Py.index l (Z.of_nat i) = Ok x.
Proof.
  intros Hi. unfold Py.index. cbv zeta.
  pose proof (lookup_lt_Some _ _ _ Hi) as Hlt.
  rewrite (bool_decide_eq_false_2 (Z.of_nat i < 0)%Z) by lia.
  rewrite bool_decide_eq_true_2 by lia.
  by rewrite Nat2Z.id, Hi.
Qed.

Lemma index_minus_one l x : last l = Some x → Py.index l (-1) = Ok x.
Proof.
  intros Hl. unfold Py.index.
  assert (0 < length l) as Hlen.
  { destruct l; simpl; [done | lia]. }
  cbv zeta. rewrite (bool_decide_eq_true_2 (-1 < 0)%Z) by lia.
  rewrite bool_decide_eq_true_2 by lia.
  replace (Z.to_nat (-1 + Z.of_nat (length l))) with (pred (length l)) by lia.
  by rewrite <- last_lookup, Hl.
Qed.

Lemma comprehension_app {B} (f : A → outcome B) xs ys bs cs :
  Py.comprehension f xs = Ok bs → Py.comprehension f ys = Ok cs →
  Py.comprehension f (xs ++ ys) = Ok (bs ++ cs).
Proof.
  revert bs. induction xs as [|x xs IH]; simpl; intros bs.
  - by intros [= <-].
  - destruct (f x) as [b|e]; simpl; [|done].
    destruct (Py.comprehension f xs) as [bs'|e]; simpl; [|done].
    intros [= <-] Hys. by rewrite (IH bs' eq_refl Hys).
Qed.

Lemma comprehension_replicate {B} (f : A → outcome B) x b n :
  f x = Ok b → Py.comprehension f (replicate n x) = Ok (replicate n b).
Proof.
  intros Hx. induction n as [|n IH]; simpl; [done|]. by rewrite Hx, IH.
Qed.

Lemma comprehension_length {B} (f : A → outcome B) xs bs :
  Py.comprehension f xs = Ok bs → length bs = length xs.
Proof.
  revert bs. induction xs as [|x xs IH]; simpl; intros bs.
  - by intros [= <-].
  - destruct (f x) as [b|e]; simpl; [|done].
    destruct (Py.comprehension f xs) as [bs'|e]; simpl; [|done].
    intros [= <-]. simpl. f_equal. by apply IH.
Qed.

Lemma comprehension_lookup {B} (f : A → outcome B) xs bs i x :
  Py.comprehension f xs = Ok bs → xs !! i = Some x →
  ∃ b, bs !! i = Some b ∧ f x = Ok b.
Proof.
  revert bs i. induction xs as [|y xs IH]; simpl; intros bs i; [done|].
  destruct (f y) as [b|e] eqn:Hy; simpl; [|done].
  destruct (Py.comprehension f xs) as [bs'|e]; simpl; [|done].
  intros [= <-]. destruct i as [|i]; simpl.
  - intros [= ->]. eauto.
  - intros Hi. by apply (IH bs' i).
Qed.

End IndexFacts.

Section StringFacts.

Implicit Types (s t sub : string).

Lemma string_app_cons c s t : String c s +:+ t = String c (s +:+ t).
Proof. reflexivity. Qed.

Lemma string_app_nil_r s : s +:+ "" = s.
Proof. induction s as [|c s IH]; [done|]. by rewrite string_app_cons, IH. Qed.

Lemma string_app_assoc s t u : (s +:+ t) +:+ u = s +:+ t +:+ u.
Proof.
  induction s as [|c s IH]; [done|]. by rewrite !string_app_cons, IH.
Qed.

Lemma occurs_unfold sub s :
  Py.occurs sub s =
  Py.startswith s sub ||
  match s with String _ s' => Py.occurs sub s' | EmptyString => false end.
Proof. by destruct s. Qed.

Lemma startswith_app sub post : Py.startswith (sub +:+ post) sub = true.
Proof.
  induction sub as [|c sub IH]; [by destruct post|].
  rewrite string_app_cons. simpl. by rewrite bool_decide_eq_true_2, IH.
Qed.

Lemma occurs_here sub post : Py.occurs sub (sub +:+ post) = true.
Proof. by rewrite occurs_unfold, startswith_app. Qed.

Lemma occurs_after sub pre s :
  Py.occurs sub s = true → Py.occurs sub (pre +:+ s) = true.
Proof.
  intros Ho. induction pre as [|c pre IH]; [done|].
  rewrite string_app_cons, occurs_unfold, IH. apply orb_true_r.
Qed.

Lemma occurs_app sub pre post : Py.occurs sub (pre +:+ sub +:+ post) = true.
Proof. apply occurs_after, occurs_here. Qed.

Lemma occurs_suffix sub pre : Py.occurs sub (pre +:+ sub) = true.
Proof.
  apply occurs_after. rewrite <- (string_app_nil_r sub) at 2.
  apply occurs_here.
Qed.

Lemma join_cons sep x y (parts : list string) :
  Py.join sep (x :: y :: parts) = x +:+ sep +:+ Py.join sep (y :: parts).
Proof. reflexivity. Qed.

Lemma occurs_join sep (parts : list string) x :
  x ∈ parts → Py.occurs x (Py.join sep parts) = true.
Proof.
  induction parts as [|y parts IH]; intros Hx.
  - by apply elem_of_nil in Hx.
  - destruct parts as [|z parts].
    + apply list_elem_of_singleton in Hx as ->.
      apply (occurs_suffix y "").
    + rewrite join_cons.
      apply elem_of_cons in Hx as [->|Hx].
      * apply occurs_here.
      * rewrite <- string_app_assoc. by apply occurs_after, IH.
Qed.


End StringFacts.

(* ===================================================================== *)
(** ** Facts about the graph *)
(* ===================================================================== *)

Lemma fold_left_preserves {S B} (P : S → Prop) (step : S → B → S) l x :
  (∀ y b, P y → P (step y b)) → P x → P (fold_left step l x).
Proof.
  intros Hstep. revert x. induction l as [|b l IH]; intros x Hx; simpl;
    [done | by apply IH, Hstep].
Qed.

Section GraphFacts.

Implicit Types (G : Nx.graph) (n u v : string) (a : Nx.node_data).

Lemma has_node_true G n : Nx.has_node G n = true ↔ n ∈ Py.keys (Nx.nodes G).
Proof. apply contains_true. Qed.

Lemma has_node_false G n : Nx.has_node G n = false ↔ n ∉ Py.keys (Nx.nodes G).
Proof. apply contains_false. Qed.

Lemma node_Ok G n a : Nx.node G n = Ok a ↔ Py.get (Nx.nodes G) n = Some a.
Proof.
  unfold Nx.node. destruct (Py.get (Nx.nodes G) n); naive_solver.
Qed.

Lemma node_total G n :
  n ∈ Py.keys (Nx.nodes G) → ∃ a, Nx.node G n = Ok a.
Proof.
  intros [a Ha]%get_is_Some. exists a. by apply node_Ok.
Qed.

Lemma update_no_attrs a : Nx.update Nx.no_attrs a = a.
Proof. by destruct a. Qed.

Lemma elem_of_keys_add_node G n a n' :
  n' ∈ Py.keys (Nx.nodes (Nx.add_node G n a)) ↔
  n' = n ∨ n' ∈ Py.keys (Nx.nodes G).
Proof. apply elem_of_keys_upsert. Qed.

Lemma keys_add_node_old G n a :
  n ∈ Py.keys (Nx.nodes G) →
  Py.keys (Nx.nodes (Nx.add_node G n a)) = Py.keys (Nx.nodes G).
Proof. apply keys_upsert_old. Qed.

Lemma get_add_node_eq G n a :
  Py.get (Nx.nodes (Nx.add_node G n a)) n =
  Some (Nx.update a (default Nx.no_attrs (Py.get (Nx.nodes G) n))).
Proof.
  exact (get_upsert_eq
           (λ old, Nx.update a (default Nx.no_attrs old)) n (Nx.nodes G)).
Qed.

Lemma get_add_node_ne G n a n' :
  n ≠ n' →
  Py.get (Nx.nodes (Nx.add_node G n a)) n' = Py.get (Nx.nodes G) n'.
Proof. apply get_upsert_ne. Qed.

Lemma add_node_no_attrs G n :
  n ∈ Py.keys (Nx.nodes G) → Nx.add_node G n Nx.no_attrs = G.
Proof.
  intros Hn. destruct G as [ns es]. unfold Nx.add_node. simpl in *.
  f_equal. apply upsert_id; [|done]. intros d. apply update_no_attrs.
Qed.

Lemma add_node_wf G n a : Nx.wf G → Nx.wf (Nx.add_node G n a).
Proof.
  intros [Hnd He]. split.
  - by apply NoDup_keys_upsert.
  - eapply Forall_impl; [exact He|]. intros e [Hs Hd].
    split; apply elem_of_keys_add_node; auto.
Qed.

(** With both endpoints present, [add_edge] only appends the edge. *)
Lemma add_edge_present G u v t :
  u ∈ Py.keys (Nx.nodes G) → v ∈ Py.keys (Nx.nodes G) →
  Nx.add_edge G u v t = Nx.Graph (Nx.nodes G) (Nx.edges G ++ [Nx.Edge u v t]).
Proof.
  intros Hu Hv. unfold Nx.add_edge. cbv zeta.
  rewrite (add_node_no_attrs G u Hu), (add_node_no_attrs G v Hv). done.
Qed.

Lemma wf_edge G e :
  Nx.wf G → e ∈ Nx.edges G →
  Nx.src e ∈ Py.keys (Nx.nodes G) ∧ Nx.dst e ∈ Py.keys (Nx.nodes G).
Proof. intros [_ He] Hin. by apply (proj1 (Forall_forall _ _) He). Qed.

Lemma empty_wf : Nx.wf Nx.empty.
Proof.
  split; [apply NoDup_nil_2 | apply Forall_nil_2].
Qed.

(** *** Step 1 of the build *)

Lemma add_relationship_present G (rel : relationship) :
  rel_source rel ∈ Py.keys (Nx.nodes G) →
  rel_target rel ∈ Py.keys (Nx.nodes G) →
  GraphBuilder.add_relationship G rel =
  Nx.Graph (Nx.nodes G)
    (Nx.edges G ++ [Nx.Edge (rel_source rel) (rel_target rel) (rel_type rel)]).
Proof.
  intros Hs Ht. unfold GraphBuilder.add_relationship.
  rewrite (proj2 (has_node_true G _) Hs), (proj2 (has_node_true G _) Ht).
  by apply add_edge_present.
Qed.

Lemma add_relationship_dangling G (rel : relationship) :
  rel_source rel ∉ Py.keys (Nx.nodes G) ∨
  rel_target rel ∉ Py.keys (Nx.nodes G) →
  GraphBuilder.add_relationship G rel = G.
Proof.
  unfold GraphBuilder.add_relationship.
  intros [H|H]; apply has_node_false in H; rewrite H;
    [done | by rewrite andb_false_r].
Qed.

Lemma nodes_add_relationship G (rel : relationship) :
  Nx.nodes (GraphBuilder.add_relationship G rel) = Nx.nodes G.
Proof.
  destruct (decide (rel_source rel ∈ Py.keys (Nx.nodes G))) as [Hs|Hs];
    [|by rewrite add_relationship_dangling by auto].
  destruct (decide (rel_target rel ∈ Py.keys (Nx.nodes G))) as [Ht|Ht];
    [|by rewrite add_relationship_dangling by auto].
  by rewrite add_relationship_present.
Qed.

Lemma nodes_add_relationships G (rels : list relationship) :
  Nx.nodes (fold_left GraphBuilder.add_relationship rels G) = Nx.nodes G.
Proof.
  revert G. induction rels as [|rel rels IH]; intros G; simpl; [done|].
  by rewrite IH, nodes_add_relationship.
Qed.

Lemma add_relationship_wf G (rel : relationship) :
  Nx.wf G → Nx.wf (GraphBuilder.add_relationship G rel).
Proof.
  intros [Hnd He].
  destruct (decide (rel_source rel ∈ Py.keys (Nx.nodes G))) as [Hs|Hs];
    [|by rewrite add_relationship_dangling by auto].
  destruct (decide (rel_target rel ∈ Py.keys (Nx.nodes G))) as [Ht|Ht];
    [|by rewrite add_relationship_dangling by auto].
  rewrite add_relationship_present by done. split; [done|]. simpl.
  apply Forall_app. split; [done|]. by apply Forall_singleton.
Qed.

Lemma add_entity_wf f G (e : entity) :
  Nx.wf G → Nx.wf (GraphBuilder.add_entity f G e).
Proof. apply add_node_wf. Qed.

Lemma add_extraction_wf f G (ex : extraction) :
  Nx.wf G → Nx.wf (GraphBuilder.add_extraction f G ex).
Proof.
  intros Hwf. unfold GraphBuilder.add_extraction.
  apply fold_left_preserves; [apply add_relationship_wf|].
  apply fold_left_preserves; [apply add_entity_wf | done].
Qed.

(** *** The loops over the objects of an answer *)

Lemma for_each_invariant {S B} (P : S → Prop) (body : S → B → outcome S)
    l x x' :
  (∀ y b y', P y → body y b = Ok y' → P y') →
  P x → Py.for_each body l x = Ok x' → P x'.
Proof.
  intros Hbody. revert x. induction l as [|b l IH]; intros x Hx; simpl.
  - by intros [= <-].
  - destruct (body x b) as [y|] eqn:Hy; [|done]. simpl.
    apply IH. by eapply Hbody.
Qed.

Lemma add_entity_object_Ok f G (o : Py.dict string) G1 :
  GraphBuilder.add_entity_object f G o = Ok G1 →
  ∃ e, GraphBuilder.read_entity o = Ok e ∧
       G1 = GraphBuilder.add_entity f G e.
Proof.
  unfold GraphBuilder.add_entity_object.
  destruct (GraphBuilder.read_entity o) as [e|]; [|done].
  intros [= <-]. eauto.
Qed.

Lemma for_each_entities f (os : list (Py.dict string)) G G1 :
  Py.for_each (GraphBuilder.add_entity_object f) os G = Ok G1 →
  G1 = fold_left (GraphBuilder.add_entity f)
         (omap (λ o, Py.returned (GraphBuilder.read_entity o)) os) G ∧
  Forall (λ o, ∃ e, GraphBuilder.read_entity o = Ok e) os.
Proof.
  revert G. induction os as [|o os IH]; intros G.
  - by intros [= <-].
  - cbn [Py.for_each]. rewrite omap_cons_option_list.
    destruct (GraphBuilder.add_entity_object f G o) as [G2|] eqn:Ho; [|done].
    apply add_entity_object_Ok in Ho as (e & He & ->). rewrite He.
    cbn [mbind Py.outcome_bind Py.returned option_list app fold_left].
    intros [-> Hall]%IH. split; [done|]. constructor; eauto.
Qed.

Lemma add_relationship_object_cases G (o : Py.dict string) G' :
  GraphBuilder.add_relationship_object G o = Ok G' →
  match GraphBuilder.read_relationship o with
  | Ok rel => G' = GraphBuilder.add_relationship G rel
  | Raised _ => G' = G
  end.
Proof.
  unfold GraphBuilder.add_relationship_object, GraphBuilder.read_relationship,
    GraphBuilder.add_relationship.
  destruct (Py.item o "source") as [source|]; [|done]. simpl.
  destruct (Nx.has_node G source) eqn:Hs.
  - destruct (Py.item o "target") as [target|]; [|done]. simpl.
    destruct (Nx.has_node G target) eqn:Ht.
    + destruct (Py.item o "type") as [type|]; [|done]. simpl.
      rewrite Hs, Ht. by intros [= <-].
    + intros [= <-]. destruct (Py.item o "type"); simpl; [|done].
      by rewrite Hs, Ht.
  - intros [= <-]. destruct (Py.item o "target"); simpl; [|done].
    destruct (Py.item o "type"); simpl; [|done]. by rewrite Hs.
Qed.

Lemma for_each_relationships (os : list (Py.dict string)) G G' :
  Py.for_each GraphBuilder.add_relationship_object os G = Ok G' →
  G' = fold_left GraphBuilder.add_relationship
         (omap (λ o, Py.returned (GraphBuilder.read_relationship o)) os) G.
Proof.
  revert G. induction os as [|o os IH]; intros G.
  - by intros [= <-].
  - cbn [Py.for_each]. rewrite omap_cons_option_list.
    destruct (GraphBuilder.add_relationship_object G o) as [G1|] eqn:Ho;
      [|done].
    cbn [mbind Py.outcome_bind]. intros ->%IH.
    apply add_relationship_object_cases in Ho.
    destruct (GraphBuilder.read_relationship o); simpl; by subst G1.
Qed.

(** When the two loops go through they add what [as_read] holds. *)
Lemma add_parsed_as_read f G (p : parsed) G' :
  GraphBuilder.add_parsed f G p = Ok G' →
  G' = GraphBuilder.add_extraction f G (GraphBuilder.as_read p).
Proof.
  unfold GraphBuilder.add_parsed, GraphBuilder.add_extraction.
  destruct (Py.for_each _ (entity_objects p) G) as [G1|] eqn:He; [|done].
  simpl. intros ->%for_each_relationships.
  by apply for_each_entities in He as [-> _].
Qed.

Lemma read_entity_object (e : entity) :
  GraphBuilder.read_entity (entity_object e) = Ok e.
Proof. by destruct e. Qed.

Lemma read_relationship_object (rel : relationship) :
  GraphBuilder.read_relationship (relationship_object rel) = Ok rel.
Proof. by destruct rel. Qed.

Lemma as_read_json_of (ex : extraction) :
  GraphBuilder.as_read (json_of ex) = ex.
Proof.
  destruct ex as [es rels]. unfold GraphBuilder.as_read, json_of.
  cbn [entity_objects relationship_objects entities relationships].
  f_equal.
  - induction es as [|e es IH]; [done|].
    rewrite fmap_cons, omap_cons_option_list, read_entity_object, IH. done.
  - induction rels as [|rel rels IH]; [done|].
    rewrite fmap_cons, omap_cons_option_list, read_relationship_object, IH.
    done.
Qed.

Lemma add_review_wf sv G file G' :
  Nx.wf G → GraphBuilder.add_review sv G file = Ok G' → Nx.wf G'.
Proof.
  intros Hwf. unfold GraphBuilder.add_review.
  destruct (GraphBuilder.extract_entities_from_review sv file.2) as [p|].
  - intros ->%add_parsed_as_read. by apply add_extraction_wf.
  - by intros [= <-].
Qed.

Lemma initial_graph_wf sv reviews_dir G :
  GraphBuilder.initial_graph sv reviews_dir = Ok G → Nx.wf G.
Proof.
  unfold GraphBuilder.initial_graph.
  apply (for_each_invariant Nx.wf); [|apply empty_wf].
  intros G1 file G2. apply add_review_wf.
Qed.

End GraphFacts.

Section BuildFacts.

Import GraphBuilder.
Implicit Types (G : Nx.graph) (rel : relationship) (ex : extraction).

Lemma anchored_true G rel :
  anchored G rel = true ↔
  rel_source rel ∈ Py.keys (Nx.nodes G) ∧ rel_target rel ∈ Py.keys (Nx.nodes G).
Proof. unfold anchored. by rewrite andb_true_iff, !has_node_true. Qed.

Lemma anchored_nodes G G' rel :
  Nx.nodes G = Nx.nodes G' → anchored G rel = anchored G' rel.
Proof.
  intros Hn. unfold anchored, Nx.has_node. by rewrite Hn.
Qed.

Lemma add_relationship_cases G rel :
  add_relationship G rel =
  if anchored G rel
  then Nx.Graph (Nx.nodes G) (Nx.edges G ++ [edge_of rel]) else G.
Proof.
  destruct (anchored G rel) eqn:E.
  - apply anchored_true in E as [Hs Ht]. by apply add_relationship_present.
  - apply add_relationship_dangling.
    unfold anchored in E. apply andb_false_iff in E.
    by rewrite <- !has_node_false.
Qed.

Lemma edges_add_relationships G (rels : list relationship) :
  Nx.edges (fold_left add_relationship rels G) =
  Nx.edges G ++ (edge_of <$> filter (λ rel, anchored G rel) rels).
Proof.
  revert G. induction rels as [|rel rels IH]; intros G; simpl.
  - by rewrite app_nil_r.
  - rewrite IH, add_relationship_cases.
    destruct (anchored G rel) eqn:E.
    + rewrite filter_cons_True by (by rewrite E). simpl.
      rewrite <- app_assoc. reflexivity.
    + rewrite filter_cons_False; [done | rewrite E; intros []].
Qed.

(** *** The attribute [source_file] through step 1 *)

Lemma source_file_add_entity f G (e : entity) id :
  source_file_of (add_entity f G e) id =
  if decide (id = entity_id e) then Some f else source_file_of G id.
Proof.
  unfold source_file_of, add_entity. case_decide as Hid; subst.
  - by rewrite get_add_node_eq.
  - by rewrite get_add_node_ne.
Qed.

Lemma source_file_add_entities f G (es : list entity) id :
  source_file_of (fold_left (add_entity f) es G) id =
  if decide (id ∈ entity_id <$> es) then Some f else source_file_of G id.
Proof.
  revert G. induction es as [|e es IH]; intros G; cbn [fold_left].
  - rewrite decide_False; [done | apply not_elem_of_nil].
  - rewrite IH, source_file_add_entity, fmap_cons.
    destruct (decide (id ∈ entity_id <$> es)) as [Hin|Hin].
    + rewrite decide_True; [done | by right].
    + destruct (decide (id = entity_id e)) as [->|Hne].
      * rewrite decide_True; [done | left].
      * rewrite decide_False; [done|].
        rewrite not_elem_of_cons. done.
Qed.

Lemma source_file_nodes G G' id :
  Nx.nodes G = Nx.nodes G' → source_file_of G id = source_file_of G' id.
Proof. unfold source_file_of. by intros ->. Qed.

Lemma source_file_add_extraction f G ex id :
  source_file_of (add_extraction f G ex) id =
  if decide (id ∈ entity_id <$> entities ex) then Some f
  else source_file_of G id.
Proof.
  unfold add_extraction.
  rewrite (source_file_nodes _ (fold_left (add_entity f) (entities ex) G))
    by apply nodes_add_relationships.
  apply source_file_add_entities.
Qed.

Lemma source_file_add_reviews sv (files : Py.dict string) G G' id :
  Py.for_each (add_review sv) files G = Ok G' →
  source_file_of G' id =
  from_option Some (source_file_of G id) (last (writers sv files id)).
Proof.
  revert G. induction files as [|file files IH]; intros G.
  - by intros [= <-].
  - cbn [Py.for_each]. destruct (add_review sv G file) as [G1|] eqn:H1;
      [|done]. cbn [mbind Py.outcome_bind]. intros Hrest.
    rewrite (IH _ Hrest). unfold writers. rewrite omap_cons_option_list.
    fold (writers sv files id). unfold add_review in H1.
    destruct (extract_entities_from_review sv file.2) as [p|].
    + apply add_parsed_as_read in H1 as ->.
      rewrite source_file_add_extraction. case_decide; simpl.
      * by destruct (writers sv files id) as [|w ws] using rev_ind;
          [|rewrite app_comm_cons, !last_snoc].
      * done.
    + injection H1 as <-. done.
Qed.

End BuildFacts.

(* ===================================================================== *)
(** ** Facts about community detection *)
(* ===================================================================== *)

Section MergeFacts.

Implicit Types (g : Nx.ugraph) (comms : list (list string)) (c : list string).

Lemma elem_of_pairs n i j : (i, j) ∈ Nx.pairs n → i < j < n.
Proof.
  unfold Nx.pairs. rewrite list_elem_of_bind.
  intros (i' & Hj & Hi). apply elem_of_seq in Hi.
  apply list_elem_of_fmap in Hj as (j' & [= -> ->] & Hj).
  apply elem_of_seq in Hj. lia.
Qed.

Lemma pairs_small n : n ≤ 1 → Nx.pairs n = [].
Proof.
  intros Hn. destruct (Nx.pairs n) as [|[i j] ps] eqn:E; [done|].
  assert ((i, j) ∈ Nx.pairs n) as Hin by (rewrite E; left).
  apply elem_of_pairs in Hin. lia.
Qed.

(** The candidate kept by the scan is one of the pairs scanned and its
    merge increases modularity. *)
Lemma best_merge_Some g comms p :
  Nx.best_merge g comms = Some p →
  p ∈ Nx.pairs (length comms) ∧ (0 < Nx.gain_at g comms p)%Z.
Proof.
  unfold Nx.best_merge.
  assert (∀ ps best,
    (∀ b, best = Some b → b ∈ Nx.pairs (length comms) ∧
                          (0 < Nx.gain_at g comms b)%Z) →
    (∀ q, q ∈ ps → q ∈ Nx.pairs (length comms)) →
    fold_left (Nx.better g comms) ps best = Some p →
    p ∈ Nx.pairs (length comms) ∧ (0 < Nx.gain_at g comms p)%Z) as Hfold.
  { induction ps as [|q ps IH]; intros best Hbest Hps; simpl.
    - apply Hbest.
    - apply IH.
      + intros b. unfold Nx.better. destruct best as [b0|].
        * destruct (Hbest b0 eq_refl) as [Hb0 Hg0].
          case_bool_decide; intros [= <-]; [|done].
          split; [apply Hps; left | lia].
        * case_bool_decide; [|done]. intros [= <-].
          split; [apply Hps; left | done].
      + intros q' Hq'. apply Hps. by right. }
  apply Hfold; [done | auto].
Qed.

Lemma insert_Permutation {A} (l : list A) i x y :
  l !! i = Some x → <[i:=y]> l ≡ₚ y :: delete i l.
Proof.
  intros Hi. pose proof (lookup_lt_Some _ _ _ Hi) as Hlt.
  rewrite insert_take_drop, delete_take_drop by done.
  by rewrite Permutation_middle.
Qed.

Lemma merge_Permutation comms i j a b :
  i < j → comms !! i = Some a → comms !! j = Some b →
  Nx.merge comms i j ≡ₚ (a ++ b) :: delete i (delete j comms) ∧
  comms ≡ₚ b :: a :: delete i (delete j comms).
Proof.
  intros Hij Ha Hb. unfold Nx.merge. rewrite Ha, Hb.
  assert (delete j comms !! i = Some a) as Ha'
    by (by rewrite list_lookup_delete_lt).
  split.
  - by apply (insert_Permutation _ _ a).
  - etrans; [apply (delete_Permutation comms j b Hb)|].
    apply Permutation_skip, (delete_Permutation _ i a Ha').
Qed.

Lemma merge_join comms i j :
  i < j < length comms → mjoin (Nx.merge comms i j) ≡ₚ mjoin comms.
Proof.
  intros [Hij Hj].
  destruct (lookup_lt_is_Some_2 comms j Hj) as [b Hb].
  destruct (lookup_lt_is_Some_2 comms i) as [a Ha]; [lia|].
  destruct (merge_Permutation comms i j a b Hij Ha Hb) as [H1 H2].
  rewrite H1. symmetry. etrans; [apply join_Permutation, H2|].
  simpl. rewrite <- !app_assoc. apply Permutation_app_swap_app.
Qed.

Lemma merge_length comms i j :
  i < j < length comms → S (length (Nx.merge comms i j)) = length comms.
Proof.
  intros [Hij Hj].
  destruct (lookup_lt_is_Some_2 comms j Hj) as [b Hb].
  destruct (lookup_lt_is_Some_2 comms i) as [a Ha]; [lia|].
  unfold Nx.merge. rewrite Ha, Hb, length_insert, length_delete by eauto.
  lia.
Qed.

Lemma elem_of_merge comms i j a b c :
  i < j → comms !! i = Some a → comms !! j = Some b →
  c ∈ Nx.merge comms i j → c = a ++ b ∨ c ∈ comms.
Proof.
  intros Hij Ha Hb.
  destruct (merge_Permutation comms i j a b Hij Ha Hb) as [H1 _].
  rewrite H1. intros [->|Hc]%elem_of_cons; [by left | right].
  by do 2 apply list_elem_of_delete_inv in Hc.
Qed.

(** *** The communities stay a partition of the nodes *)

Lemma agglomerate_join g fuel comms :
  mjoin (Nx.agglomerate g fuel comms) ≡ₚ mjoin comms.
Proof.
  revert comms. induction fuel as [|fuel IH]; intros comms; simpl; [done|].
  destruct (Nx.best_merge g comms) as [[i j]|] eqn:E; [|done].
  apply best_merge_Some in E as [Hp _]. apply elem_of_pairs in Hp.
  by rewrite IH, merge_join.
Qed.

Lemma join_singletons (l : list string) : mjoin ((λ n, [n]) <$> l) = l.
Proof. induction l as [|x l IH]; simpl; [done | by f_equal]. Qed.

Lemma greedy_partition g :
  mjoin (Nx.greedy_modularity_communities g) ≡ₚ Nx.unodes g.
Proof.
  unfold Nx.greedy_modularity_communities.
  by rewrite agglomerate_join, join_singletons.
Qed.

(** *** The rounds given are enough *)

Lemma agglomerate_done g fuel comms :
  length comms ≤ fuel →
  Nx.best_merge g (Nx.agglomerate g fuel comms) = None.
Proof.
  revert comms. induction fuel as [|fuel IH]; intros comms Hlen; simpl.
  - unfold Nx.best_merge. by rewrite pairs_small by lia.
  - destruct (Nx.best_merge g comms) as [[i j]|] eqn:E; [|done].
    apply IH. apply best_merge_Some in E as [Hp _].
    apply elem_of_pairs, merge_length in Hp. lia.
Qed.

Lemma greedy_done g :
  Nx.best_merge g (Nx.greedy_modularity_communities g) = None.
Proof.
  apply agglomerate_done. by rewrite length_fmap.
Qed.

(** *** A node without edges stays alone *)

Lemma links_alone_l g n c : Nx.untouched g n → Nx.links g [n] c = 0.
Proof.
  intros Hn. unfold Nx.links.
  rewrite filter_none; [done|].
  intros e He. destruct (Hn e He) as [H1 H2].
  rewrite !list_elem_of_singleton. naive_solver.
Qed.

Lemma links_alone_r g n c : Nx.untouched g n → Nx.links g c [n] = 0.
Proof.
  intros Hn. unfold Nx.links.
  rewrite filter_none; [done|].
  intros e He. destruct (Hn e He) as [H1 H2].
  rewrite !list_elem_of_singleton. naive_solver.
Qed.

Lemma agglomerate_alone g n fuel comms :
  Nx.untouched g n →
  (∀ c, c ∈ comms → n ∈ c → c = [n]) →
  ∀ c, c ∈ Nx.agglomerate g fuel comms → n ∈ c → c = [n].
Proof.
  intros Hn. revert comms.
  induction fuel as [|fuel IH]; intros comms Hinv; simpl; [done|].
  destruct (Nx.best_merge g comms) as [[i j]|] eqn:E; [|done].
  apply best_merge_Some in E as [Hp Hgain].
  apply elem_of_pairs in Hp as [Hij Hj].
  destruct (lookup_lt_is_Some_2 comms j Hj) as [b Hb].
  destruct (lookup_lt_is_Some_2 comms i) as [a Ha]; [lia|].
  apply IH. intros c Hc Hnc.
  destruct (elem_of_merge comms i j a b c Hij Ha Hb Hc) as [->|Hc'];
    [|by apply Hinv].
  exfalso. unfold Nx.gain_at in Hgain. simpl in Hgain.
  rewrite Ha, Hb in Hgain. unfold Nx.gain in Hgain.
  apply elem_of_app in Hnc as [Hna|Hnb].
  - rewrite (Hinv a) in Hgain by (by eauto using list_elem_of_lookup_2).
    rewrite links_alone_l in Hgain by done. lia.
  - rewrite (Hinv b) in Hgain by (by eauto using list_elem_of_lookup_2).
    rewrite links_alone_r in Hgain by done. lia.
Qed.

Lemma greedy_alone g n :
  Nx.untouched g n → n ∈ Nx.unodes g →
  [n] ∈ Nx.greedy_modularity_communities g.
Proof.
  intros Hn Hin.
  assert (n ∈ mjoin (Nx.greedy_modularity_communities g)) as Hj
    by (by rewrite greedy_partition).
  apply list_elem_of_join in Hj as (c & Hnc & Hc).
  replace [n] with c; [done|].
  revert Hc Hnc. apply agglomerate_alone; [done|].
  intros c' (m & -> & _)%list_elem_of_fmap Hm.
  by apply list_elem_of_singleton in Hm as ->.
Qed.

End MergeFacts.

Section TaggingFacts.

Import GraphBuilder.
Implicit Types (G : Nx.graph) (n : string) (cs : list (list string)).

Lemma get_set_community G n (c : nat) (m : string) :
  Py.get (Nx.nodes (Nx.set_community G n c)) m =
  if decide (m = n) then Nx.tagged c <$> Py.get (Nx.nodes G) n
  else Py.get (Nx.nodes G) m.
Proof.
  unfold Nx.set_community. destruct (Nx.has_node G n) eqn:E.
  - apply has_node_true, get_is_Some in E as [d Hd].
    case_decide as Hm; subst.
    + by rewrite get_add_node_eq, Hd.
    + by rewrite get_add_node_ne.
  - apply has_node_false, get_None in E.
    case_decide; subst; [by rewrite E | done].
Qed.

Lemma keys_set_community G n (c : nat) :
  Py.keys (Nx.nodes (Nx.set_community G n c)) = Py.keys (Nx.nodes G).
Proof.
  unfold Nx.set_community. destruct (Nx.has_node G n) eqn:E; [|done].
  by apply keys_add_node_old, has_node_true.
Qed.

Lemma edges_set_community G n (c : nat) :
  Nx.edges (Nx.set_community G n c) = Nx.edges G.
Proof. unfold Nx.set_community. by destruct (Nx.has_node G n). Qed.

Lemma keys_set_node_attributes G (values : Py.dict nat) :
  Py.keys (Nx.nodes (Nx.set_node_attributes G values)) = Py.keys (Nx.nodes G).
Proof.
  unfold Nx.set_node_attributes. revert G.
  induction values as [|[n c] values IH]; intros G; simpl; [done|].
  by rewrite IH, keys_set_community.
Qed.

Lemma edges_set_node_attributes G (values : Py.dict nat) :
  Nx.edges (Nx.set_node_attributes G values) = Nx.edges G.
Proof.
  unfold Nx.set_node_attributes. revert G.
  induction values as [|[n c] values IH]; intros G; simpl; [done|].
  by rewrite IH, edges_set_community.
Qed.

Lemma get_set_node_attributes G (values : Py.dict nat) (m : string) :
  NoDup (Py.keys values) →
  Py.get (Nx.nodes (Nx.set_node_attributes G values)) m =
  match Py.get values m with
  | Some c => Nx.tagged c <$> Py.get (Nx.nodes G) m
  | None => Py.get (Nx.nodes G) m
  end.
Proof.
  unfold Nx.set_node_attributes. revert G.
  induction values as [|[n c] values IH]; intros G Hnd; simpl; [done|].
  apply NoDup_cons in Hnd as [Hn Hnd].
  rewrite IH by done. rewrite get_set_community.
  case_decide as Hm; subst.
  - by rewrite (proj2 (get_None values n) Hn).
  - destruct (Py.get values m); [|done]. done.
Qed.

Lemma set_node_attributes_wf G (values : Py.dict nat) :
  Nx.wf G → Nx.wf (Nx.set_node_attributes G values).
Proof.
  intros [Hnd He]. split.
  - by rewrite keys_set_node_attributes.
  - by rewrite edges_set_node_attributes, keys_set_node_attributes.
Qed.

(** *** The node-to-community dict *)

Lemma memberships_keys_from (f : nat → nat) cs :
  (mjoin (imap (λ i (members : list string),
                  (λ node, (node, f i)) <$> members) cs)).*1
  = mjoin cs.
Proof.
  revert f. induction cs as [|members cs IH]; intros f; [done|].
  rewrite imap_cons. simpl. rewrite fmap_app. f_equal.
  - rewrite <- list_fmap_compose. clear.
    induction members; simpl; by f_equal.
  - apply (IH (f ∘ S)).
Qed.

Lemma memberships_keys cs : Py.keys (memberships cs) = mjoin cs.
Proof. apply (memberships_keys_from id). Qed.

Lemma elem_of_memberships cs n i :
  (n, i) ∈ memberships cs ↔ ∃ members, cs !! i = Some members ∧ n ∈ members.
Proof.
  unfold memberships. rewrite list_elem_of_join. split.
  - intros (l & Hn & Hl).
    apply elem_of_lookup_imap in Hl as (j & members & -> & Hj).
    apply list_elem_of_fmap in Hn as (n' & [= -> ->] & Hn). eauto.
  - intros (members & Hi & Hn).
    exists ((λ node, (node, i)) <$> members). split.
    + apply list_elem_of_fmap. eauto.
    + apply elem_of_lookup_imap. eauto.
Qed.

Lemma fold_upsert_fresh (l acc : Py.dict nat) :
  NoDup (Py.keys acc ++ Py.keys l) →
  fold_left (λ m kv, Py.upsert (λ _, kv.2) kv.1 m) l acc = acc ++ l.
Proof.
  revert acc. induction l as [|[k v] l IH]; intros acc Hnd; simpl.
  - by rewrite app_nil_r.
  - simpl in Hnd.
    rewrite upsert_new.
    + rewrite IH; [by rewrite <- app_assoc|].
      unfold Py.keys. rewrite fmap_app. simpl. by rewrite <- app_assoc.
    + apply NoDup_app in Hnd as (_ & Hd & _). intros Hk.
      apply (Hd k Hk). left.
Qed.

Lemma community_map_partition cs :
  NoDup (mjoin cs) → community_map cs = memberships cs.
Proof.
  intros Hnd. unfold community_map.
  rewrite fold_upsert_fresh; [done|]. simpl. by rewrite memberships_keys.
Qed.

(** In a partition a node has one community index. *)
Lemma partition_index cs n i j ci cj :
  NoDup (mjoin cs) → cs !! i = Some ci → cs !! j = Some cj →
  n ∈ ci → n ∈ cj → i = j.
Proof.
  intros Hnd Hi Hj Hni Hnj.
  assert (Py.get (memberships cs) n = Some i) as H1.
  { apply elem_get; [by rewrite memberships_keys|].
    apply elem_of_memberships. eauto. }
  assert (Py.get (memberships cs) n = Some j) as H2.
  { apply elem_get; [by rewrite memberships_keys|].
    apply elem_of_memberships. eauto. }
  congruence.
Qed.

(** *** The undirected projection *)

Lemma unordered_ends u v :
  ((Nx.unordered u v).1 = u ∧ (Nx.unordered u v).2 = v) ∨
  ((Nx.unordered u v).1 = v ∧ (Nx.unordered u v).2 = u).
Proof. unfold Nx.unordered. case_bool_decide; auto. Qed.

Lemma to_undirected_untouched G n :
  (∀ e, e ∈ Nx.edges G → Nx.src e ≠ n ∧ Nx.dst e ≠ n) →
  Nx.untouched (Nx.to_undirected G) n.
Proof.
  intros Hn e. simpl. rewrite elem_of_distinct.
  intros (e' & -> & He')%list_elem_of_fmap.
  destruct (Hn e' He') as [Hs Hd].
  destruct (unordered_ends (Nx.src e') (Nx.dst e')) as [[-> ->]|[-> ->]];
    auto.
Qed.

Lemma detect_keys G :
  Py.keys (Nx.nodes (detect_and_store_communities G).1) = Py.keys (Nx.nodes G).
Proof. apply keys_set_node_attributes. Qed.

Lemma detect_wf G : Nx.wf G → Nx.wf (detect_and_store_communities G).1.
Proof. apply set_node_attributes_wf. Qed.

Lemma detect_partition G :
  mjoin (detect_and_store_communities G).2 ≡ₚ Py.keys (Nx.nodes G).
Proof. apply (greedy_partition (Nx.to_undirected G)). Qed.

(** The attribute dict of a node after detection: the one before,
    tagged with the index of the node's community. *)
Lemma detect_get G n d :
  NoDup (Py.keys (Nx.nodes G)) → Py.get (Nx.nodes G) n = Some d →
  ∃ i members,
    (detect_and_store_communities G).2 !! i = Some members ∧ n ∈ members ∧
         Py.get (Nx.nodes (detect_and_store_communities G).1) n
         = Some (Nx.tagged i d).
Proof.
  intros Hnd Hd.
  pose proof (detect_partition G) as Hp.
  assert (NoDup (mjoin (detect_and_store_communities G).2)) as Hnd'
    by (by rewrite Hp).
  assert (n ∈ mjoin (detect_and_store_communities G).2) as Hn.
  { rewrite Hp. apply get_is_Some. eauto. }
  apply list_elem_of_join in Hn as (members & Hnc & Hc).
  apply list_elem_of_lookup in Hc as [i Hi].
  exists i, members. split; [done|]. split; [done|].
  unfold detect_and_store_communities in *. simpl in *.
  rewrite community_map_partition by done.
  rewrite get_set_node_attributes by (by rewrite memberships_keys).
  rewrite (elem_get (memberships _) n i).
  - by rewrite Hd.
  - by rewrite memberships_keys.
  - apply elem_of_memberships. eauto.
Qed.

(** Detection leaves the source file of every node as it was. *)
Lemma source_file_detect (G : Nx.graph) (id : string) :
  NoDup (Py.keys (Nx.nodes G)) →
  source_file_of (detect_and_store_communities G).1 id = source_file_of G id.
Proof.
  intros Hnd. unfold source_file_of.
  destruct (Py.get (Nx.nodes G) id) as [d|] eqn:Hd.
  - destruct (detect_get G id d Hnd Hd) as (i & members & _ & _ & Hg).
    rewrite Hg. by destruct d.
  - apply get_None in Hd. rewrite <- (detect_keys G) in Hd.
    apply get_None in Hd. by rewrite Hd.
Qed.

End TaggingFacts.

(* ===================================================================== *)
(** ** Facts about the index build *)
(* ===================================================================== *)

Section IndexBuildFacts.

Import GraphBuilder.
Implicit Types (G : Nx.graph) (sv : services).

Lemma collect_values_valued G :
  collect_values G = ((valued (Nx.nodes G)).*1, (valued (Nx.nodes G)).*2).
Proof.
  unfold collect_values.
  assert (∀ nodes acc,
    fold_left
      (λ (acc : list string * list string) (nd : string * Nx.node_data),
         match Nx.value nd.2 with
         | Some v => (acc.1 ++ [nd.1], acc.2 ++ [v])
         | None => acc
         end) nodes acc
    = (acc.1 ++ (valued nodes).*1, acc.2 ++ (valued nodes).*2)) as Hfold.
  { induction nodes as [|[n d] nodes IH]; intros [ids vs]; simpl.
    - by rewrite !app_nil_r.
    - rewrite IH. unfold valued. simpl. destruct (Nx.value d); simpl;
        [by rewrite <- !app_assoc | done]. }
  by rewrite Hfold.
Qed.

Lemma elem_of_valued (nodes : Py.dict Nx.node_data) id v :
  (id, v) ∈ valued nodes ↔ ∃ d, (id, d) ∈ nodes ∧ Nx.value d = Some v.
Proof.
  unfold valued. rewrite list_elem_of_omap. split.
  - intros ([n d] & Hin & Hv). simpl in Hv.
    destruct (Nx.value d) eqn:E; simplify_eq/=. eauto.
  - intros (d & Hin & Hv). exists (id, d). simpl. by rewrite Hv.
Qed.

Lemma valued_nil (nodes : Py.dict Nx.node_data) :
  (∀ nd, nd ∈ nodes → Nx.value nd.2 = None) → valued nodes = [].
Proof.
  induction nodes as [|nd nodes IH]; intros Hn; [done|].
  unfold valued. simpl. rewrite (Hn nd) by left. simpl.
  apply IH. intros nd' Hnd'. apply Hn. by right.
Qed.

Lemma comprehension_Raised {A B} (f : A → outcome B) xs x e :
  x ∈ xs → f x = Raised e → ∃ e', Py.comprehension f xs = Raised e'.
Proof.
  intros Hx Hf. induction xs as [|y xs IH]; [by apply elem_of_nil in Hx|].
  simpl. apply elem_of_cons in Hx as [<-|Hx].
  - rewrite Hf. simpl. eauto.
  - destruct (f y); simpl; [|by eauto].
    destruct (IH Hx) as [e' ->]. simpl. eauto.
Qed.

(** No node with a value: the signal, and no service is asked. *)
Lemma nothing_to_index sv G :
  (∀ nd, nd ∈ Nx.nodes G → Nx.value nd.2 = None) →
  create_entity_embeddings_index sv G = None.
Proof.
  intros Hn. unfold create_entity_embeddings_index.
  rewrite collect_values_valued, valued_nil by done. done.
Qed.

(** A failing embedding call: the same signal. *)
Lemma embedding_failure sv G id d v e :
  (id, d) ∈ Nx.nodes G → Nx.value d = Some v →
  embed_content sv RETRIEVAL_DOCUMENT v = Raised e →
  create_entity_embeddings_index sv G = None.
Proof.
  intros Hin Hv He. unfold create_entity_embeddings_index.
  rewrite collect_values_valued. case_bool_decide; [done|].
  assert (v ∈ (valued (Nx.nodes G)).*2) as Hvin.
  { apply list_elem_of_fmap. exists (id, v). split; [done|].
    apply elem_of_valued. eauto. }
  destruct (comprehension_Raised _ _ _ _ Hvin He) as [e' ->]. done.
Qed.

(** Rows of different widths: the same signal. *)
Lemma ragged_embeddings sv G rows :
  Py.comprehension (embed_content sv RETRIEVAL_DOCUMENT)
                   (valued (Nx.nodes G)).*2 = Ok rows →
  ¬ (∃ w, Forall (λ r, length r = w) rows) →
  create_entity_embeddings_index sv G = None.
Proof.
  intros Hrows Hw. unfold create_entity_embeddings_index.
  rewrite collect_values_valued. case_bool_decide; [done|].
  rewrite Hrows. simpl. unfold shape1.
  destruct rows as [|r rows]; [done|].
  case_bool_decide as Hall; [|done]. exfalso. apply Hw. eauto.
Qed.

(** A built index holds one row per id, the embedding of the value of
    the node with that id. *)
Lemma index_rows sv G ix ids :
  create_entity_embeddings_index sv G = Some (ix, ids) →
  ids = (valued (Nx.nodes G)).*1 ∧
  Py.comprehension (embed_content sv RETRIEVAL_DOCUMENT)
                   (valued (Nx.nodes G)).*2 = Ok (Faiss.xb ix).
Proof.
  unfold create_entity_embeddings_index.
  rewrite collect_values_valued. case_bool_decide; [done|].
  destruct (Py.comprehension _ _) as [rows|] eqn:Hrows; simpl; [|done].
  destruct (shape1 rows) as [dim|]; simpl; [|done].
  unfold Faiss.add. case_bool_decide; simpl; [|done].
  by intros [= <- <-].
Qed.

Lemma index_alignment sv G ix ids :
  create_entity_embeddings_index sv G = Some (ix, ids) →
  Faiss.ntotal ix = length ids ∧
  ∀ i id, ids !! i = Some id →
    ∃ d v row, (id, d) ∈ Nx.nodes G ∧ Nx.value d = Some v ∧
               Faiss.xb ix !! i = Some row ∧
               embed_content sv RETRIEVAL_DOCUMENT v = Ok row.
Proof.
  intros [-> Hrows]%index_rows. split.
  - unfold Faiss.ntotal.
    by rewrite (comprehension_length _ _ _ Hrows), !length_fmap.
  - intros i id Hi.
    apply list_lookup_fmap_Some in Hi as ([id' v] & -> & Hl).
    assert ((id', v) ∈ valued (Nx.nodes G)) as Hin
      by (by eapply list_elem_of_lookup_2).
    apply elem_of_valued in Hin as (d & Hd & Hv).
    destruct (comprehension_lookup _ _ _ i v Hrows) as (row & Hrow & He).
    { by rewrite list_lookup_fmap, Hl. }
    exists d, v, row. done.
Qed.

(** *** The build as a whole *)

Lemma comprehension_exists {A B} (f : A → outcome B) xs :
  (∀ x, x ∈ xs → ∃ b, f x = Ok b) → ∃ bs, Py.comprehension f xs = Ok bs.
Proof.
  induction xs as [|x xs IH]; intros Hf; simpl; [by eauto|].
  destruct (Hf x) as [b ->]; [left|]. simpl.
  destruct IH as [bs ->]; [intros y Hy; apply Hf; by right|].
  simpl. eauto.
Qed.

Lemma summarize_total sv G (community_nodes : list string) :
  (∀ n, n ∈ community_nodes → n ∈ Py.keys (Nx.nodes G)) →
  ∃ s, summarize sv G community_nodes = Ok s.
Proof.
  intros Hn. unfold summarize.
  destruct (comprehension_exists
              (λ node_id, community_line <$> Nx.node G node_id)
              community_nodes) as [lines ->].
  - intros n Hin. destruct (node_total G n (Hn n Hin)) as [d ->].
    simpl. eauto.
  - simpl. eauto.
Qed.

Lemma summaries_total sv G (communities : list (list string)) :
  (∀ n, n ∈ mjoin communities → n ∈ Py.keys (Nx.nodes G)) →
  ∃ summaries, generate_community_summaries sv G communities = Ok summaries.
Proof.
  intros Hn. unfold generate_community_summaries.
  apply comprehension_exists. intros [i c] Hic. simpl.
  apply elem_of_lookup_imap in Hic as (j & c' & [= -> ->] & Hj).
  destruct (summarize_total sv G c') as [s ->]; [|simpl; eauto].
  intros n Hin. apply Hn, list_elem_of_join.
  exists c'. split; [done|]. by eapply list_elem_of_lookup_2.
Qed.

Lemma detect_summaries_total sv G :
  ∃ summaries,
    generate_community_summaries sv (detect_and_store_communities G).1
      (detect_and_store_communities G).2 = Ok summaries.
Proof.
  apply summaries_total. intros n Hn.
  by rewrite detect_keys, <- (detect_partition G).
Qed.

(** The outcomes of the build: the exception of step 1; [False] for a
    graph without nodes, before any other step; [False] when the index
    step gives its signal; and otherwise [True] with the four artifacts.
    Only the last writes. *)
Lemma build_cases sv reviews_dir index_path :
  match initial_graph sv reviews_dir with
  | Raised e =>
      build_knowledge_graph sv reviews_dir index_path
      = (Raised e, index_path)
  | Ok G =>
      if bool_decide (Nx.number_of_nodes G = 0) then
        build_knowledge_graph sv reviews_dir index_path
        = (Ok false, index_path)
      else
        let detected := detect_and_store_communities G in
        match create_entity_embeddings_index sv detected.1 with
        | None =>
            build_knowledge_graph sv reviews_dir index_path
            = (Ok false, index_path)
        | Some (ix, ids) =>
            ∃ summaries,
              generate_community_summaries sv detected.1 detected.2
              = Ok summaries ∧
              build_knowledge_graph sv reviews_dir index_path
              = (Ok true,
                 IndexDir (Some detected.1)
                          (Some (json_dump_summaries summaries))
                          (Some ix) (Some ids))
        end
  end.
Proof.
  unfold build_knowledge_graph.
  destruct (initial_graph sv reviews_dir) as [G|e]; [|done].
  case_bool_decide as Hempty; [done|]. cbv zeta.
  destruct (detect_summaries_total sv G) as [summaries Hs].
  destruct (detect_and_store_communities G) as [G' communities] eqn:Hdet.
  simpl in *. rewrite Hs.
  destruct (create_entity_embeddings_index sv G') as [[ix ids]|];
    [eauto | done].
Qed.

(** A build that returned [True]. *)
Lemma build_true sv reviews_dir index_path index_path' :
  build_knowledge_graph sv reviews_dir index_path = (Ok true, index_path') →
  ∃ G summaries ix ids,
    initial_graph sv reviews_dir = Ok G ∧
    Nx.number_of_nodes G ≠ 0 ∧
    generate_community_summaries sv (detect_and_store_communities G).1
                                 (detect_and_store_communities G).2
    = Ok summaries ∧
    create_entity_embeddings_index sv (detect_and_store_communities G).1
    = Some (ix, ids) ∧
    index_path' = IndexDir (Some (detect_and_store_communities G).1)
                           (Some (json_dump_summaries summaries))
                           (Some ix) (Some ids).
Proof.
  intros Hb. pose proof (build_cases sv reviews_dir index_path) as Hc.
  destruct (initial_graph sv reviews_dir) as [G|e];
    [|by rewrite Hc in Hb].
  case_bool_decide as Hempty; [by rewrite Hc in Hb|]. cbv zeta in Hc.
  destruct (create_entity_embeddings_index sv _) as [[ix ids]|] eqn:Hix;
    [|by rewrite Hc in Hb].
  destruct Hc as (summaries & Hs & Hc). rewrite Hc in Hb.
  injection Hb as <-. by exists G, summaries, ix, ids.
Qed.

End IndexBuildFacts.

(* ===================================================================== *)
(** ** Facts about retrieval *)
(* ===================================================================== *)

Section RetrievalFacts.

Import QueryEngine.
Implicit Types (G : Nx.graph) (sv : services) (st : scan)
               (summaries reviews_dir : Py.dict string).

Lemma elem_of_neighbors G n n' :
  n' ∈ Nx.neighbors G n ↔ ∃ e, e ∈ Nx.edges G ∧ Nx.src e = n ∧ Nx.dst e = n'.
Proof.
  unfold Nx.neighbors. rewrite elem_of_distinct, list_elem_of_fmap. split.
  - intros (e & -> & [Hs He]%list_elem_of_filter). eauto.
  - intros (e & He & Hs & <-). exists e. split; [done|].
    by apply list_elem_of_filter.
Qed.

(** *** A. the local fragment *)

Lemma neighbor_lines_total G n :
  Nx.wf G →
  ∃ lines,
    Py.comprehension (λ neighbor_id, neighbor_line <$> Nx.node G neighbor_id)
                     (Nx.neighbors G n) = Ok lines ∧
    length lines = length (Nx.neighbors G n) ∧
    ∀ e, e ∈ Nx.edges G → Nx.src e = n →
      ∃ d, Nx.node G (Nx.dst e) = Ok d ∧ neighbor_line d ∈ lines.
Proof.
  intros Hwf.
  destruct (comprehension_exists
              (λ neighbor_id, neighbor_line <$> Nx.node G neighbor_id)
              (Nx.neighbors G n)) as [lines Hl].
  { intros n' (e & Hin & _ & <-)%elem_of_neighbors.
    destruct (node_total G (Nx.dst e)) as [d ->];
      [by apply (wf_edge G e Hwf)|].
    simpl. eauto. }
  exists lines. split; [done|]. split; [by eapply comprehension_length|].
  intros e Hin Hs.
  assert (Nx.dst e ∈ Nx.neighbors G n) as Hn
    by (apply elem_of_neighbors; eauto).
  apply list_elem_of_lookup in Hn as [i Hi].
  destruct (comprehension_lookup _ _ _ _ _ Hl Hi) as (b & Hb & Hd).
  destruct (Nx.node G (Nx.dst e)) as [d|]; simplify_eq/=.
  exists d. split; [done|]. by eapply list_elem_of_lookup_2.
Qed.

Lemma local_fragment_total G n (d : Nx.node_data) :
  Nx.wf G →
  ∃ fragment,
    local_fragment G n d = Ok fragment ∧
    Py.startswith fragment (local_info d) = true ∧
    (∀ e, e ∈ Nx.edges G → Nx.src e = n →
       ∃ d', Nx.node G (Nx.dst e) = Ok d' ∧
             Py.occurs (neighbor_line d') fragment = true) ∧
    (Nx.neighbors G n = [] →
       fragment = local_info d +:+ Py.nl +:+ no_relationships).
Proof.
  intros Hwf. destruct (neighbor_lines_total G n Hwf) as (lines & Hl & Hlen & He).
  unfold local_fragment. rewrite Hl. simpl. eexists. split; [done|].
  split; [apply startswith_app|]. split.
  - intros e Hin Hs. destruct (He e Hin Hs) as (d' & Hd' & Hline).
    exists d'. split; [done|].
    rewrite <- string_app_assoc. apply occurs_after.
    rewrite bool_decide_eq_false_2 by (intros ->; by apply elem_of_nil in Hline).
    by apply occurs_join.
  - intros Hnone. rewrite Hnone in Hlen. destruct lines; [done|done].
Qed.

(** *** The loop over the entry points *)

Lemma add_community_unseen summaries (d : Nx.node_data) global
    (seen : gset nat) :
  add_community summaries d global seen =
  (global ++ (summary_fragment summaries <$>
                Py.unseen seen (option_list (Nx.community_id d))),
   seen ∪ list_to_set (option_list (Nx.community_id d))).
Proof.
  unfold add_community. destruct (Nx.community_id d) as [c|]; simpl.
  - case_bool_decide as Hc.
    + rewrite unseen_cons_new by done. rewrite ?unseen_nil.
      f_equal. set_solver.
    + rewrite unseen_cons_seen by done. rewrite ?unseen_nil, ?app_nil_r.
      f_equal. set_solver.
  - rewrite ?unseen_nil, ?app_nil_r. f_equal. set_solver.
Qed.

Lemma add_source_unseen reviews_dir (d : Nx.node_data) source
    (seen : gset string) :
  let file := f ← Nx.source_file d;
              if Py.truthy (Some f) && Py.contains reviews_dir f
              then Some f else None in
  add_source reviews_dir d source seen =
  (source ++ (excerpt_of reviews_dir <$> Py.unseen seen (option_list file)),
   seen ∪ list_to_set (option_list file)).
Proof.
  cbv zeta. unfold add_source, excerpt_of, Py.contains.
  assert (∀ s : gset string, s = s ∪ ∅) as Hempty by set_solver.
  destruct (Nx.source_file d) as [f|]; simpl;
    [|rewrite ?unseen_nil, ?app_nil_r; f_equal; apply Hempty].
  destruct (bool_decide (f ≠ "")); simpl;
    [|rewrite ?unseen_nil, ?app_nil_r; f_equal; apply Hempty].
  destruct (Py.get reviews_dir f) as [text|] eqn:Hf; simpl.
  - case_bool_decide as Hs.
    + rewrite unseen_cons_new by done. rewrite ?unseen_nil. simpl. rewrite Hf. simpl.
      f_equal. set_solver.
    + rewrite unseen_cons_seen by done. rewrite ?unseen_nil, ?app_nil_r.
      f_equal. set_solver.
  - rewrite ?unseen_nil, ?app_nil_r.
    destruct (bool_decide (f ∉ seen)); f_equal; apply Hempty.
Qed.

Lemma visit_total G summaries reviews_dir st n :
  Nx.wf G → n ∈ Py.keys (Nx.nodes G) →
  ∃ d fragment,
    Nx.node G n = Ok d ∧ local_fragment G n d = Ok fragment ∧
    visit G summaries reviews_dir st n =
    Ok (Scan
          (Context
             (local_graph (ctx st) ++ [fragment])
             (global_community (ctx st) ++
                (summary_fragment summaries <$>
                   Py.unseen (seen_communities st)
                             (option_list (community_of G n))))
             (source_text (ctx st) ++
                (excerpt_of reviews_dir <$>
                   Py.unseen (seen_source_files st)
                             (option_list (readable_file_of G reviews_dir n)))))
          (seen_communities st ∪ list_to_set (option_list (community_of G n)))
          (seen_source_files st ∪
             list_to_set (option_list (readable_file_of G reviews_dir n)))).
Proof.
  intros Hwf Hn. destruct (node_total G n Hn) as [d Hd].
  destruct (local_fragment_total G n d Hwf) as (fragment & Hf & _).
  exists d, fragment. split; [done|]. split; [done|].
  unfold visit. rewrite Hd. simpl. rewrite Hf. simpl.
  rewrite add_community_unseen, add_source_unseen.
  apply node_Ok in Hd.
  unfold community_of, readable_file_of. by rewrite Hd.
Qed.

End RetrievalFacts.

Section LoopFacts.

Import QueryEngine.
Implicit Types (G : Nx.graph) (sv : services) (st : scan)
               (summaries reviews_dir : Py.dict string).

Lemma unseen_option_app `{Countable A} (seen : gset A) (o : option A) xs :
  Py.unseen seen (option_list o ++ xs) =
  Py.unseen seen (option_list o) ++
  Py.unseen (seen ∪ list_to_set (option_list o)) xs.
Proof.
  destruct o as [x|]; simpl.
  - destruct (decide (x ∈ seen)) as [Hx|Hx].
    + rewrite !unseen_cons_seen by done. simpl.
      f_equal. set_solver.
    + rewrite !unseen_cons_new by done. simpl.
      f_equal. f_equal. set_solver.
  - f_equal. set_solver.
Qed.

Lemma for_each_visit G summaries reviews_dir (entry : list string) st :
  Nx.wf G → (∀ n, n ∈ entry → n ∈ Py.keys (Nx.nodes G)) →
  ∃ st',
    Py.for_each (visit G summaries reviews_dir) entry st = Ok st' ∧
    length (local_graph (ctx st')) =
      length (local_graph (ctx st)) + length entry ∧
    global_community (ctx st') =
      global_community (ctx st) ++
      (summary_fragment summaries <$>
         Py.unseen (seen_communities st) (omap (community_of G) entry)) ∧
    source_text (ctx st') =
      source_text (ctx st) ++
      (excerpt_of reviews_dir <$>
         Py.unseen (seen_source_files st)
                   (omap (readable_file_of G reviews_dir) entry)).
Proof.
  intros Hwf. revert st.
  induction entry as [|n entry IH]; intros st Hin.
  - exists st. simpl. rewrite !app_nil_r. split; [done|]. split; [lia | done].
  - rewrite !omap_cons_option_list, !unseen_option_app, !fmap_app, !app_assoc.
    cbn [Py.for_each length].
    destruct (visit_total G summaries reviews_dir st n Hwf)
      as (d & fragment & _ & _ & ->); [apply Hin; left|].
    set (st1 := Scan _ _ _).
    destruct (IH st1) as (st' & Hst' & Hl & Hg & Hs);
      [intros m Hm; apply Hin; by right|].
    exists st'. split; [exact Hst'|].
    rewrite Hl, Hg, Hs. unfold st1. simpl. rewrite length_app. simpl.
    split; [lia | done].
Qed.

End LoopFacts.

Section AnswerFacts.

Import QueryEngine.
Implicit Types (G : Nx.graph) (sv : services)
               (summaries reviews_dir : Py.dict string).

Lemma header_app_nonempty s : header +:+ s ≠ "".
Proof. by cbv. Qed.

Lemma assemble_nonempty (c : context) : assemble c ≠ "".
Proof. unfold assemble. apply header_app_nonempty. Qed.

Lemma assemble_header (c : context) : Py.startswith (assemble c) header = true.
Proof. unfold assemble. apply startswith_app. Qed.

Lemma retrieve_embed_failure sv query G ix ids summaries reviews_dir k e :
  embed_content sv RETRIEVAL_QUERY query = Raised e →
  retrieve_and_build_context sv query G ix ids summaries reviews_dir k
  = (Ok "", [EmbedContent RETRIEVAL_QUERY query]).
Proof. intros He. unfold retrieve_and_build_context. by rewrite He. Qed.

(** Once the query is embedded, a returned context starts with the
    header, whatever the search gives. *)
Lemma retrieve_after_embedding sv query G ix ids summaries reviews_dir k q s :
  embed_content sv RETRIEVAL_QUERY query = Ok q →
  (retrieve_and_build_context sv query G ix ids summaries reviews_dir k).1
  = Ok s →
  Py.startswith s header = true ∧ s ≠ "".
Proof.
  intros He. unfold retrieve_and_build_context. rewrite He. simpl.
  destruct (Faiss.search _ ix q k) as [indices|]; simpl; [|done].
  destruct (entry_points ids indices) as [entry|]; simpl; [|done].
  destruct (augment G summaries reviews_dir entry) as [st|]; simpl; [|done].
  intros [= <-]. split; [apply assemble_header | apply assemble_nonempty].
Qed.

Lemma retrieve_calls sv query G ix ids summaries reviews_dir k :
  (retrieve_and_build_context sv query G ix ids summaries reviews_dir k).2
  = [EmbedContent RETRIEVAL_QUERY query].
Proof.
  unfold retrieve_and_build_context.
  by destruct (embed_content sv RETRIEVAL_QUERY query).
Qed.

Lemma answer_after_embedding sv query index_path reviews_dir loaded q :
  load index_path = Ok loaded →
  embed_content sv RETRIEVAL_QUERY query = Ok q →
  (∃ e, answer_query_with_graph sv query index_path reviews_dir
        = (Raised e, [EmbedContent RETRIEVAL_QUERY query])) ∨
  (∃ context_text,
     Py.startswith context_text header = true ∧
     answer_query_with_graph sv query index_path reviews_dir
     = (Ok (Py.try_except
              (generate_content sv (answer_prompt context_text query))
              generation_error),
        [EmbedContent RETRIEVAL_QUERY query;
         GenerateContent (answer_prompt context_text query)])).
Proof.
  intros Hl He. unfold answer_query_with_graph. rewrite Hl.
  destruct loaded as [[[G summaries] ix] ids].
  pose proof (retrieve_after_embedding sv query G ix ids summaries
                reviews_dir 5 q) as Hr.
  pose proof (retrieve_calls sv query G ix ids summaries reviews_dir 5) as Hc.
  destruct (retrieve_and_build_context _ _ _ _ _ _ _ _) as [r calls].
  simpl in *. subst calls. destruct r as [s|e]; [|left; eauto].
  destruct (Hr s He eq_refl) as [Hh Hne]. right. exists s. split; [done|].
  by rewrite bool_decide_eq_false_2.
Qed.

End AnswerFacts.

Section SearchFacts.

Import QueryEngine.

(** The positions of the candidates are positions of rows, in
    increasing order. *)
Lemma candidates_positions_from (g : nat → nat) distance (q : Faiss.vec)
    (rows : list Faiss.vec) :
  (omap (λ r : option Z * nat, (λ x, (x, r.2)) <$> r.1)
        (imap (λ i v, (distance q v, g i)) rows)).*2
  `sublist_of` g <$> seq 0 (length rows).
Proof.
  revert g. induction rows as [|v rows IH]; intros g; [done|].
  cbn [imap length]. rewrite omap_cons_option_list.
  rewrite <- cons_seq, fmap_cons, <- fmap_S_seq, <- list_fmap_compose.
  rewrite fmap_app.
  destruct (distance q v) as [x|]; cbn [fmap option_fmap option_map
    option_list list_fmap app].
  - apply sublist_skip, (IH (g ∘ S)).
  - apply sublist_cons, (IH (g ∘ S)).
Qed.

Lemma candidates_positions distance (q : Faiss.vec) (rows : list Faiss.vec) :
  (Faiss.candidates distance q rows).*2 `sublist_of` seq 0 (length rows).
Proof.
  rewrite <- (list_fmap_id (seq 0 (length rows))).
  apply (candidates_positions_from id).
Qed.

(** What a search returns: the positions found, each the position of a
    row and none twice, then [-1] in the places left. *)
Lemma search_found distance ix q k :
  length q = Faiss.d ix → 0 < k →
  ∃ found : list nat,
    Faiss.search distance ix q k
    = Ok ((Z.of_nat <$> found) ++ replicate (k - length found) (-1)%Z) ∧
    length found ≤ k ∧ length found ≤ Faiss.ntotal ix ∧ NoDup found ∧
    ∀ i, i ∈ found → i < Faiss.ntotal ix.
Proof.
  intros Hq Hk. unfold Faiss.search.
  rewrite bool_decide_eq_true_2 by done. cbv zeta.
  set (ranked := merge_sort Faiss.closer _).
  assert (ranked.*2 ≡ₚ (Faiss.candidates distance q (Faiss.xb ix)).*2) as Hp.
  { unfold ranked. by rewrite merge_sort_Permutation. }
  pose proof (candidates_positions distance q (Faiss.xb ix)) as Hsub.
  assert (NoDup ranked.*2) as Hnd.
  { rewrite Hp. eapply sublist_NoDup; [apply NoDup_seq | exact Hsub]. }
  assert (∀ i, i ∈ ranked.*2 → i < Faiss.ntotal ix) as Hin.
  { intros i Hi. rewrite Hp in Hi.
    pose proof (elem_of_sublist _ _ _ Hi Hsub) as Hi'.
    apply elem_of_seq in Hi'. unfold Faiss.ntotal. lia. }
  assert (length ranked.*2 ≤ Faiss.ntotal ix) as Hlen.
  { rewrite Hp. apply sublist_length in Hsub.
    rewrite length_seq in Hsub. exact Hsub. }
  exists (take k ranked.*2).
  assert ((λ r : Z * nat, Z.of_nat r.2) <$> ranked = Z.of_nat <$> ranked.*2)
    as -> by (by rewrite <- list_fmap_compose).
  rewrite <- fmap_take, !length_fmap. split; [done|].
  rewrite length_take. split; [lia|]. split; [lia|]. split.
  - eapply sublist_NoDup; [exact Hnd | apply sublist_take].
  - intros i Hi. apply Hin.
    eapply elem_of_sublist; [exact Hi | apply sublist_take].
Qed.

(** As many places as asked for, each holding the position of a row or
    [-1]. *)
Lemma search_positions distance ix q k r :
  Faiss.search distance ix q k = Ok r →
  length r = k ∧
  ∀ z, z ∈ r → z = (-1)%Z ∨ ∃ i, z = Z.of_nat i ∧ i < Faiss.ntotal ix.
Proof.
  intros Hs.
  assert (length q = Faiss.d ix ∧ 0 < k) as [Hq Hk].
  { unfold Faiss.search in Hs. by case_bool_decide. }
  destruct (search_found distance ix q k Hq Hk)
    as (found & Hf & Hk' & _ & _ & Hin).
  rewrite Hf in Hs. injection Hs as <-. split.
  - rewrite length_app, length_fmap, length_replicate. lia.
  - intros z [Hz|Hz]%elem_of_app.
    + right. apply list_elem_of_fmap in Hz as (i & -> & Hi). eauto.
    + left. by apply elem_of_replicate in Hz as [? _].
Qed.

Lemma search_total distance ix q k :
  length q = Faiss.d ix → 0 < k → ∃ r, Faiss.search distance ix q k = Ok r.
Proof.
  intros Hq Hk. destruct (search_found distance ix q k Hq Hk) as (f & -> & _).
  eauto.
Qed.

Lemma index_in_range (ids : list string) z :
  ids ≠ [] →
  z = (-1)%Z ∨ (∃ i, z = Z.of_nat i ∧ i < length ids) →
  ∃ id, Py.index ids z = Ok id ∧ id ∈ ids.
Proof.
  intros Hne [->|(i & -> & Hi)].
  - destruct (last ids) as [id|] eqn:Hl.
    + exists id. split; [by apply index_minus_one|].
      rewrite last_lookup in Hl. by apply list_elem_of_lookup_2 in Hl.
    + by apply last_None in Hl.
  - destruct (lookup_lt_is_Some_2 ids i Hi) as [id Hid].
    exists id. split; [by apply index_front|].
    by apply list_elem_of_lookup_2 in Hid.
Qed.

Lemma comprehension_elem {A B} (f : A → outcome B) xs bs b :
  Py.comprehension f xs = Ok bs → b ∈ bs → ∃ x, x ∈ xs ∧ f x = Ok b.
Proof.
  revert bs. induction xs as [|x xs IH]; intros bs; simpl.
  - intros [= <-] Hb. by apply elem_of_nil in Hb.
  - destruct (f x) as [b'|] eqn:Hx; [|done]. simpl.
    destruct (Py.comprehension f xs) as [bs'|]; [|done]. simpl.
    intros [= <-] [->|Hb]%elem_of_cons.
    + exists x. split; [left | done].
    + destruct (IH bs' eq_refl Hb) as (x' & Hx' & Hfx').
      exists x'. split; [by right | done].
Qed.

Lemma entry_points_total (ids : list string) r :
  ids ≠ [] →
  (∀ z, z ∈ r → z = (-1)%Z ∨ ∃ i, z = Z.of_nat i ∧ i < length ids) →
  ∃ entry, entry_points ids r = Ok entry ∧ length entry = length r ∧
           ∀ n, n ∈ entry → n ∈ ids.
Proof.
  intros Hne Hr. unfold entry_points.
  destruct (comprehension_exists (Py.index ids) r) as [entry He].
  { intros z Hz. destruct (index_in_range ids z Hne (Hr z Hz)) as (id & ? & _).
    eauto. }
  exists entry. split; [done|]. split; [by eapply comprehension_length|].
  intros n Hn. destruct (comprehension_elem _ _ _ _ He Hn) as (z & Hz & Hi).
  destruct (index_in_range ids z Hne (Hr z Hz)) as (id & Hid & Hin).
  congruence.
Qed.

End SearchFacts.


Section StepOneFacts.

Import GraphBuilder.
Implicit Types (G : Nx.graph) (sv : services).

Lemma for_each_Raised {S B} (body : S → B → outcome S) l x e :
  Py.for_each body l x = Raised e →
  ∃ y b, b ∈ l ∧ body y b = Raised e.
Proof.
  revert x. induction l as [|b l IH]; intros x; simpl; [done|].
  destruct (body x b) as [y|e'] eqn:Hy; simpl.
  - intros (y' & b' & Hin & Hb)%IH. exists y', b'. split; [by right | done].
  - intros [= ->]. exists x, b. split; [left | done].
Qed.

Lemma for_each_total {S B} (body : S → B → outcome S) l x :
  (∀ y b, b ∈ l → ∃ y', body y b = Ok y') →
  ∃ x', Py.for_each body l x = Ok x'.
Proof.
  revert x. induction l as [|b l IH]; intros x Hbody; simpl; [eauto|].
  destruct (Hbody x b) as [y ->]; [left|]. simpl.
  apply IH. intros y' b' Hin. apply Hbody. by right.
Qed.

Lemma item_Raised {V} (d : Py.dict V) k e :
  Py.item d k = Raised e → e = Py.KeyError k ∧ Py.get d k = None.
Proof. unfold Py.item. destruct (Py.get d k); [done|]. by intros [= <-]. Qed.

(** The keys that step 1 reads. *)
Lemma add_parsed_Raised f G (p : parsed) e :
  add_parsed f G p = Raised e →
  ∃ k, e = Py.KeyError k ∧ k ∈ ["id"; "type"; "value"; "source"; "target"].
Proof.
  unfold add_parsed.
  destruct (Py.for_each _ (entity_objects p) G) as [G1|e'] eqn:He; simpl.
  - intros (G2 & o & _ & Ho)%for_each_Raised.
    unfold add_relationship_object in Ho.
    destruct (Py.item o "source") as [source|] eqn:Hs; simpl in Ho;
      [|apply item_Raised in Hs as [-> _]; injection Ho as <-;
        eexists; split; [done | set_solver]].
    destruct (Nx.has_node G2 source); [|done].
    destruct (Py.item o "target") as [target|] eqn:Ht; simpl in Ho;
      [|apply item_Raised in Ht as [-> _]; injection Ho as <-;
        eexists; split; [done | set_solver]].
    destruct (Nx.has_node G2 target); [|done].
    destruct (Py.item o "type") as [type|] eqn:Hty; simpl in Ho; [done|].
    apply item_Raised in Hty as [-> _]. injection Ho as <-.
    eexists; split; [done | set_solver].
  - intros [= ->]. apply for_each_Raised in He as (G2 & o & _ & Ho).
    unfold add_entity_object, read_entity in Ho.
    destruct (Py.item o "id") as [id|] eqn:Hi; simpl in Ho;
      [|apply item_Raised in Hi as [-> _]; injection Ho as <-;
        eexists; split; [done | set_solver]].
    destruct (Py.item o "type") as [type|] eqn:Hty; simpl in Ho;
      [|apply item_Raised in Hty as [-> _]; injection Ho as <-;
        eexists; split; [done | set_solver]].
    destruct (Py.item o "value") as [value|] eqn:Hv; simpl in Ho; [done|].
    apply item_Raised in Hv as [-> _]. injection Ho as <-.
    eexists; split; [done | set_solver].
Qed.

(** Step 1 raises nothing but the [KeyError] of a key that an object of
    an answer lacks. *)
Lemma initial_graph_Raised sv (reviews_dir : Py.dict string) e :
  initial_graph sv reviews_dir = Raised e →
  ∃ k, e = Py.KeyError k ∧ k ∈ ["id"; "type"; "value"; "source"; "target"].
Proof.
  unfold initial_graph. intros (G & file & _ & Hr)%for_each_Raised.
  unfold add_review in Hr.
  destruct (extract_entities_from_review sv file.2) as [p|]; [|done].
  by eapply add_parsed_Raised.
Qed.

Lemma extract_Some sv text (p : parsed) :
  extract_entities_from_review sv text = Some p →
  ∃ json_text, json_loads sv json_text = Ok p.
Proof.
  unfold extract_entities_from_review.
  destruct (generate_content sv _) as [response_text|]; simpl; [|done].
  destruct (Py.search_block _ _ response_text) as [json_text|]; simpl;
    [|done].
  destruct (json_loads sv json_text) as [p'|] eqn:Hp; simpl; [|done].
  intros [= <-]. eauto.
Qed.

Lemma add_parsed_json_of f G (ex : extraction) :
  add_parsed f G (json_of ex) = Ok (add_extraction f G ex).
Proof.
  destruct ex as [es rels]. unfold add_parsed, add_extraction, json_of.
  cbn [entity_objects relationship_objects entities relationships].
  assert (∀ G, Py.for_each (add_entity_object f) (entity_object <$> es) G
               = Ok (fold_left (add_entity f) es G)) as ->.
  { induction es as [|e es IH]; intros G1; [done|].
    rewrite fmap_cons. cbn [Py.for_each fold_left].
    assert (add_entity_object f G1 (entity_object e)
            = Ok (add_entity f G1 e)) as ->
      by (unfold add_entity_object; by rewrite read_entity_object).
    simpl. apply IH. }
  simpl. generalize (fold_left (add_entity f) es G). clear.
  induction rels as [|rel rels IH]; intros G; [done|].
  rewrite fmap_cons. cbn [Py.for_each fold_left].
  assert (add_relationship_object G (relationship_object rel)
          = Ok (add_relationship G rel)) as ->.
  { destruct rel as [s t ty]. unfold add_relationship_object, add_relationship.
    simpl. destruct (Nx.has_node G s); [|done]. simpl.
    by destruct (Nx.has_node G t). }
  simpl. apply IH.
Qed.

(** When every object of every answer holds its keys, step 1 goes
    through. *)
Lemma initial_graph_complete sv (reviews_dir : Py.dict string) :
  (∀ json_text p, json_loads sv json_text = Ok p → ∃ ex, p = json_of ex) →
  ∃ G, initial_graph sv reviews_dir = Ok G.
Proof.
  intros Hall. unfold initial_graph. apply for_each_total.
  intros G file _. unfold add_review.
  destruct (extract_entities_from_review sv file.2) as [p|] eqn:Hp; [|eauto].
  apply extract_Some in Hp as (json_text & Hp).
  destruct (Hall _ _ Hp) as [ex ->]. rewrite add_parsed_json_of. eauto.
Qed.

(** An index that is returned has a row, and as many rows as ids. *)
Lemma index_not_empty sv G ix ids :
  create_entity_embeddings_index sv G = Some (ix, ids) →
  ids ≠ [] ∧ Faiss.ntotal ix = length ids.
Proof.
  intros Hix. destruct (index_rows sv G ix ids Hix) as [Hids _].
  destruct (index_alignment sv G ix ids Hix) as [Hlen _].
  split; [|done]. intros ->. unfold create_entity_embeddings_index in Hix.
  rewrite collect_values_valued in Hix.
  symmetry in Hids. apply fmap_nil_inv in Hids. by rewrite Hids in Hix.
Qed.

(** The index directory a build that returned [True] leaves: its parts
    fit together. *)
Lemma built_index_fits sv (reviews_dir : Py.dict string)
    (index_path index_path' : index_dir) :
  build_knowledge_graph sv reviews_dir index_path = (Ok true, index_path') →
  ∃ G summaries ix ids,
    index_path' = IndexDir (Some G) (Some summaries) (Some ix) (Some ids) ∧
    Nx.wf G ∧ ids ≠ [] ∧ (∀ n, n ∈ ids → n ∈ Py.keys (Nx.nodes G)) ∧
    Faiss.ntotal ix = length ids.
Proof.
  intros Hb.
  destruct (build_true _ _ _ _ Hb)
    as (G0 & summaries & ix & ids & HG & _ & _ & Hix & ->).
  set (G := (detect_and_store_communities G0).1) in *.
  exists G, (json_dump_summaries summaries), ix, ids. split; [done|].
  split; [by eapply detect_wf, initial_graph_wf|].
  destruct (index_rows sv G ix ids Hix) as [Hids _].
  destruct (index_alignment sv G ix ids Hix) as [Hlen _].
  split; [|split; [|done]].
  - intros ->. unfold create_entity_embeddings_index in Hix.
    rewrite collect_values_valued in Hix.
    symmetry in Hids. apply fmap_nil_inv in Hids. by rewrite Hids in Hix.
  - intros n Hn. rewrite Hids in Hn.
    apply list_elem_of_fmap in Hn as ([n' v] & -> & Hn).
    apply elem_of_valued in Hn as (d & Hn & _).
    apply list_elem_of_fmap. by exists (n', d).
Qed.

End StepOneFacts.

Section AnswerTotalFacts.

Import QueryEngine.


(** A query whose entry points are nodes of the graph: the loop goes
    through and the generation model is asked. *)
Lemma answer_from_entry sv query index_path reviews_dir G summaries ix ids q
    indices entry :
  load index_path = Ok (G, summaries, ix, ids) →
  Nx.wf G →
  embed_content sv RETRIEVAL_QUERY query = Ok q →
  Faiss.search (fvec_L2sqr sv) ix q 5 = Ok indices →
  entry_points ids indices = Ok entry →
  (∀ n, n ∈ entry → n ∈ Py.keys (Nx.nodes G)) →
  ∃ st,
    augment G summaries reviews_dir entry = Ok st ∧
    length (local_graph (ctx st)) = length entry ∧
    retrieve_and_build_context sv query G ix ids summaries reviews_dir 5
    = (Ok (assemble (ctx st)), [EmbedContent RETRIEVAL_QUERY query]) ∧
    answer_query_with_graph sv query index_path reviews_dir
    = (Ok (Py.try_except
             (generate_content sv (answer_prompt (assemble (ctx st)) query))
             generation_error),
       [EmbedContent RETRIEVAL_QUERY query;
        GenerateContent (answer_prompt (assemble (ctx st)) query)]).
Proof.
  intros Hload Hwf Hq Hs He Hin.
  destruct (for_each_visit G summaries reviews_dir entry scan0 Hwf Hin)
    as (st & Hst & Hlocal & _).
  exists st. split; [done|]. split; [simpl in Hlocal; lia|].
  assert (retrieve_and_build_context sv query G ix ids summaries
            reviews_dir 5
          = (Ok (assemble (ctx st)), [EmbedContent RETRIEVAL_QUERY query]))
    as Hr.
  { unfold retrieve_and_build_context. rewrite Hq, Hs. simpl. rewrite He.
    simpl. unfold augment in *. by rewrite Hst. }
  split; [done|].
  unfold answer_query_with_graph. rewrite Hload, Hr.
  rewrite bool_decide_eq_false_2 by apply assemble_nonempty. done.
Qed.

(** A query on an index whose parts fit together: the graph is well
    formed, the id array is not empty, names nodes only, and is at least
    as long as the index; the query is embedded with the width of the
    index. *)
Lemma answer_total sv query index_path reviews_dir G summaries ix ids q :
  load index_path = Ok (G, summaries, ix, ids) →
  Nx.wf G → ids ≠ [] → (∀ n, n ∈ ids → n ∈ Py.keys (Nx.nodes G)) →
  Faiss.ntotal ix ≤ length ids →
  embed_content sv RETRIEVAL_QUERY query = Ok q →
  length q = Faiss.d ix →
  ∃ st indices entry,
    Faiss.search (fvec_L2sqr sv) ix q 5 = Ok indices ∧
    entry_points ids indices = Ok entry ∧
    length entry = 5 ∧ (∀ n, n ∈ entry → n ∈ ids) ∧
    augment G summaries reviews_dir entry = Ok st ∧
    length (local_graph (ctx st)) = 5 ∧
    answer_query_with_graph sv query index_path reviews_dir
    = (Ok (Py.try_except
             (generate_content sv (answer_prompt (assemble (ctx st)) query))
             generation_error),
       [EmbedContent RETRIEVAL_QUERY query;
        GenerateContent (answer_prompt (assemble (ctx st)) query)]).
Proof.
  intros Hload Hwf Hne Hids Hlen Hq Hd.
  destruct (search_total (fvec_L2sqr sv) ix q 5 Hd) as [indices Hs]; [lia|].
  destruct (search_positions _ ix q 5 indices Hs) as [Hl Hpos].
  destruct (entry_points_total ids indices Hne) as (entry & He & Hle & Hin).
  { intros z Hz. destruct (Hpos z Hz) as [->|(i & -> & Hi)]; [by left|].
    right. exists i. split; [done | lia]. }
  destruct (answer_from_entry sv query index_path reviews_dir G summaries
              ix ids q indices entry) as (st & Hst & Hlocal & _ & Ha);
    [done | done | done | done | done | by intros n Hn; apply Hids, Hin |].
  exists st, indices, entry. do 2 (split; [done|]).
  split; [lia|]. split; [done|]. split; [done|]. split; [lia | done].
Qed.

End AnswerTotalFacts.

Section FiniteDistanceFacts.

(** When every row is at a finite distance, every position is a
    candidate. *)
Lemma candidates_all_from (g : nat → nat) distance (q : Faiss.vec)
    (rows : list Faiss.vec) :
  (∀ v, v ∈ rows → is_Some (distance q v)) →
  (omap (λ r : option Z * nat, (λ x, (x, r.2)) <$> r.1)
        (imap (λ i v, (distance q v, g i)) rows)).*2
  = g <$> seq 0 (length rows).
Proof.
  revert g. induction rows as [|v rows IH]; intros g Hall; [done|].
  cbn [imap length]. rewrite omap_cons_option_list.
  rewrite <- cons_seq, fmap_cons, <- fmap_S_seq, <- list_fmap_compose.
  rewrite fmap_app.
  destruct (Hall v) as [x ->]; [left|].
  cbn [fmap option_fmap option_map option_list list_fmap app].
  f_equal. apply (IH (g ∘ S)). intros v' Hv'. apply Hall. by right.
Qed.

Lemma found_inj (a b : list nat) n m :
  (Z.of_nat <$> a) ++ replicate n (-1)%Z
  = (Z.of_nat <$> b) ++ replicate m (-1)%Z → a = b.
Proof.
  revert b. induction a as [|x a IH]; intros [|y b]; simpl.
  - done.
  - destruct n; simpl; [done|]. intros [= ? _]. lia.
  - destruct m; simpl; [done|]. intros [= ? _]. lia.
  - intros [= Hx%Nat2Z.inj Hab]. f_equal; [done | by apply IH].
Qed.

Lemma search_all_found distance ix q k found :
  (∀ v, v ∈ Faiss.xb ix → is_Some (distance q v)) →
  Faiss.ntotal ix ≤ k →
  Faiss.search distance ix q k
  = Ok ((Z.of_nat <$> found) ++ replicate (k - length found) (-1)%Z) →
  found ≡ₚ seq 0 (Faiss.ntotal ix).
Proof.
  intros Hall Hk. unfold Faiss.search. case_bool_decide; [|done].
  cbv zeta. set (ranked := merge_sort Faiss.closer _).
  assert (ranked.*2 ≡ₚ seq 0 (Faiss.ntotal ix)) as Hp.
  { unfold ranked, Faiss.candidates. rewrite merge_sort_Permutation.
    rewrite (candidates_all_from id) by done. by rewrite list_fmap_id. }
  assert ((λ r : Z * nat, Z.of_nat r.2) <$> ranked = Z.of_nat <$> ranked.*2)
    as -> by (by rewrite <- list_fmap_compose).
  assert (length ranked.*2 = Faiss.ntotal ix) as Hlen
    by (by rewrite Hp, length_seq).
  rewrite take_ge by (rewrite length_fmap; lia).
  intros [= Heq%found_inj]. by rewrite <- Heq.
Qed.

End FiniteDistanceFacts.

(* ===================================================================== *)
(** ** The properties of the specification *)
(* ===================================================================== *)

Section FragmentProperties.

Import GraphBuilder QueryEngine.

(** C1, as the specification has it, fails. The index is the one the
    build wrote for the two sample reviews. The embedding of the query
    lies so far from its three rows that no distance is a finite number:
    the search finds no row and fills its five places with [-1]. The
    context that comes back is not the empty string, and the caller asks
    the generation model and returns its answer. *)
Lemma unmatched_query_is_answered :
  build_knowledge_graph Examples.sv Examples.reviews_dir no_index
  = (Ok true, Examples.built_index) ∧
  embed_content Examples.sv_far_query RETRIEVAL_QUERY Examples.query
  = Ok [100000000000000000000; 1]%Z ∧
  ∃ G summaries ix ids s prompt,
    load Examples.built_index = Ok (G, summaries, ix, ids) ∧
    Faiss.search (fvec_L2sqr Examples.sv_far_query) ix
                 [100000000000000000000; 1]%Z 5
    = Ok [-1; -1; -1; -1; -1]%Z ∧
    retrieve_and_build_context Examples.sv_far_query Examples.query G ix ids
                               summaries Examples.reviews_dir 5
    = (Ok s, [EmbedContent RETRIEVAL_QUERY Examples.query]) ∧
    s ≠ "" ∧
    answer_query_with_graph Examples.sv_far_query Examples.query
                            Examples.built_index Examples.reviews_dir
    = (Ok "Users report crashes when opening playlists.",
       [EmbedContent RETRIEVAL_QUERY Examples.query;
        GenerateContent prompt]).
Proof.
  split; [vm_compute; reflexivity|]. split; [reflexivity|].
  eexists _, _, _, _, _, _. split; [vm_compute; reflexivity|].
  split; [vm_compute; reflexivity|]. split; [vm_compute; reflexivity|].
  split; [done|]. vm_compute. reflexivity.
Qed.

(** C1 (amended). [retrieve_and_build_context] returns the empty string
    exactly when embedding the query fails, and for a loadable index the
    caller answers that nothing relevant was found, without a generation
    call, exactly then. Once the query is embedded, a context that comes
    back starts with the header line whatever the search found, and the
    caller lets an exception through or asks the generation model. On
    an index that a build wrote, a search that finds no row selects the
    last entity of the id array for each of its five places: the context
    holds five local fragments and the generation model is asked. *)
Theorem empty_context_means_embedding_failed (sv : services)
    (query : string) :
  (∀ G ix ids summaries reviews_dir top_k,
     (retrieve_and_build_context sv query G ix ids summaries reviews_dir
                                 top_k).1 = Ok ""
     ↔ ∃ e, embed_content sv RETRIEVAL_QUERY query = Raised e) ∧
  (∀ G ix ids summaries reviews_dir top_k q s,
     embed_content sv RETRIEVAL_QUERY query = Ok q →
     (retrieve_and_build_context sv query G ix ids summaries reviews_dir
                                 top_k).1 = Ok s →
     Py.startswith s header = true ∧ s ≠ "") ∧
  (∀ index_path reviews_dir loaded,
     load index_path = Ok loaded →
     (answer_query_with_graph sv query index_path reviews_dir
      = (Ok nothing_relevant, [EmbedContent RETRIEVAL_QUERY query])
      ↔ ∃ e, embed_content sv RETRIEVAL_QUERY query = Raised e) ∧
     ∀ q, embed_content sv RETRIEVAL_QUERY query = Ok q →
       (∃ e, answer_query_with_graph sv query index_path reviews_dir
             = (Raised e, [EmbedContent RETRIEVAL_QUERY query])) ∨
       (∃ context_text,
          Py.startswith context_text header = true ∧
          answer_query_with_graph sv query index_path reviews_dir
          = (Ok (Py.try_except
                   (generate_content sv (answer_prompt context_text query))
                   generation_error),
             [EmbedContent RETRIEVAL_QUERY query;
              GenerateContent (answer_prompt context_text query)]))) ∧
  (∀ sv0 reviews_dir0 index_path0 index_path reviews_dir q,
     build_knowledge_graph sv0 reviews_dir0 index_path0
     = (Ok true, index_path) →
     embed_content sv RETRIEVAL_QUERY query = Ok q →
     ∃ G summaries ix ids final,
       load index_path = Ok (G, summaries, ix, ids) ∧
       last ids = Some final ∧
       (Faiss.search (fvec_L2sqr sv) ix q 5 = Ok (replicate 5 (-1)%Z) →
        ∃ st,
          entry_points ids (replicate 5 (-1)%Z) = Ok (replicate 5 final) ∧
          augment G summaries reviews_dir (replicate 5 final) = Ok st ∧
          length (local_graph (ctx st)) = 5 ∧
          retrieve_and_build_context sv query G ix ids summaries
                                     reviews_dir 5
          = (Ok (assemble (ctx st)), [EmbedContent RETRIEVAL_QUERY query]) ∧
          answer_query_with_graph sv query index_path reviews_dir
          = (Ok (Py.try_except
                   (generate_content sv
                      (answer_prompt (assemble (ctx st)) query))
                   generation_error),
             [EmbedContent RETRIEVAL_QUERY query;
              GenerateContent (answer_prompt (assemble (ctx st)) query)]))).
Proof.
  split; [|split; [|split]].
  - intros G ix ids summaries reviews_dir top_k. split.
    + intros Hr.
      destruct (embed_content sv RETRIEVAL_QUERY query) as [q|e] eqn:He;
        [|by eauto].
      by destruct (retrieve_after_embedding sv query G ix ids summaries
                     reviews_dir top_k q "" He Hr).
    + intros [e He]. by erewrite retrieve_embed_failure.
  - intros. by eapply retrieve_after_embedding.
  - intros index_path reviews_dir loaded Hl. split.
    + split.
      * intros Ha.
        destruct (embed_content sv RETRIEVAL_QUERY query) as [q|e] eqn:He;
          [|by eauto].
        destruct (answer_after_embedding sv query index_path reviews_dir
                    loaded q Hl He) as [[e Hr]|(c & _ & Hr)];
          rewrite Hr in Ha; discriminate Ha.
      * intros [e He]. unfold answer_query_with_graph. rewrite Hl.
        destruct loaded as [[[G summaries] ix] ids].
        erewrite retrieve_embed_failure by done.
        by rewrite bool_decide_eq_true_2.
    + intros q He. by eapply answer_after_embedding.
  - intros sv0 reviews_dir0 index_path0 index_path reviews_dir q Hb He.
    destruct (built_index_fits _ _ _ _ Hb)
      as (G & summaries & ix & ids & -> & Hwf & Hne & Hin & Hlen).
    destruct (last ids) as [final|] eqn:Hlast;
      [|by apply last_None in Hlast].
    exists G, summaries, ix, ids, final. do 2 (split; [done|]).
    intros Hs.
    assert (entry_points ids (replicate 5 (-1)%Z) = Ok (replicate 5 final))
      as Hentry
      by (by apply comprehension_replicate, index_minus_one).
    destruct (answer_from_entry sv query
                (IndexDir (Some G) (Some summaries) (Some ix) (Some ids))
                reviews_dir G summaries ix ids q (replicate 5 (-1)%Z)
                (replicate 5 final))
      as (st & Hst & Hl & Hr & Ha); [done..| |].
    { intros n [-> _]%elem_of_replicate. apply Hin.
      rewrite last_lookup in Hlast. by eapply list_elem_of_lookup_2. }
    exists st. by rewrite length_replicate in Hl.
Qed.

Lemma empty_context_means_embedding_failed_witness :
  build_knowledge_graph Examples.sv Examples.reviews_dir no_index
  = (Ok true, Examples.built_index) ∧
  ∃ st,
    length (local_graph (ctx st)) = 5 ∧
    answer_query_with_graph Examples.sv_far_query Examples.query
                            Examples.built_index Examples.reviews_dir
    = (Ok (Py.try_except
             (generate_content Examples.sv_far_query
                (answer_prompt (assemble (ctx st)) Examples.query))
             generation_error),
       [EmbedContent RETRIEVAL_QUERY Examples.query;
        GenerateContent (answer_prompt (assemble (ctx st)) Examples.query)]).
Proof.
  assert (build_knowledge_graph Examples.sv Examples.reviews_dir no_index
          = (Ok true, Examples.built_index)) as Hb
    by (vm_compute; reflexivity).
  split; [exact Hb|].
  destruct (proj2 (proj2 (proj2
              (empty_context_means_embedding_failed Examples.sv_far_query
                 Examples.query)))
              Examples.sv Examples.reviews_dir no_index Examples.built_index
              Examples.reviews_dir [100000000000000000000; 1]%Z Hb eq_refl)
    as (G & summaries & ix & ids & final & Hl & _ & H).
  vm_compute in Hl. injection Hl as <- <- <- <-.
  destruct H as (st & _ & _ & Hlen & _ & Ha); [vm_compute; reflexivity|].
  exists st. split; [exact Hlen | exact Ha].
Defined.




End FragmentProperties.

Section BuildProperties.

Import GraphBuilder.



(** C4. A relationship one of whose ends is not a node when its turn
    comes leaves the graph as it was: no exception, no node created for
    the other end. After the extraction is through, no edge joins its
    two ends, and the edges added are those of the other relationships
    whose ends were both nodes. *)
Theorem dangling_relationship_dropped (filename : string) (G : Nx.graph)
    (extracted_data : extraction) (before after : list relationship)
    (rel : relationship) :
  Nx.wf G →
  relationships extracted_data = before ++ rel :: after →
  let at_insertion :=
    fold_left add_relationship before
      (fold_left (add_entity filename) (entities extracted_data) G) in
  Nx.has_node at_insertion (rel_source rel) = false ∨
  Nx.has_node at_insertion (rel_target rel) = false →
  let G' := add_extraction filename G extracted_data in
  add_relationship at_insertion rel = at_insertion ∧
  Nx.nodes G' = Nx.nodes at_insertion ∧
  (∀ e, e ∈ Nx.edges G' →
     ¬ (Nx.src e = rel_source rel ∧ Nx.dst e = rel_target rel)) ∧
  Nx.edges G' =
    Nx.edges G ++
    (edge_of <$> filter (λ r, anchored at_insertion r) (before ++ after)).
Proof.
  intros Hwf Hrels at_insertion Hdangling G'.
  set (G1 := fold_left (add_entity filename) (entities extracted_data) G)
    in *.
  assert (Nx.nodes at_insertion = Nx.nodes G1) as Hn1
    by apply nodes_add_relationships.
  assert (Nx.nodes G' = Nx.nodes G1) as Hn2
    by apply nodes_add_relationships.
  assert (anchored at_insertion rel = false) as Hrel.
  { unfold anchored. destruct Hdangling as [-> | ->];
      [done | apply andb_false_r]. }
  split; [|split; [|split]].
  - by rewrite add_relationship_cases, Hrel.
  - by rewrite Hn1.
  - intros e He [Hs Hd].
    assert (Nx.wf G') as Hwf' by (by apply add_extraction_wf).
    destruct (wf_edge G' e Hwf' He) as [Hks Hkd].
    rewrite Hn2, <- Hn1 in Hks, Hkd. rewrite Hs in Hks. rewrite Hd in Hkd.
    assert (anchored at_insertion rel = true) as Hyes
      by (apply anchored_true; done).
    by rewrite Hrel in Hyes.
  - unfold G', add_extraction. fold G1.
    rewrite edges_add_relationships, Hrels.
    assert (Nx.edges G1 = Nx.edges G) as ->.
    { unfold G1. apply (fold_left_preserves
                          (λ H, Nx.edges H = Nx.edges G)); [|done].
      intros H e HH. exact HH. }
    f_equal. f_equal.
    rewrite !filter_app, filter_cons_False.
    + f_equal; apply list_filter_iff; intros r;
        by rewrite (anchored_nodes G1 at_insertion r).
    + rewrite (anchored_nodes G1 at_insertion rel), Hrel by done.
      by intros [].
Qed.

Lemma dangling_relationship_dropped_witness :
  Nx.wf Nx.empty ∧
  Nx.has_node
    (fold_left add_relationship
       [Relationship "app_crash" "playlist" "related_to"]
       (fold_left (add_entity "a.txt") (entities Examples.first_extraction)
                  Nx.empty))
    "negative_sentiment" = false ∧
  ∀ e, e ∈ Nx.edges (add_extraction "a.txt" Nx.empty
                                    Examples.first_extraction) →
       ¬ (Nx.src e = "negative_sentiment" ∧ Nx.dst e = "app_crash").
Proof.
  split; [apply empty_wf|]. split; [reflexivity|].
  exact (proj1 (proj2 (proj2
    (dangling_relationship_dropped "a.txt" Nx.empty
       Examples.first_extraction
       [Relationship "app_crash" "playlist" "related_to"] []
       (Relationship "negative_sentiment" "app_crash" "describes")
       empty_wf eq_refl (or_introl eq_refl))))).
Defined.

End BuildProperties.

Section CommunityProperties.

Import GraphBuilder.

(** C5. After detection every node carries the index of a community
    that holds it, and no other community holds it; the communities are
    pairwise disjoint and together hold exactly the nodes; a node that no
    edge touches is a community by itself; and detection stops only when
    no merge increases modularity. *)
Theorem community_coverage (G : Nx.graph) :
  Nx.wf G →
  let G' := (detect_and_store_communities G).1 in
  let communities := (detect_and_store_communities G).2 in
  (∀ n, n ∈ Py.keys (Nx.nodes G) →
     ∃ d i members,
       Nx.node G' n = Ok d ∧ Nx.community_id d = Some i ∧
       communities !! i = Some members ∧ n ∈ members ∧
       ∀ j others, communities !! j = Some others → n ∈ others → j = i) ∧
  Py.keys (Nx.nodes G') = Py.keys (Nx.nodes G) ∧
  NoDup (mjoin communities) ∧
  (∀ n, n ∈ Py.keys (Nx.nodes G) ↔
        ∃ members, members ∈ communities ∧ n ∈ members) ∧
  (∀ n, n ∈ Py.keys (Nx.nodes G) →
        (∀ e, e ∈ Nx.edges G → Nx.src e ≠ n ∧ Nx.dst e ≠ n) →
        [n] ∈ communities) ∧
  Nx.best_merge (Nx.to_undirected G) communities = None.
Proof.
  intros [Hnd Hedges] G' communities.
  pose proof (detect_partition G) as Hp. fold communities in Hp.
  assert (NoDup (mjoin communities)) as Hnd' by (by rewrite Hp).
  split; [|split; [|split; [|split; [|split]]]].
  - intros n [d Hd]%get_is_Some.
    destruct (detect_get G n d Hnd Hd) as (i & members & Hi & Hn & Hg).
    exists (Nx.tagged i d), i, members.
    split; [by apply node_Ok|].
    split; [by destruct d|]. split; [done|]. split; [done|].
    intros j others Hj Hno.
    by apply (partition_index communities n j i others members).
  - apply detect_keys.
  - done.
  - intros n. rewrite <- Hp, list_elem_of_join. naive_solver.
  - intros n Hn Hiso. apply (greedy_alone (Nx.to_undirected G)); [|done].
    by apply to_undirected_untouched.
  - apply greedy_done.
Qed.

Lemma community_coverage_witness :
  ∃ G, initial_graph Examples.sv Examples.reviews_dir = Ok G ∧
       Nx.wf G ∧ ["dark_mode"] ∈ (detect_and_store_communities G).2.
Proof.
  eexists. split; [vm_compute; reflexivity|].
  match goal with
  | |- Nx.wf ?G ∧ _ => assert (Nx.wf G) as Hwf by (split; compute_done)
  end.
  split; [exact Hwf|].
  apply (proj1 (proj2 (proj2 (proj2 (proj2
           (community_coverage _ Hwf)))))).
  - compute_done.
  - intros e He. apply (bool_decide_unpack _).
    revert e He. apply Forall_forall. compute_done.
Defined.

(** C7, as the specification has it, fails: both reviews hold the id
    [app_crash], the first in [a.txt], and the graph the build leaves
    has [b.txt] as its source file. *)
Lemma first_writer_does_not_win :
  writers Examples.sv (review_files Examples.reviews_dir) "app_crash"
  = ["a.txt"; "b.txt"] ∧
  (graph_pkl Examples.built_index ≫= λ G, source_file_of G "app_crash")
  = Some "b.txt".
Proof. split; vm_compute; reflexivity. Qed.

(** C7 (amended). In the graph a successful build leaves, the source
    file of an id is the file of the last review whose extraction holds
    that id: every add overwrites it. *)
Theorem source_file_last_writer (sv : services)
    (reviews_dir : Py.dict string) (index_path index_path' : index_dir)
    (id : string) :
  build_knowledge_graph sv reviews_dir index_path = (Ok true, index_path') →
  ∃ G, graph_pkl index_path' = Some G ∧
       source_file_of G id
       = last (writers sv (review_files reviews_dir) id).
Proof.
  intros Hb.
  destruct (build_true _ _ _ _ Hb)
    as (G0 & summaries & ix & ids & HG & _ & _ & _ & ->).
  exists (detect_and_store_communities G0).1. split; [done|].
  pose proof (initial_graph_wf sv reviews_dir G0 HG) as [Hnd _].
  rewrite source_file_detect by done.
  unfold initial_graph in HG. fold (review_files reviews_dir) in HG.
  rewrite (source_file_add_reviews _ _ _ _ id HG).
  by destruct (last (writers sv (review_files reviews_dir) id)).
Qed.

Lemma source_file_last_writer_witness :
  build_knowledge_graph Examples.sv Examples.reviews_dir no_index
  = (Ok true, Examples.built_index) ∧
  ∃ G, graph_pkl Examples.built_index = Some G ∧
       source_file_of G "app_crash"
       = last (writers Examples.sv (review_files Examples.reviews_dir)
                       "app_crash").
Proof.
  assert (build_knowledge_graph Examples.sv Examples.reviews_dir no_index
          = (Ok true, Examples.built_index)) as Hb
    by (vm_compute; reflexivity).
  split; [exact Hb|].
  exact (source_file_last_writer Examples.sv Examples.reviews_dir no_index
           Examples.built_index "app_crash" Hb).
Defined.

(** C8, as the specification has it, fails: the index step is not the
    only step that ends the build. The answer for the second review
    holds an entity without the key [value]; reading it in step 1 raises
    [KeyError], which nothing catches, and the build ends with that
    exception before any index is made. *)
Lemma missing_key_ends_the_build :
  extract_entities_from_review Examples.sv_incomplete Examples.second_review
  = Some Examples.incomplete_answer ∧
  initial_graph Examples.sv_incomplete Examples.reviews_dir
  = Raised (Py.KeyError "value") ∧
  build_knowledge_graph Examples.sv_incomplete Examples.reviews_dir no_index
  = (Raised (Py.KeyError "value"), no_index).
Proof. repeat split; vm_compute; reflexivity. Qed.

(** C8 (amended). Index construction gives its signal, and no index,
    when no node has a value, when an embedding call fails and when the
    rows returned do not make a matrix; an index that it returns has a
    row for each of its ids and is not empty. On answers whose two
    lists hold objects with texts for values, the build ends in one of
    four ways, and leaves the index directory as it was in the first
    three: with the uncaught [KeyError] of a key that an object of an
    extraction answer lacks; with [False] when the graph of step 1 has
    no node, before any other step; with [False] when index construction
    gives its signal for the graph with its communities; and otherwise
    with [True] and the four artifacts written. When every object of
    every answer holds its keys step 1 raises nothing. A failed
    extraction or summary call never makes the build fail. *)
Theorem build_fails_in_three_ways (sv : services)
    (reviews_dir : Py.dict string) (index_path : index_dir) :
  (∀ G, (∀ nd, nd ∈ Nx.nodes G → Nx.value nd.2 = None) →
        create_entity_embeddings_index sv G = None) ∧
  (∀ G id d v e,
     (id, d) ∈ Nx.nodes G → Nx.value d = Some v →
     embed_content sv RETRIEVAL_DOCUMENT v = Raised e →
     create_entity_embeddings_index sv G = None) ∧
  (∀ G rows,
     Py.comprehension (embed_content sv RETRIEVAL_DOCUMENT)
                      (valued (Nx.nodes G)).*2 = Ok rows →
     ¬ (∃ w, Forall (λ r, length r = w) rows) →
     create_entity_embeddings_index sv G = None) ∧
  (∀ G ix ids,
     create_entity_embeddings_index sv G = Some (ix, ids) →
     ids ≠ [] ∧ Faiss.ntotal ix = length ids) ∧
  match initial_graph sv reviews_dir with
  | Raised e =>
      (∃ k, e = Py.KeyError k ∧
            k ∈ ["id"; "type"; "value"; "source"; "target"]) ∧
      build_knowledge_graph sv reviews_dir index_path
      = (Raised e, index_path)
  | Ok G =>
      if bool_decide (Nx.number_of_nodes G = 0) then
        build_knowledge_graph sv reviews_dir index_path
        = (Ok false, index_path)
      else
        let detected := detect_and_store_communities G in
        match create_entity_embeddings_index sv detected.1 with
        | None =>
            build_knowledge_graph sv reviews_dir index_path
            = (Ok false, index_path)
        | Some (ix, ids) =>
            ∃ summaries,
              generate_community_summaries sv detected.1 detected.2
              = Ok summaries ∧
              build_knowledge_graph sv reviews_dir index_path
              = (Ok true,
                 IndexDir (Some detected.1)
                          (Some (json_dump_summaries summaries))
                          (Some ix) (Some ids))
        end
  end ∧
  ((∀ json_text p, json_loads sv json_text = Ok p → ∃ ex, p = json_of ex) →
   ∃ G, initial_graph sv reviews_dir = Ok G).
Proof.
  split; [|split; [|split; [|split; [|split]]]].
  - intros G. apply nothing_to_index.
  - intros G id d v e. apply embedding_failure.
  - intros G rows. apply ragged_embeddings.
  - intros G ix ids. apply index_not_empty.
  - pose proof (build_cases sv reviews_dir index_path) as Hc.
    destruct (initial_graph sv reviews_dir) as [G|e] eqn:HG; [exact Hc|].
    split; [by eapply initial_graph_Raised | exact Hc].
  - apply initial_graph_complete.
Qed.

Lemma build_fails_in_three_ways_witness :
  build_knowledge_graph Examples.sv_embedding_down Examples.reviews_dir
                        no_index
  = (Ok false, no_index) ∧
  ∃ k, build_knowledge_graph Examples.sv_incomplete Examples.reviews_dir
                             no_index
       = (Raised (Py.KeyError k), no_index).
Proof.
  split.
  - exact (proj1 (proj2 (proj2 (proj2 (proj2
             (build_fails_in_three_ways Examples.sv_embedding_down
                Examples.reviews_dir no_index)))))).
  - destruct (proj1 (proj2 (proj2 (proj2 (proj2
                (build_fails_in_three_ways Examples.sv_incomplete
                   Examples.reviews_dir no_index))))))
      as [(k & Hk & _) Hb].
    exists k. rewrite <- Hk. exact Hb.
Defined.

End CommunityProperties.

Section QueryProperties.

Import QueryEngine.

(** C6. Over the entry points of one query the loop appends one summary
    fragment for each distinct community id among them, and one excerpt
    for each distinct source file among them that can be read, however
    many entry points share the id or the file; and one local fragment
    for each entry point. *)
Theorem dedup_within_query (G : Nx.graph)
    (summaries reviews_dir : Py.dict string)
    (entry_point_node_ids : list string) :
  Nx.wf G →
  (∀ n, n ∈ entry_point_node_ids → n ∈ Py.keys (Nx.nodes G)) →
  ∃ st community_ids source_files,
    augment G summaries reviews_dir entry_point_node_ids = Ok st ∧
    NoDup community_ids ∧
    (∀ c, c ∈ community_ids ↔
          ∃ n, n ∈ entry_point_node_ids ∧ community_of G n = Some c) ∧
    global_community (ctx st) = summary_fragment summaries <$> community_ids ∧
    NoDup source_files ∧
    (∀ f, f ∈ source_files ↔
          ∃ n, n ∈ entry_point_node_ids ∧
               readable_file_of G reviews_dir n = Some f) ∧
    source_text (ctx st) = excerpt_of reviews_dir <$> source_files ∧
    length (local_graph (ctx st)) = length entry_point_node_ids.
Proof.
  intros Hwf Hin.
  destruct (for_each_visit G summaries reviews_dir entry_point_node_ids
              scan0 Hwf Hin) as (st & Hst & Hl & Hg & Hs).
  unfold scan0 in Hl, Hg, Hs.
  cbn [seen_communities seen_source_files ctx global_community source_text
       local_graph length app] in Hl, Hg, Hs.
  exists st, (Py.distinct (omap (community_of G) entry_point_node_ids)),
    (Py.distinct (omap (readable_file_of G reviews_dir)
                       entry_point_node_ids)).
  split; [exact Hst|].
  split; [apply NoDup_distinct|].
  split; [intros c; rewrite elem_of_distinct; apply list_elem_of_omap|].
  split; [by rewrite Hg, unseen_empty|].
  split; [apply NoDup_distinct|].
  split; [intros f; rewrite elem_of_distinct; apply list_elem_of_omap|].
  split; [by rewrite Hs, unseen_empty | exact Hl].
Qed.

Lemma dedup_within_query_witness :
  Nx.wf Examples.one_edge ∧
  (∀ n, n ∈ ["dark_mode"; "ui"; "login"; "ui"] →
        n ∈ Py.keys (Nx.nodes Examples.one_edge)) ∧
  ∃ st community_ids source_files,
    augment Examples.one_edge [] Examples.reviews_dir
            ["dark_mode"; "ui"; "login"; "ui"] = Ok st ∧
    NoDup community_ids ∧
    (∀ c, c ∈ community_ids ↔
          ∃ n, n ∈ ["dark_mode"; "ui"; "login"; "ui"] ∧
               community_of Examples.one_edge n = Some c) ∧
    global_community (ctx st) = summary_fragment [] <$> community_ids ∧
    NoDup source_files ∧
    (∀ f, f ∈ source_files ↔
          ∃ n, n ∈ ["dark_mode"; "ui"; "login"; "ui"] ∧
               readable_file_of Examples.one_edge Examples.reviews_dir n
               = Some f) ∧
    source_text (ctx st) = excerpt_of Examples.reviews_dir <$> source_files ∧
    length (local_graph (ctx st)) = 4.
Proof.
  assert (Nx.wf Examples.one_edge) as Hwf by (split; compute_done).
  assert (∀ n, n ∈ ["dark_mode"; "ui"; "login"; "ui"] →
               n ∈ Py.keys (Nx.nodes Examples.one_edge)) as Hin.
  { intros n Hn. apply (bool_decide_unpack _).
    revert n Hn. apply Forall_forall. compute_done. }
  split; [exact Hwf|]. split; [exact Hin|].
  exact (dedup_within_query Examples.one_edge [] Examples.reviews_dir
           ["dark_mode"; "ui"; "login"; "ui"] Hwf Hin).
Defined.

(** C9, as the specification has it, fails: with the embedding of the
    query failing on a quota error, the answer is the message for a
    search that found nothing, which says nothing of the error. *)
Lemma embedding_failure_not_error_described :
  embed_content Examples.sv_query_embedding_down RETRIEVAL_QUERY
                Examples.query
  = Raised (Py.BackendError "429 quota exceeded") ∧
  answer_query_with_graph Examples.sv_query_embedding_down Examples.query
                          Examples.built_index Examples.reviews_dir
  = (Ok nothing_relevant, [EmbedContent RETRIEVAL_QUERY Examples.query]) ∧
  Py.occurs "429 quota exceeded" nothing_relevant = false ∧
  Py.occurs "error" nothing_relevant = false.
Proof. repeat split; vm_compute; reflexivity. Qed.

(** C9 (amended). When embedding the query fails and the index files
    are there, the answer path raises nothing, asks the generation model
    nothing, and returns the fixed message that no relevant information
    was found. *)
Theorem embedding_failure_answer (sv : services) (query : string)
    (index_path : index_dir) (reviews_dir : Py.dict string)
    (loaded : Nx.graph * Py.dict string * Faiss.index * list string)
    (e : Py.exn) :
  load index_path = Ok loaded →
  embed_content sv RETRIEVAL_QUERY query = Raised e →
  answer_query_with_graph sv query index_path reviews_dir
  = (Ok nothing_relevant, [EmbedContent RETRIEVAL_QUERY query]).
Proof.
  intros Hl He. unfold answer_query_with_graph. rewrite Hl.
  destruct loaded as [[[G summaries] ix] ids].
  assert (retrieve_and_build_context sv query G ix ids summaries
            reviews_dir 5
          = (Ok "", [EmbedContent RETRIEVAL_QUERY query])) as ->
    by (by eapply retrieve_embed_failure).
  by rewrite bool_decide_eq_true_2.
Qed.

Lemma embedding_failure_answer_witness :
  (∃ loaded, load Examples.built_index = Ok loaded) ∧
  embed_content Examples.sv_query_embedding_down RETRIEVAL_QUERY
                Examples.query
  = Raised (Py.BackendError "429 quota exceeded") ∧
  answer_query_with_graph Examples.sv_query_embedding_down Examples.query
                          Examples.built_index Examples.reviews_dir
  = (Ok nothing_relevant, [EmbedContent RETRIEVAL_QUERY Examples.query]).
Proof.
  destruct (load Examples.built_index) as [loaded|] eqn:Hl;
    [|vm_compute in Hl; discriminate Hl].
  split; [by exists loaded|]. split; [reflexivity|].
  exact (embedding_failure_answer Examples.sv_query_embedding_down
           Examples.query Examples.built_index Examples.reviews_dir loaded
           (Py.BackendError "429 quota exceeded") Hl eq_refl).
Defined.

(** C10, as the specification has it, fails at an index without
    rows, which is an index with fewer rows than places asked for: the
    five places hold [-1], the id array is empty, [faiss_node_ids[-1]]
    raises [IndexError] and the query ends with it. No build writes
    such an index. *)
Lemma padding_without_ids_raises :
  Faiss.ntotal (Faiss.IndexFlatL2 2 []) < 5 ∧
  Faiss.search (fvec_L2sqr Examples.sv) (Faiss.IndexFlatL2 2 [])
               [23; 1]%Z 5
  = Ok [-1; -1; -1; -1; -1]%Z ∧
  entry_points [] [-1; -1; -1; -1; -1]%Z = Raised Py.IndexError ∧
  answer_query_with_graph Examples.sv Examples.query Examples.empty_index
                          Examples.reviews_dir
  = (Raised Py.IndexError, [EmbedContent RETRIEVAL_QUERY Examples.query]).
Proof.
  split; [vm_compute; lia|]. repeat split; vm_compute; reflexivity.
Qed.

(** C10 (amended). With an id array that is not empty and as long as
    the index, as every build writes it, and fewer rows in the index
    than places asked for, the search returns the positions of the rows
    it found, each a row of the index and none twice, followed by [-1]
    in every place left, of which there is one at least for each row
    the index is short of; the rows found are all the rows when every
    distance is a finite number. The comprehension turns each position
    found into its id and each [-1] into the last id of the id array:
    the entry points are the entities found, followed by the last entity
    once for each place left. Nothing is skipped and nothing raises. *)
Theorem padding_selects_last_entity
    (distance : Faiss.vec → Faiss.vec → option Z) (ix : Faiss.index)
    (q : Faiss.vec) (top_k : nat) (ids : list string) :
  length q = Faiss.d ix →
  Faiss.ntotal ix < top_k →
  Faiss.ntotal ix = length ids →
  ids ≠ [] →
  ∃ found entry final,
    last ids = Some final ∧
    Faiss.search distance ix q top_k
    = Ok ((Z.of_nat <$> found) ++ replicate (top_k - length found) (-1)%Z) ∧
    NoDup found ∧ (∀ i, i ∈ found → i < Faiss.ntotal ix) ∧
    length found ≤ Faiss.ntotal ix ∧
    0 < top_k - Faiss.ntotal ix ∧
    top_k - Faiss.ntotal ix ≤ top_k - length found ∧
    ((∀ v, v ∈ Faiss.xb ix → is_Some (distance q v)) →
     found ≡ₚ seq 0 (Faiss.ntotal ix)) ∧
    Forall2 (λ i id, ids !! i = Some id) found entry ∧
    Py.index ids (-1) = Ok final ∧
    entry_points ids
      ((Z.of_nat <$> found) ++ replicate (top_k - length found) (-1)%Z)
    = Ok (entry ++ replicate (top_k - length found) final).
Proof.
  intros Hq Hk Hlen Hids.
  destruct (search_found distance ix q top_k Hq) as
    (found & Hs & Hfk & Hfn & Hnd & Hin); [lia|].
  destruct (last ids) as [final|] eqn:Hlast;
    [|by apply last_None in Hlast].
  assert (∃ entry, entry_points ids (Z.of_nat <$> found) = Ok entry ∧
                   Forall2 (λ i id, ids !! i = Some id) found entry)
    as (entry & He & Hf2).
  { clear Hs Hfk Hfn Hnd. induction found as [|i found IH].
    - exists []. split; [done | constructor].
    - destruct IH as (entry & He & Hf2);
        [intros j Hj; apply Hin; by right|].
      destruct (lookup_lt_is_Some_2 ids i) as [id Hid];
        [rewrite <- Hlen; apply Hin; left|].
      exists (id :: entry). split; [|by constructor].
      unfold entry_points in *. rewrite fmap_cons. cbn [Py.comprehension].
      rewrite (index_front _ _ _ Hid), He. done. }
  exists found, entry, final. do 5 (split; [done|]).
  split; [lia|]. split; [lia|]. split.
  { intros Hall.
    apply (search_all_found distance ix q top_k found Hall); [lia | done]. }
  split; [done|]. split; [by apply index_minus_one|].
  unfold entry_points in *. apply comprehension_app; [done|].
  apply comprehension_replicate. by apply index_minus_one.
Qed.

Lemma padding_selects_last_entity_witness :
  ∃ found entry,
    Faiss.search Examples.sample_L2sqr
                 (Faiss.IndexFlatL2 2 [[28; 1]; [8; 1]; [9; 1]]%Z)
                 [23; 1]%Z 5
    = Ok ((Z.of_nat <$> found) ++ replicate (5 - length found) (-1)%Z) ∧
    0 < 5 - length found ∧
    entry_points ["app_crash"; "playlist"; "dark_mode"]
      ((Z.of_nat <$> found) ++ replicate (5 - length found) (-1)%Z)
    = Ok (entry ++ replicate (5 - length found) "dark_mode").
Proof.
  destruct (padding_selects_last_entity Examples.sample_L2sqr
              (Faiss.IndexFlatL2 2 [[28; 1]; [8; 1]; [9; 1]]%Z)
              [23; 1]%Z 5 ["app_crash"; "playlist"; "dark_mode"]
              eq_refl ltac:(vm_compute; lia) eq_refl ltac:(discriminate))
    as (found & entry & final & Hlast & Hs & _ & _ & _ & _ & Hpad' & _
        & _ & _ & He).
  injection Hlast as <-.
  exists found, entry. split; [exact Hs|]. split; [|exact He].
  change (Faiss.ntotal (Faiss.IndexFlatL2 2 [[28; 1]; [8; 1]; [9; 1]]%Z))
    with 3 in Hpad'.
  lia.
Defined.

End QueryProperties.

(* ===================================================================== *)
(** ** Further facts: text *)
(* ===================================================================== *)

Section RevFacts.

Implicit Types (s t : string) (c a : Ascii.ascii).

Lemma rev_app_spec s t : String.rev_app s t = String.rev s +:+ t.
Proof.
  revert t. induction s as [|a s IH]; intros t; [done|].
  unfold String.rev. simpl. rewrite (IH (String a "")), (IH (String a t)).
  by rewrite string_app_assoc.
Qed.

Lemma rev_cons a s : String.rev (String a s) = String.rev s +:+ String a "".
Proof. unfold String.rev at 1. simpl. apply rev_app_spec. Qed.

Lemma rev_app_distr s t : String.rev (s +:+ t) = String.rev t +:+ String.rev s.
Proof.
  induction s as [|a s IH].
  - by rewrite string_app_nil_r.
  - rewrite string_app_cons, !rev_cons, IH. by rewrite string_app_assoc.
Qed.

Lemma rev_involutive s : String.rev (String.rev s) = s.
Proof.
  induction s as [|a s IH]; [done|].
  by rewrite rev_cons, rev_app_distr, IH.
Qed.

Lemma lacks_nil c : Text.lacks c "".
Proof. done. Qed.

Lemma lacks_cons c a s : Text.lacks c (String a s) ↔ c ≠ a ∧ Text.lacks c s.
Proof.
  unfold Text.lacks. rewrite occurs_unfold. simpl.
  assert (Py.startswith s "" = true) as -> by (by destruct s).
  rewrite andb_true_r, orb_false_iff, bool_decide_eq_false. done.
Qed.

Lemma lacks_app c s t : Text.lacks c (s +:+ t) ↔ Text.lacks c s ∧ Text.lacks c t.
Proof.
  induction s as [|a s IH].
  - split; [intros H; split; [apply lacks_nil | done] | by intros [_ H]].
  - rewrite string_app_cons, !lacks_cons, IH. tauto.
Qed.

Lemma lacks_rev c s : Text.lacks c (String.rev s) ↔ Text.lacks c s.
Proof.
  induction s as [|a s IH]; [done|].
  rewrite rev_cons, lacks_app, !lacks_cons, IH.
  split; [intros (? & ? & _) | intros [? ?]]; repeat split; auto.
Qed.

Lemma from_first_None c s : Py.from_first c s = None ↔ Text.lacks c s.
Proof.
  induction s as [|a s IH]; simpl; [done|].
  rewrite lacks_cons. case_decide; [naive_solver | rewrite IH; tauto].
Qed.

Lemma from_first_Some c s rest :
  Py.from_first c s = Some rest ↔
  ∃ pre t, s = pre +:+ rest ∧ rest = String c t ∧ Text.lacks c pre.
Proof.
  revert rest. induction s as [|a s IH]; intros rest; simpl.
  - split; [done|]. intros (pre & t & Hs & -> & _). by destruct pre.
  - case_decide as Hc.
    + subst a. split.
      * intros [= <-]. exists "", s. split; [done|]. split; [done|].
        apply lacks_nil.
      * intros (pre & t & Hs & -> & Hpre). destruct pre as [|b pre].
        { by rewrite Hs. }
        rewrite string_app_cons in Hs. injection Hs as <- _.
        apply lacks_cons in Hpre. by destruct Hpre.
    + rewrite IH. split.
      * intros (pre & t & -> & -> & Hpre). exists (String a pre), t.
        split; [done|]. split; [done|]. by apply lacks_cons.
      * intros (pre & t & Hs & -> & Hpre). destruct pre as [|b pre].
        { injection Hs as -> _. done. }
        rewrite string_app_cons in Hs. injection Hs as <- ->.
        apply lacks_cons in Hpre as [_ Hpre]. eauto.
Qed.

Lemma upto_last_Some c s b :
  Py.upto_last c s = Some b ↔
  ∃ t post, s = b +:+ post ∧ b = t +:+ String c "" ∧ Text.lacks c post.
Proof.
  unfold Py.upto_last. split.
  - destruct (Py.from_first c (String.rev s)) as [r|] eqn:E; [|done].
    intros [= <-]. apply from_first_Some in E as (pre & t & Hs & -> & Hpre).
    exists (String.rev t), (String.rev pre).
    split; [|split].
    + rewrite <- rev_app_distr, <- Hs. by rewrite rev_involutive.
    + by rewrite rev_cons.
    + by apply lacks_rev.
  - intros (t & post & -> & -> & Hpost).
    assert (Py.from_first c (String.rev ((t +:+ String c "") +:+ post))
            = Some (String c (String.rev t))) as ->.
    { apply from_first_Some. exists (String.rev post), (String.rev t).
      split; [|split; [done | by apply lacks_rev]].
      by rewrite !rev_app_distr. }
    simpl. f_equal. by rewrite rev_cons, rev_involutive.
Qed.

Lemma upto_last_None c s : Py.upto_last c s = None ↔ Text.lacks c s.
Proof.
  unfold Py.upto_last.
  destruct (Py.from_first c (String.rev s)) eqn:E; simpl.
  - split; [done|]. intros H%lacks_rev%from_first_None. congruence.
  - split; [intros _|done]. by apply lacks_rev, from_first_None.
Qed.

End RevFacts.

Section BlockProperties.

(** X1. The JSON block of an answer, as the regular expression of
    [extract_entities_from_review] takes it: the text from the first
    opening brace to the last closing brace after it. A block is found
    exactly when the answer splits that way, and no closing brace after
    the first opening brace means no block. *)
Theorem json_block_is_first_to_last (response_text block : string) :
  Py.search_block Py.lbrace Py.rbrace response_text = Some block ↔
  ∃ before inner after,
    response_text = before +:+ block +:+ after ∧
    block = String Py.lbrace (inner +:+ String Py.rbrace "") ∧
    Text.lacks Py.lbrace before ∧ Text.lacks Py.rbrace after.
Proof.
  unfold Py.search_block. split.
  - destruct (Py.from_first Py.lbrace response_text) as [rest|] eqn:E;
      [|done]. simpl.
    apply from_first_Some in E as (pre & t & -> & -> & Hpre).
    intros (m & post & Hs & -> & Hpost)%upto_last_Some.
    exists pre, (match m with String _ m' => m' | "" => "" end), post.
    destruct m as [|a m].
    + change (String Py.lbrace t = String Py.rbrace post) in Hs.
      injection Hs as Hc _. vm_compute in Hc. discriminate Hc.
    + rewrite !string_app_cons in Hs. injection Hs as <- ->.
      rewrite !string_app_cons. done.
  - intros (before & inner & after & -> & -> & Hb & Ha).
    assert (Py.from_first Py.lbrace
              (before +:+ String Py.lbrace (inner +:+ String Py.rbrace "")
                      +:+ after)
            = Some (String Py.lbrace (inner +:+ String Py.rbrace "")
                    +:+ after)) as ->.
    { apply from_first_Some.
      exists before, ((inner +:+ String Py.rbrace "") +:+ after). done. }
    simpl. apply upto_last_Some.
    exists (String Py.lbrace inner), after. done.
Qed.

End BlockProperties.

(* ===================================================================== *)
(** ** Further facts: the graph the build makes *)
(* ===================================================================== *)

Section CorpusFacts.

Import GraphBuilder.
Implicit Types (G : Nx.graph) (sv : services).

Lemma fold_add_review sv (files : Py.dict string) G G' :
  Py.for_each (add_review sv) files G = Ok G' →
  G' = fold_left (λ G' fe, add_extraction fe.1 G' fe.2)
         (omap (λ file,
                  (λ extracted_data, (file.1, as_read extracted_data))
                    <$> extract_entities_from_review sv file.2)
               files) G.
Proof.
  revert G. induction files as [|file files IH]; intros G.
  - by intros [= <-].
  - cbn [Py.for_each]. rewrite omap_cons_option_list.
    destruct (add_review sv G file) as [G1|] eqn:H1; [|done].
    cbn [mbind Py.outcome_bind]. intros ->%IH.
    unfold add_review in H1.
    destruct (extract_entities_from_review sv file.2) as [p|].
    + apply add_parsed_as_read in H1 as ->. done.
    + by injection H1 as <-.
Qed.

(** *** The order of the nodes *)

Lemma distinct_snoc `{EqDecision A} (l : list A) (x : A) :
  Py.distinct (l ++ [x]) =
  if decide (x ∈ l) then Py.distinct l else Py.distinct l ++ [x].
Proof.
  induction l as [|y l IH].
  { destruct (decide (x ∈ [])) as [H|]; [by apply elem_of_nil in H | done]. }
  cbn [app Py.distinct]. rewrite IH.
  destruct (decide (x ∈ y :: l)) as [Hin|Hin];
    destruct (decide (x ∈ l)) as [Hin'|Hin']; try done.
  - apply elem_of_cons in Hin as [->|?]; [|done].
    rewrite filter_app, filter_cons_False by naive_solver.
    by rewrite filter_nil, app_nil_r.
  - exfalso. apply Hin. by right.
  - apply not_elem_of_cons in Hin as [Hxy _].
    rewrite filter_app, filter_cons_True by done.
    by rewrite filter_nil.
Qed.

Lemma filter_all {A} (P : A → Prop) `{∀ x, Decision (P x)} (l : list A) :
  (∀ x, x ∈ l → P x) → filter P l = l.
Proof.
  induction l as [|x l IH]; intros Hl; [done|].
  rewrite filter_cons_True by (apply Hl; left).
  f_equal. apply IH. intros y Hy. apply Hl. by right.
Qed.

Lemma distinct_NoDup `{EqDecision A} (l : list A) :
  NoDup l → Py.distinct l = l.
Proof.
  induction 1 as [|x l Hx Hnd IH]; simpl; [done|].
  rewrite IH. f_equal. apply filter_all. by intros y Hy ->.
Qed.

Lemma distinct_app_distinct `{EqDecision A} (l k : list A) :
  Py.distinct (Py.distinct l ++ k) = Py.distinct (l ++ k).
Proof.
  revert l. induction k as [|x k IH] using rev_ind; intros l.
  - rewrite !app_nil_r. apply distinct_NoDup, NoDup_distinct.
  - rewrite !app_assoc, !distinct_snoc, IH.
    destruct (decide (x ∈ l ++ k)) as [Hin|Hin].
    + rewrite decide_True; [done|].
      rewrite elem_of_app, elem_of_distinct, <- elem_of_app. done.
    + rewrite decide_False; [done|].
      rewrite elem_of_app, elem_of_distinct, <- elem_of_app. done.
Qed.

Lemma keys_add_node G n a :
  Py.keys (Nx.nodes (Nx.add_node G n a))
  = if decide (n ∈ Py.keys (Nx.nodes G)) then Py.keys (Nx.nodes G)
    else Py.keys (Nx.nodes G) ++ [n].
Proof.
  case_decide.
  - by apply keys_upsert_old.
  - by apply keys_upsert_new.
Qed.

Lemma keys_add_entities f G (es : list entity) :
  NoDup (Py.keys (Nx.nodes G)) →
  Py.keys (Nx.nodes (fold_left (add_entity f) es G))
  = Py.distinct (Py.keys (Nx.nodes G) ++ (entity_id <$> es)).
Proof.
  intros Hnd. induction es as [|e es IH] using rev_ind.
  - simpl. rewrite app_nil_r. by rewrite distinct_NoDup.
  - rewrite fold_left_app, fmap_app, app_assoc. cbn [fold_left].
    change (entity_id <$> [e]) with [entity_id e].
    unfold add_entity at 1. rewrite keys_add_node, IH, distinct_snoc.
    destruct (decide (entity_id e ∈ Py.keys (Nx.nodes G) ++ (entity_id <$> es)))
      as [Hin|Hin].
    + rewrite decide_True; [done|]. by rewrite elem_of_distinct.
    + rewrite decide_False; [done|]. by rewrite elem_of_distinct.
Qed.

Lemma keys_add_extraction f G (ex : extraction) :
  NoDup (Py.keys (Nx.nodes G)) →
  Py.keys (Nx.nodes (add_extraction f G ex))
  = Py.distinct (Py.keys (Nx.nodes G) ++ (entity_id <$> entities ex)).
Proof.
  intros Hnd. unfold add_extraction.
  rewrite nodes_add_relationships. by apply keys_add_entities.
Qed.

Lemma keys_add_extractions (fes : list (string * extraction)) G :
  Nx.wf G →
  Py.keys (Nx.nodes (fold_left (λ G' fe, add_extraction fe.1 G' fe.2) fes G))
  = Py.distinct (Py.keys (Nx.nodes G)
                 ++ (fes ≫= λ fe, entity_id <$> entities fe.2)).
Proof.
  revert G. induction fes as [|[f ex] fes IH]; intros G Hwf.
  - simpl. rewrite app_nil_r. apply eq_sym, distinct_NoDup, Hwf.
  - cbn [fold_left]. rewrite IH by (by apply add_extraction_wf). simpl.
    rewrite keys_add_extraction by apply Hwf.
    by rewrite distinct_app_distinct, <- app_assoc.
Qed.

End CorpusFacts.

Section ProvenanceFacts.

Import GraphBuilder Corpus.
Implicit Types (G : Nx.graph) (sv : services).

Lemma initial_graph_successes sv (reviews_dir : Py.dict string) G :
  initial_graph sv reviews_dir = Ok G →
  G = fold_left (λ G fe, add_extraction fe.1 G fe.2)
                (Corpus.successes sv reviews_dir) Nx.empty.
Proof. apply fold_add_review. Qed.

(** An invariant of a loop, with the element of each round known to be
    one of the list. *)
Lemma fold_left_invariant {S B} (P : S → Prop) (step : S → B → S) l x :
  (∀ y b, b ∈ l → P y → P (step y b)) → P x → P (fold_left step l x).
Proof.
  revert x. induction l as [|b l IH]; intros x Hstep Hx; [done|].
  simpl. apply IH.
  - intros y b' Hb'. apply Hstep. by right.
  - apply Hstep; [left | done].
Qed.

Lemma add_entity_from_entities fes fe G (e : entity) :
  fe ∈ fes → e ∈ entities fe.2 →
  from_entities fes G → from_entities fes (add_entity fe.1 G e).
Proof.
  intros Hfe He HG n d. unfold add_entity.
  destruct (decide (entity_id e = n)) as [<-|Hne].
  - rewrite get_add_node_eq. intros [= <-]. exists fe, e.
    split; [done|]. split; [done|]. split; [done|].
    destruct (Py.get (Nx.nodes G) (entity_id e)) as [d|] eqn:E; [|done].
    by destruct (HG _ _ E) as (fe' & e' & _ & _ & _ & ->).
  - rewrite get_add_node_ne by done. apply HG.
Qed.

Lemma from_entities_nodes fes G G' :
  Nx.nodes G' = Nx.nodes G → from_entities fes G → from_entities fes G'.
Proof. intros Hn HG n d. rewrite Hn. apply HG. Qed.

Lemma add_extraction_from_entities fes fe G :
  fe ∈ fes → from_entities fes G →
  from_entities fes (add_extraction fe.1 G fe.2).
Proof.
  intros Hfe HG. unfold add_extraction.
  eapply from_entities_nodes; [apply nodes_add_relationships|].
  apply (fold_left_invariant (from_entities fes)); [|done].
  intros G' e He HG'. by apply add_entity_from_entities.
Qed.

Lemma extractions_from_entities (fes : list (string * extraction)) :
  from_entities fes
    (fold_left (λ G fe, add_extraction fe.1 G fe.2) fes Nx.empty).
Proof.
  apply (fold_left_invariant (from_entities fes)).
  - intros G fe Hfe HG. by apply add_extraction_from_entities.
  - by intros n d.
Qed.

Lemma edges_add_entities f G (es : list entity) :
  Nx.edges (fold_left (add_entity f) es G) = Nx.edges G.
Proof.
  revert G. induction es as [|e es IH]; intros G; [done|].
  simpl. by rewrite IH.
Qed.

Lemma add_extraction_from_relationships fes fe G :
  fe ∈ fes → from_relationships fes G →
  from_relationships fes (add_extraction fe.1 G fe.2).
Proof.
  intros Hfe HG edge. unfold add_extraction.
  rewrite edges_add_relationships, edges_add_entities, elem_of_app.
  intros [Hold|Hnew]; [by apply HG|].
  apply list_elem_of_fmap in Hnew as (rel & -> & Hrel).
  apply list_elem_of_filter in Hrel as [_ Hrel]. by exists fe, rel.
Qed.

Lemma extractions_from_relationships (fes : list (string * extraction)) :
  from_relationships fes
    (fold_left (λ G fe, add_extraction fe.1 G fe.2) fes Nx.empty).
Proof.
  apply (fold_left_invariant (from_relationships fes)).
  - intros G fe Hfe HG. by apply add_extraction_from_relationships.
  - intros edge Hedge. by apply elem_of_nil in Hedge.
Qed.

End ProvenanceFacts.

Section TagFacts.

Import GraphBuilder.
Implicit Types (G : Nx.graph).

Lemma community_map_NoDup (communities : list (list string)) :
  NoDup (Py.keys (community_map communities)).
Proof.
  unfold community_map.
  apply (fold_left_preserves (λ m : Py.dict nat, NoDup (Py.keys m))).
  - intros m kv Hm. by apply NoDup_keys_upsert.
  - constructor.
Qed.

(** Tagging changes the community id of a node and nothing else. *)
Lemma get_tagging G (values : Py.dict nat) n :
  NoDup (Py.keys values) →
  match Py.get (Nx.nodes (Nx.set_node_attributes G values)) n with
  | Some d' =>
      ∃ d, Py.get (Nx.nodes G) n = Some d ∧
           Nx.type d' = Nx.type d ∧ Nx.value d' = Nx.value d ∧
           Nx.source_file d' = Nx.source_file d ∧
           Nx.community_id d' =
             from_option Some (Nx.community_id d) (Py.get values n)
  | None => Py.get (Nx.nodes G) n = None
  end.
Proof.
  intros Hnd. rewrite get_set_node_attributes by done.
  destruct (Py.get values n) as [c|], (Py.get (Nx.nodes G) n) as [d|];
    simpl; eauto 10.
Qed.

Lemma community_map_bound (communities : list (list string)) n c :
  Py.get (community_map communities) n = Some c → c < length communities.
Proof.
  unfold community_map.
  assert (∀ l (acc : Py.dict nat),
            (∀ kv, kv ∈ l → kv.2 < length communities) →
            (∀ k v, Py.get acc k = Some v → v < length communities) →
            ∀ k v, Py.get (fold_left (λ m kv, Py.upsert (λ _, kv.2) kv.1 m)
                                     l acc) k = Some v →
                   v < length communities) as Hfold.
  { induction l as [|kv l IH]; intros acc Hl Hacc; [done|].
    simpl. apply IH.
    - intros kv' Hkv'. apply Hl. by right.
    - intros k v. destruct (decide (kv.1 = k)) as [<-|Hne].
      + rewrite get_upsert_eq. intros [= <-]. apply Hl. left.
      + rewrite get_upsert_ne by done. apply Hacc. }
  apply Hfold; [|done].
  intros [m i] (members & Hi & _)%elem_of_memberships.
  by apply lookup_lt_Some in Hi.
Qed.

End TagFacts.

Section ValuedFacts.

Import GraphBuilder.

Lemma valued_all (nodes : Py.dict Nx.node_data) :
  (∀ nd, nd ∈ nodes → is_Some (Nx.value nd.2)) →
  (valued nodes).*1 = Py.keys nodes.
Proof.
  induction nodes as [|[n d] nodes IH]; intros Hv; [done|].
  destruct (Hv (n, d)) as [v Hval]; [left|]. simpl in Hval.
  unfold valued in *. rewrite omap_cons_option_list. cbn [fst snd].
  rewrite Hval. cbn. f_equal. apply IH. intros nd Hnd. apply Hv. by right.
Qed.

End ValuedFacts.

(* ===================================================================== *)
(** ** Further properties: the graph and the index of a build *)
(* ===================================================================== *)

Section GraphContentFacts.

Import GraphBuilder.

Lemma keys_initial_graph (sv : services) (reviews_dir : Py.dict string) G :
  initial_graph sv reviews_dir = Ok G →
  Py.keys (Nx.nodes G) = Py.distinct (Corpus.entity_ids sv reviews_dir).
Proof.
  intros ->%initial_graph_successes.
  by rewrite keys_add_extractions by apply empty_wf.
Qed.

Lemma for_each_all_Ok {S B} (body : S → B → outcome S) l x x' :
  Py.for_each body l x = Ok x' →
  Forall (λ b, ∃ y y', body y b = Ok y') l.
Proof.
  revert x. induction l as [|b l IH]; intros x; simpl; [constructor|].
  destruct (body x b) as [y|] eqn:Hy; [|done]. simpl.
  intros Hrest. constructor; [eauto | by eapply IH].
Qed.

Lemma read_Forall2 {A} (f : Py.dict string → outcome A)
    (os : list (Py.dict string)) :
  Forall (λ o, ∃ a, f o = Ok a) os →
  Forall2 (λ o a, f o = Ok a) os (omap (λ o, Py.returned (f o)) os).
Proof.
  induction 1 as [|o os [a Ha] _ IH]; [constructor|].
  rewrite omap_cons_option_list, Ha. simpl. by constructor.
Qed.

(** When step 1 goes through, every object of the [entities] list of
    every answer was read. *)
Lemma initial_graph_reads (sv : services) (reviews_dir : Py.dict string) G
    f text (extracted_data : parsed) :
  initial_graph sv reviews_dir = Ok G →
  (f, text) ∈ review_files reviews_dir →
  extract_entities_from_review sv text = Some extracted_data →
  Forall2 (λ o e, read_entity o = Ok e)
          (entity_objects extracted_data)
          (entities (as_read extracted_data)).
Proof.
  intros HG Hin Hex. unfold initial_graph in HG.
  apply for_each_all_Ok in HG.
  rewrite Forall_forall in HG.
  destruct (HG (f, text) Hin) as (G1 & G2 & Hr).
  unfold add_review in Hr. simpl in Hr. rewrite Hex in Hr.
  unfold add_parsed in Hr.
  destruct (Py.for_each _ (entity_objects extracted_data) G1) as [G3|] eqn:He;
    [|done].
  apply for_each_entities in He as [_ Hall].
  by apply read_Forall2.
Qed.

End GraphContentFacts.

Section GraphContentProperties.

Import GraphBuilder.

(** X2. When step 1 of the build goes through, the nodes of its graph are
    the ids of the entities of the extractions that succeeded, each
    once, in the order of their first appearance: files that do not end
    in [.txt] and reviews whose extraction failed add nothing, and an id
    met again adds no node. The entities of an extraction are the
    objects of its [entities] list, every one of them read. *)
Theorem graph_nodes_in_extraction_order (sv : services)
    (reviews_dir : Py.dict string) (G : Nx.graph) :
  initial_graph sv reviews_dir = Ok G →
  Py.keys (Nx.nodes G) = Py.distinct (Corpus.entity_ids sv reviews_dir) ∧
  Nx.number_of_nodes G
  = length (Py.distinct (Corpus.entity_ids sv reviews_dir)) ∧
  (∀ f ex, (f, ex) ∈ Corpus.successes sv reviews_dir ↔
           ∃ text extracted_data,
             (f, text) ∈ reviews_dir ∧ Py.endswith f ".txt" = true ∧
             extract_entities_from_review sv text = Some extracted_data ∧
             ex = as_read extracted_data) ∧
  ∀ f text extracted_data,
    (f, text) ∈ reviews_dir → Py.endswith f ".txt" = true →
    extract_entities_from_review sv text = Some extracted_data →
    Forall2 (λ o e, read_entity o = Ok e)
            (entity_objects extracted_data)
            (entities (as_read extracted_data)).
Proof.
  intros HG.
  pose proof (keys_initial_graph sv reviews_dir G HG) as Hkeys.
  split; [done|]. split; [|split].
  - unfold Nx.number_of_nodes. rewrite <- Hkeys. unfold Py.keys.
    by rewrite length_fmap.
  - intros f ex. unfold Corpus.successes, review_files.
    rewrite list_elem_of_omap. split.
    + intros ([f' text] & Hin & Hex).
      apply list_elem_of_filter in Hin as [Htxt Hin]. simpl in *.
      destruct (extract_entities_from_review sv text) as [p|] eqn:E;
        [|done].
      injection Hex as <- <-. exists text, p. split; [done|].
      split; [|done]. by apply Is_true_true.
    + intros (text & p & Hin & Htxt & Hex & ->). exists (f, text). split.
      * apply list_elem_of_filter. split; [|done]. simpl.
        by apply Is_true_true.
      * simpl. by rewrite Hex.
  - intros f text p Hin Htxt Hex.
    apply (initial_graph_reads sv reviews_dir G f text p HG); [|done].
    apply list_elem_of_filter. split; [|done]. simpl.
    by apply Is_true_true.
Qed.

Lemma graph_nodes_in_extraction_order_witness :
  ∃ G, initial_graph Examples.sv Examples.reviews_dir = Ok G ∧
       Py.keys (Nx.nodes G) = ["app_crash"; "playlist"; "dark_mode"].
Proof.
  destruct (initial_graph Examples.sv Examples.reviews_dir) as [G|] eqn:HG;
    [|vm_compute in HG; discriminate HG].
  exists G. split; [reflexivity|].
  rewrite (proj1 (graph_nodes_in_extraction_order Examples.sv
                    Examples.reviews_dir G HG)).
  vm_compute. reflexivity.
Defined.

(** X3. The graph that step 1 makes holds nothing but what was
    extracted. The attribute dict of a node is that of one extracted
    entity with this id (its type, its value and the name of its file
    together, and no community id yet); every edge is the edge of an
    extracted relationship, and both its ends are extracted entities:
    [add_edge] never creates a node. *)
Theorem graph_holds_only_extracted_data (sv : services)
    (reviews_dir : Py.dict string) (G : Nx.graph) :
  initial_graph sv reviews_dir = Ok G →
  (∀ n d, Nx.node G n = Ok d →
     ∃ fe e, fe ∈ Corpus.successes sv reviews_dir ∧ e ∈ entities fe.2 ∧
             entity_id e = n ∧ d = Corpus.attrs_of fe.1 e) ∧
  (∀ edge, edge ∈ Nx.edges G →
     (∃ fe rel, fe ∈ Corpus.successes sv reviews_dir ∧
                rel ∈ relationships fe.2 ∧ edge = edge_of rel) ∧
     Nx.src edge ∈ Corpus.entity_ids sv reviews_dir ∧
     Nx.dst edge ∈ Corpus.entity_ids sv reviews_dir).
Proof.
  intros HG. pose proof (initial_graph_successes sv reviews_dir G HG) as HS.
  split.
  - intros n d Hd%node_Ok. revert n d Hd. rewrite HS.
    apply extractions_from_entities.
  - intros edge Hedge. split.
    + revert edge Hedge. rewrite HS.
      apply extractions_from_relationships.
    + destruct (wf_edge G edge (initial_graph_wf sv reviews_dir G HG) Hedge)
        as [Hsrc Hdst].
      rewrite (keys_initial_graph sv reviews_dir G HG),
        !elem_of_distinct in *. done.
Qed.

Lemma graph_holds_only_extracted_data_witness :
  ∃ G, initial_graph Examples.sv Examples.reviews_dir = Ok G ∧
       ∀ edge, edge ∈ Nx.edges G →
         Nx.src edge ∈ Corpus.entity_ids Examples.sv Examples.reviews_dir ∧
         Nx.dst edge ∈ Corpus.entity_ids Examples.sv Examples.reviews_dir.
Proof.
  destruct (initial_graph Examples.sv Examples.reviews_dir) as [G|] eqn:HG;
    [|vm_compute in HG; discriminate HG].
  exists G. split; [reflexivity|]. intros edge Hedge.
  exact (proj2 (proj2 (graph_holds_only_extracted_data Examples.sv
                         Examples.reviews_dir G HG) edge Hedge)).
Defined.

End GraphContentProperties.

Section BuildOutcomeFacts.

Import GraphBuilder.

Lemma detect_node_back (G : Nx.graph) n d' :
  Py.get (Nx.nodes (detect_and_store_communities G).1) n = Some d' →
  ∃ d, Py.get (Nx.nodes G) n = Some d ∧
       Nx.type d' = Nx.type d ∧ Nx.value d' = Nx.value d ∧
       Nx.source_file d' = Nx.source_file d ∧
       Nx.community_id d' =
         from_option Some (Nx.community_id d)
           (Py.get (community_map (detect_and_store_communities G).2) n).
Proof.
  intros Hd'.
  pose proof (get_tagging G (community_map (detect_and_store_communities G).2)
                n (community_map_NoDup _)) as Ht.
  unfold detect_and_store_communities in *. simpl in *.
  by rewrite Hd' in Ht.
Qed.

End BuildOutcomeFacts.

Section BuildOutcomeProperties.

Import GraphBuilder.

(** X4. When step 1 goes through and no extraction that succeeded holds
    an entity (no review file, every model call or parse failing, or
    only extractions without entities), the graph has no node, the build
    returns [False] after step 1 and the index directory stays as it
    was. *)
Theorem no_entities_no_index (sv : services) (reviews_dir : Py.dict string)
    (index_path : index_dir) (G : Nx.graph) :
  initial_graph sv reviews_dir = Ok G →
  Corpus.entity_ids sv reviews_dir = [] →
  Nx.number_of_nodes G = 0 ∧
  build_knowledge_graph sv reviews_dir index_path = (Ok false, index_path).
Proof.
  intros HG He.
  assert (Nx.number_of_nodes G = 0) as Hn.
  { unfold Nx.number_of_nodes.
    pose proof (keys_initial_graph sv reviews_dir G HG) as Hk.
    rewrite He in Hk. unfold Py.keys in Hk.
    by rewrite <- (length_fmap fst), Hk. }
  split; [done|]. unfold build_knowledge_graph. rewrite HG.
  by rewrite bool_decide_eq_true_2.
Qed.

Lemma no_entities_no_index_witness :
  initial_graph Samples.sv_generation_down Examples.reviews_dir
  = Ok Nx.empty ∧
  Corpus.entity_ids Samples.sv_generation_down Examples.reviews_dir = [] ∧
  build_knowledge_graph Samples.sv_generation_down Examples.reviews_dir
                        no_index
  = (Ok false, no_index).
Proof.
  assert (initial_graph Samples.sv_generation_down Examples.reviews_dir
          = Ok Nx.empty) as HG by (vm_compute; reflexivity).
  assert (Corpus.entity_ids Samples.sv_generation_down Examples.reviews_dir
          = []) as He by (vm_compute; reflexivity).
  split; [exact HG|]. split; [exact He|].
  exact (proj2 (no_entities_no_index Samples.sv_generation_down
                  Examples.reviews_dir no_index Nx.empty HG He)).
Defined.

(** X5. Detection tags and does nothing else: the edges, the nodes and their
    order, and the type, value and source file of every node are as
    before; a community id that was written is the position of a
    community in the list returned. *)
Theorem detection_only_tags (G : Nx.graph) :
  let G' := (detect_and_store_communities G).1 in
  let communities := (detect_and_store_communities G).2 in
  Nx.edges G' = Nx.edges G ∧
  Py.keys (Nx.nodes G') = Py.keys (Nx.nodes G) ∧
  ∀ n d', Nx.node G' n = Ok d' →
    ∃ d, Nx.node G n = Ok d ∧
         Nx.type d' = Nx.type d ∧ Nx.value d' = Nx.value d ∧
         Nx.source_file d' = Nx.source_file d ∧
         (Nx.community_id d' = Nx.community_id d ∨
          ∃ c, Nx.community_id d' = Some c ∧ c < length communities).
Proof.
  intros G' communities. split; [apply edges_set_node_attributes|].
  split; [apply detect_keys|].
  intros n d' Hd'%node_Ok.
  destruct (detect_node_back G n d' Hd') as (d & Hd & Ht & Hv & Hs & Hc).
  exists d. rewrite node_Ok. do 4 (split; [done|]).
  fold communities in Hc.
  destruct (Py.get (community_map communities) n) as [c|] eqn:E.
  - right. exists c. split; [done|]. by apply community_map_bound in E.
  - by left.
Qed.

(** X6. After a successful build every node of the saved graph is in the
    index: the id array is the list of the nodes of the graph in their
    order, which is the order in which the ids were first extracted; it
    holds no id twice and is not empty, and the index has one row for
    each node. The test for a value in [create_entity_embeddings_index]
    passes over no node of a graph the build made. *)
Theorem index_covers_every_node (sv : services)
    (reviews_dir : Py.dict string) (index_path index_path' : index_dir) :
  build_knowledge_graph sv reviews_dir index_path = (Ok true, index_path') →
  ∃ G ix ids,
    graph_pkl index_path' = Some G ∧
    entity_embeddings_faiss index_path' = Some ix ∧
    faiss_node_ids_json index_path' = Some ids ∧
    Nx.wf G ∧
    ids = Py.keys (Nx.nodes G) ∧
    ids = Py.distinct (Corpus.entity_ids sv reviews_dir) ∧
    NoDup ids ∧ ids ≠ [] ∧
    Faiss.ntotal ix = Nx.number_of_nodes G.
Proof.
  intros Hb.
  destruct (build_true _ _ _ _ Hb)
    as (G0 & summaries & ix & ids & HG & _ & _ & Hix & ->).
  set (G := (detect_and_store_communities G0).1) in *.
  assert (Nx.wf G) as Hwf by (by eapply detect_wf, initial_graph_wf).
  exists G, ix, ids. do 3 (split; [done|]). split; [done|].
  destruct (index_rows sv G ix ids Hix) as [Hids _].
  destruct (index_alignment sv G ix ids Hix) as [Hlen _].
  assert (ids = Py.keys (Nx.nodes G)) as Hkeys.
  { rewrite Hids. apply valued_all. intros [n d'] Hin. simpl.
    apply elem_get in Hin; [|apply Hwf].
    destruct (detect_node_back _ n d' Hin) as (d & Hd & _ & -> & _).
    pose proof (extractions_from_entities (Corpus.successes sv reviews_dir))
      as Hfrom.
    rewrite <- (initial_graph_successes sv reviews_dir G0 HG) in Hfrom.
    by destruct (Hfrom n d Hd) as (fe & e & _ & _ & _ & ->). }
  split; [done|]. split.
  { rewrite Hkeys. subst G.
    by rewrite detect_keys, (keys_initial_graph sv reviews_dir G0 HG). }
  split; [rewrite Hkeys; apply Hwf|]. split.
  - intros ->. unfold create_entity_embeddings_index in Hix.
    rewrite collect_values_valued in Hix. unfold Py.keys in Hkeys.
    symmetry in Hkeys. apply fmap_nil_inv in Hkeys. rewrite Hkeys in Hix.
    done.
  - rewrite Hlen, Hkeys. unfold Nx.number_of_nodes, Py.keys.
    by rewrite length_fmap.
Qed.

Lemma index_covers_every_node_witness :
  build_knowledge_graph Examples.sv Examples.reviews_dir no_index
  = (Ok true, Examples.built_index) ∧
  ∃ G ix ids,
    graph_pkl Examples.built_index = Some G ∧
    entity_embeddings_faiss Examples.built_index = Some ix ∧
    faiss_node_ids_json Examples.built_index = Some ids ∧
    Nx.wf G ∧
    ids = Py.keys (Nx.nodes G) ∧
    ids = Py.distinct (Corpus.entity_ids Examples.sv Examples.reviews_dir) ∧
    NoDup ids ∧ ids ≠ [] ∧
    Faiss.ntotal ix = Nx.number_of_nodes G.
Proof.
  assert (build_knowledge_graph Examples.sv Examples.reviews_dir no_index
          = (Ok true, Examples.built_index)) as Hb
    by (vm_compute; reflexivity).
  split; [exact Hb|].
  exact (index_covers_every_node Examples.sv Examples.reviews_dir no_index
           Examples.built_index Hb).
Defined.

End BuildOutcomeProperties.

Section SummaryFacts.

Import GraphBuilder QueryEngine.

Lemma summaries_lookup sv G (communities : list (list string)) summaries
    i members :
  generate_community_summaries sv G communities = Ok summaries →
  communities !! i = Some members →
  ∃ s, summarize sv G members = Ok s ∧ summaries !! i = Some (i, s).
Proof.
  intros Hs Hi. unfold generate_community_summaries in Hs.
  destruct (comprehension_lookup _ _ _ i (i, members) Hs)
    as ([j s] & Hb & Hsum).
  { by rewrite list_lookup_imap, Hi. }
  simpl in Hsum. destruct (summarize sv G members) as [s'|]; [|done].
  injection Hsum as <- <-. eauto.
Qed.

Lemma summaries_keys sv G (communities : list (list string)) summaries :
  generate_community_summaries sv G communities = Ok summaries →
  summaries.*1 = seq 0 (length communities).
Proof.
  intros Hs. apply list_eq. intros i.
  rewrite list_lookup_fmap.
  destruct (communities !! i) as [members|] eqn:Hi.
  - destruct (summaries_lookup _ _ _ _ _ _ Hs Hi) as (s & _ & ->). simpl.
    symmetry. apply lookup_seq. split; [done|].
    by apply lookup_lt_Some in Hi.
  - apply lookup_ge_None in Hi.
    rewrite (proj2 (lookup_ge_None summaries i)).
    + symmetry. apply lookup_ge_None. by rewrite length_seq.
    + apply comprehension_length in Hs. rewrite length_imap in Hs. lia.
Qed.

(** Reading a dumped summary back by the decimal text of its key. *)
Lemma get_json_dump (summaries : list (nat * string)) i s :
  NoDup summaries.*1 → summaries !! i = Some (i, s) →
  Py.get (json_dump_summaries summaries) (pretty i) = Some s.
Proof.
  intros Hnd Hi. apply elem_get.
  - unfold json_dump_summaries, Py.keys. rewrite <- list_fmap_compose.
    change (fst ∘ _) with ((pretty : nat → string) ∘ (fst : nat * string → nat)).
    rewrite list_fmap_compose. apply (NoDup_fmap_2 _). done.
  - unfold json_dump_summaries. apply list_elem_of_fmap.
    exists (i, s). split; [done|]. by apply list_elem_of_lookup_2 in Hi.
Qed.

Lemma get_json_dump_None (summaries : list (nat * string)) i :
  i ∉ summaries.*1 →
  Py.get (json_dump_summaries summaries) (pretty i) = None.
Proof.
  intros Hi. apply get_None. unfold json_dump_summaries, Py.keys.
  rewrite <- list_fmap_compose. intros Hin.
  apply list_elem_of_fmap in Hin as ([j s] & Hp & Hin). simpl in Hp.
  apply (inj pretty) in Hp. subst j. apply Hi.
  apply list_elem_of_fmap. by exists (i, s).
Qed.

End SummaryFacts.

Section SummaryProperties.

Import GraphBuilder QueryEngine.

(** X7. The summaries are one for each community, keyed by its position:
    the summary of community [i] is the stripped answer of the model to
    the prompt made of the lines of the members, or the failure marker
    when that call failed. Written to JSON and read back, it is found
    under the decimal text of [i], which is the key the query looks up;
    a key past the last community finds nothing. *)
Theorem summary_kept_under_its_position (sv : services) (G : Nx.graph)
    (communities : list (list string)) (summaries : list (nat * string)) :
  generate_community_summaries sv G communities = Ok summaries →
  summaries.*1 = seq 0 (length communities) ∧
  (∀ i members, communities !! i = Some members →
     ∃ lines s,
       Py.comprehension (λ node_id, community_line <$> Nx.node G node_id)
                        members = Ok lines ∧
       s = Py.try_except
             (Py.strip <$> generate_content sv
                             (summary_prompt (Py.join Py.nl lines)))
             (λ _, "Summary generation failed.") ∧
       Py.get (json_dump_summaries summaries) (pretty i) = Some s ∧
       summary_fragment (json_dump_summaries summaries) i
       = "This topic belongs to a community summarized as: '" +:+ s +:+ "'") ∧
  (∀ i, length communities ≤ i →
     Py.get (json_dump_summaries summaries) (pretty i) = None).
Proof.
  intros Hs. pose proof (summaries_keys _ _ _ _ Hs) as Hk.
  split; [done|]. split.
  - intros i members Hi.
    destruct (summaries_lookup _ _ _ _ _ _ Hs Hi) as (s & Hsum & Hl).
    unfold summarize in Hsum.
    destruct (Py.comprehension _ members) as [lines|] eqn:Hlines; [|done].
    simpl in Hsum. injection Hsum as Hsum. exists lines, s.
    split; [done|]. split; [done|].
    assert (Py.get (json_dump_summaries summaries) (pretty i) = Some s) as Hg.
    { apply get_json_dump; [|done]. rewrite Hk. apply NoDup_seq. }
    split; [done|]. unfold summary_fragment. by rewrite Hg.
  - intros i Hi. apply get_json_dump_None. rewrite Hk, elem_of_seq. lia.
Qed.

Lemma summary_kept_under_its_position_witness :
  generate_community_summaries Examples.sv Examples.one_edge
                               Samples.communities
  = Ok [(0, "Crashes around the playlist.");
        (1, "Crashes around the playlist.")] ∧
  Py.get (json_dump_summaries [(0, "Crashes around the playlist.");
                               (1, "Crashes around the playlist.")])
         (pretty 2) = None.
Proof.
  assert (generate_community_summaries Examples.sv Examples.one_edge
                                       Samples.communities
          = Ok [(0, "Crashes around the playlist.");
                (1, "Crashes around the playlist.")]) as Hs
    by (vm_compute; reflexivity).
  split; [exact Hs|].
  destruct (summary_kept_under_its_position _ _ _ _ Hs) as (_ & _ & Hpast).
  apply Hpast. simpl. lia.
Defined.

(** X8. In the index a successful build leaves, the community id of a node
    always has its summary: the fragment of the query never falls back
    on the text for a missing summary. *)
Theorem built_index_has_every_summary (sv : services)
    (reviews_dir : Py.dict string) (index_path index_path' : index_dir) :
  build_knowledge_graph sv reviews_dir index_path = (Ok true, index_path') →
  ∃ G summaries,
    graph_pkl index_path' = Some G ∧
    community_summaries_json index_path' = Some summaries ∧
    ∀ n c, community_of G n = Some c →
      ∃ s, Py.get summaries (pretty c) = Some s ∧
           summary_fragment summaries c
           = "This topic belongs to a community summarized as: '"
             +:+ s +:+ "'".
Proof.
  intros Hb.
  destruct (build_true _ _ _ _ Hb)
    as (G0 & summaries & ix & ids & HG & _ & Hs & _ & ->).
  exists (detect_and_store_communities G0).1, (json_dump_summaries summaries).
  do 2 (split; [done|]). intros n c Hc. unfold community_of in Hc.
  destruct (Py.get (Nx.nodes (detect_and_store_communities G0).1) n)
    as [d'|] eqn:Hd'; [|done].
  simpl in Hc.
  destruct (detect_node_back G0 n d' Hd') as (d & Hd & _ & _ & _ & Hcid).
  pose proof (extractions_from_entities (Corpus.successes sv reviews_dir))
    as Hfrom.
  rewrite <- (initial_graph_successes sv reviews_dir G0 HG) in Hfrom.
  destruct (Hfrom n d Hd) as (fe & e & _ & _ & _ & ->).
  rewrite Hc in Hcid.
  destruct (Py.get (community_map (detect_and_store_communities G0).2) n)
    as [c'|] eqn:Hmap; [|done].
  injection Hcid as ->.
  apply community_map_bound in Hmap.
  apply lookup_lt_is_Some_2 in Hmap as [members Hm].
  destruct (summaries_lookup _ _ _ _ _ _ Hs Hm) as (s & _ & Hl).
  assert (Py.get (json_dump_summaries summaries) (pretty c') = Some s) as Hg.
  { apply get_json_dump; [|done].
    rewrite (summaries_keys _ _ _ _ Hs). apply NoDup_seq. }
  exists s. split; [done|]. unfold summary_fragment. by rewrite Hg.
Qed.

Lemma built_index_has_every_summary_witness :
  build_knowledge_graph Examples.sv Examples.reviews_dir no_index
  = (Ok true, Examples.built_index) ∧
  ∃ G summaries,
    graph_pkl Examples.built_index = Some G ∧
    community_summaries_json Examples.built_index = Some summaries ∧
    ∀ n c, community_of G n = Some c →
      ∃ s, Py.get summaries (pretty c) = Some s ∧
           summary_fragment summaries c
           = "This topic belongs to a community summarized as: '"
             +:+ s +:+ "'".
Proof.
  assert (build_knowledge_graph Examples.sv Examples.reviews_dir no_index
          = (Ok true, Examples.built_index)) as Hb
    by (vm_compute; reflexivity).
  split; [exact Hb|].
  exact (built_index_has_every_summary Examples.sv Examples.reviews_dir
           no_index Examples.built_index Hb).
Defined.

End SummaryProperties.


Section OccursFacts.

Lemma startswith_split s sub :
  Py.startswith s sub = true → ∃ post, s = sub +:+ post.
Proof.
  revert s. induction sub as [|p sub IH]; intros s; simpl.
  - intros _. by exists s.
  - destruct s as [|c s]; [done|].
    intros [Hp Hs]%andb_true_iff. apply bool_decide_eq_true in Hp as ->.
    destruct (IH s Hs) as [post ->]. by exists post.
Qed.

Lemma occurs_split sub s :
  Py.occurs sub s = true ↔ ∃ pre post, s = pre +:+ sub +:+ post.
Proof.
  split; [|intros (pre & post & ->); apply occurs_app].
  induction s as [|c s IH]; rewrite occurs_unfold.
  - rewrite orb_false_r. intros [post ->]%startswith_split. by exists "", post.
  - intros [Hs|Hs]%orb_true_iff.
    + apply startswith_split in Hs as [post ->]. by exists "", post.
    + destruct (IH Hs) as (pre & post & ->). by exists (String c pre), post.
Qed.

Lemma occurs_trans a b c :
  Py.occurs a b = true → Py.occurs b c = true → Py.occurs a c = true.
Proof.
  intros (p & q & ->)%occurs_split (p' & q' & ->)%occurs_split.
  apply occurs_split. exists (p' +:+ p), (q +:+ q').
  by rewrite !string_app_assoc.
Qed.

Lemma occurs_before sub s post :
  Py.occurs sub s = true → Py.occurs sub (s +:+ post) = true.
Proof.
  intros (p & q & ->)%occurs_split. apply occurs_split.
  exists p, (q +:+ post). by rewrite !string_app_assoc.
Qed.

End OccursFacts.

Section PromptFacts.

Import QueryEngine.

Lemma occurs_answer_prompt context_text query :
  Py.occurs context_text (answer_prompt context_text query) = true ∧
  Py.occurs query (answer_prompt context_text query) = true.
Proof.
  split.
  - apply (occurs_trans _ ("    " +:+ context_text)); [apply occurs_suffix|].
    apply occurs_join. repeat first [apply list_elem_of_here | apply list_elem_of_further].
  - eapply occurs_trans; [|apply occurs_join].
    2: { do 9 apply list_elem_of_further. apply list_elem_of_here. }
    apply occurs_app.
Qed.

Lemma occurs_assemble (c : context) x :
  x ∈ global_community c ∨ x ∈ local_graph c ∨ x ∈ source_text c →
  Py.occurs x (assemble c) = true.
Proof.
  unfold assemble. intros [Hx|[Hx|Hx]].
  - apply occurs_after, occurs_before.
    rewrite bool_decide_eq_false_2 by (intros E; rewrite E in Hx; inversion Hx).
    apply occurs_after, occurs_after, occurs_before. by apply occurs_join.
  - apply occurs_after, occurs_after, occurs_before.
    rewrite bool_decide_eq_false_2 by (intros E; rewrite E in Hx; inversion Hx).
    apply occurs_after, occurs_after, occurs_before. by apply occurs_join.
  - do 3 apply occurs_after.
    rewrite bool_decide_eq_false_2 by (intros E; rewrite E in Hx; inversion Hx).
    apply occurs_after, occurs_after. by apply occurs_join.
Qed.

Lemma for_each_raises G summaries reviews_dir (known : list string) n rest st :
  Nx.wf G → (∀ m, m ∈ known → m ∈ Py.keys (Nx.nodes G)) →
  n ∉ Py.keys (Nx.nodes G) →
  Py.for_each (visit G summaries reviews_dir) (known ++ n :: rest) st
  = Raised (Py.KeyError n).
Proof.
  intros Hwf. revert st. induction known as [|m known IH]; intros st Hk Hn.
  - simpl. unfold visit, Nx.node. apply get_None in Hn. by rewrite Hn.
  - cbn [app Py.for_each].
    destruct (visit_total G summaries reviews_dir st m Hwf)
      as (d & fragment & _ & _ & ->); [apply Hk; left|].
    cbn [mbind Py.outcome_bind]. apply IH; [|done].
    intros m' Hm'. apply Hk. by right.
Qed.

End PromptFacts.

(* ===================================================================== *)
(** ** Further properties: the query *)
(* ===================================================================== *)

Section AnswerProperties.

Import GraphBuilder QueryEngine.

(** X9. The message for missing index files is returned exactly when the
    graph file or the summaries file is not there, or the index file is
    there and the id file is not; it is returned before any call to the
    embedding or the generation model. *)
Theorem missing_index_message_cases (sv : services) (query : string)
    (index_path : index_dir) (reviews_dir : Py.dict string) :
  answer_query_with_graph sv query index_path reviews_dir
  = (Ok missing_index, []) ↔
  graph_pkl index_path = None ∨
  community_summaries_json index_path = None ∨
  (is_Some (entity_embeddings_faiss index_path) ∧
   faiss_node_ids_json index_path = None).
Proof.
  unfold answer_query_with_graph, load.
  destruct index_path as [[G|] [summaries|] [ix|] [ids|]]; simpl;
    try (split; [intros _ | done]; eauto; fail);
    try (split; [intros _; right; right; split; [eauto | done] | done]; fail).
  - pose proof (retrieve_calls sv query G ix ids summaries reviews_dir 5) as Hc.
    destruct (retrieve_and_build_context _ _ _ _ _ _ _ _) as [[ctxt|e] calls].
    simpl in Hc. subst calls. split.
    + by case_bool_decide.
    + intros [?|[?|[_ ?]]]; done.
    + simpl in Hc. subst calls. split; [done|]. intros [?|[?|[_ ?]]]; done.
  - split; [done|]. intros [?|[?|[[? ?] _]]]; done.
  - split; [done|]. intros [?|[?|[[? ?] _]]]; done.
Qed.

(** X10. An entry point that is no node of the graph ends the query with a
    [KeyError] for its id, after the entry points before it were taken:
    nothing in the retrieval catches it. *)
Theorem unknown_entry_point_raises (sv : services) (query : string)
    (G : Nx.graph) (ix : Faiss.index) (ids : list string)
    (summaries reviews_dir : Py.dict string) (top_k : nat)
    (q : Faiss.vec) (indices : list Z) (known : list string) (n : string)
    (rest : list string) :
  Nx.wf G →
  embed_content sv RETRIEVAL_QUERY query = Ok q →
  Faiss.search (fvec_L2sqr sv) ix q top_k = Ok indices →
  entry_points ids indices = Ok (known ++ n :: rest) →
  (∀ m, m ∈ known → m ∈ Py.keys (Nx.nodes G)) →
  n ∉ Py.keys (Nx.nodes G) →
  augment G summaries reviews_dir (known ++ n :: rest)
  = Raised (Py.KeyError n) ∧
  retrieve_and_build_context sv query G ix ids summaries reviews_dir top_k
  = (Raised (Py.KeyError n), [EmbedContent RETRIEVAL_QUERY query]).
Proof.
  intros Hwf Hq Hs He Hk Hn.
  assert (augment G summaries reviews_dir (known ++ n :: rest)
          = Raised (Py.KeyError n)) as Ha
    by (by apply for_each_raises).
  split; [done|]. unfold retrieve_and_build_context.
  rewrite Hq, Hs. cbn [mbind Py.outcome_bind]. rewrite He.
  cbn [mbind Py.outcome_bind]. by rewrite Ha.
Qed.

Lemma unknown_entry_point_raises_witness :
  Nx.wf Examples.one_edge ∧
  entry_points Samples.stale_ids [0; 1]%Z = Ok ["ui"; "removed_entity"] ∧
  retrieve_and_build_context Examples.sv Examples.query Examples.one_edge
    Samples.stale_index Samples.stale_ids [] Examples.reviews_dir 2
  = (Raised (Py.KeyError "removed_entity"),
     [EmbedContent RETRIEVAL_QUERY Examples.query]).
Proof.
  assert (Nx.wf Examples.one_edge) as Hwf by (split; compute_done).
  split; [exact Hwf|]. split; [reflexivity|].
  refine (proj2 (unknown_entry_point_raises Examples.sv Examples.query
                   Examples.one_edge Samples.stale_index Samples.stale_ids
                   [] Examples.reviews_dir 2 [23; 1]%Z [0; 1]%Z
                   ["ui"] "removed_entity" [] Hwf eq_refl _ eq_refl _ _)).
  - vm_compute. reflexivity.
  - intros m Hm. apply (bool_decide_unpack _).
    revert m Hm. apply Forall_forall. compute_done.
  - compute_done.
Defined.

(** X11. Whatever the loop collected is in the prompt of the generation
    model: every summary fragment, local fragment and excerpt of the
    context occurs in the assembled text, the assembled text and the
    query occur in the prompt, and so does each fragment. *)
Theorem every_fragment_reaches_the_prompt (c : context) (query x : string) :
  x ∈ global_community c ∨ x ∈ local_graph c ∨ x ∈ source_text c →
  Py.occurs x (assemble c) = true ∧
  Py.occurs (assemble c) (answer_prompt (assemble c) query) = true ∧
  Py.occurs query (answer_prompt (assemble c) query) = true ∧
  Py.occurs x (answer_prompt (assemble c) query) = true.
Proof.
  intros Hx. pose proof (occurs_assemble c x Hx) as Ha.
  destruct (occurs_answer_prompt (assemble c) query) as [Hc Hq].
  split; [done|]. split; [done|]. split; [done|].
  by apply (occurs_trans _ (assemble c)).
Qed.

Lemma every_fragment_reaches_the_prompt_witness :
  Py.occurs "This topic belongs to a community summarized as: 'Login.'"
    (answer_prompt (assemble Samples.small_context) Examples.query) = true.
Proof.
  refine (proj2 (proj2 (proj2
            (every_fragment_reaches_the_prompt Samples.small_context
               Examples.query _ _)))).
  left. apply list_elem_of_here.
Defined.

End AnswerProperties.

Section EndToEndFacts.

Import GraphBuilder QueryEngine.

Lemma elem_of_successes sv (reviews_dir : Py.dict string) f ex :
  (f, ex) ∈ Corpus.successes sv reviews_dir →
  ∃ text extracted_data,
    (f, text) ∈ review_files reviews_dir ∧
    extract_entities_from_review sv text = Some extracted_data ∧
    ex = as_read extracted_data.
Proof.
  unfold Corpus.successes. rewrite list_elem_of_omap.
  intros ([f' text] & Hin & Hex). simpl in Hex.
  destruct (extract_entities_from_review sv text) as [p|] eqn:E; [|done].
  injection Hex as <- <-. eauto.
Qed.

Lemma built_node (sv : services) (reviews_dir : Py.dict string) G n d' :
  initial_graph sv reviews_dir = Ok G →
  Py.get (Nx.nodes (detect_and_store_communities G).1) n = Some d' →
  ∃ fe e, fe ∈ Corpus.successes sv reviews_dir ∧ e ∈ entities fe.2 ∧
          entity_id e = n ∧
          Nx.type d' = Some (entity_type e) ∧
          Nx.value d' = Some (entity_value e) ∧
          Nx.source_file d' = Some fe.1.
Proof.
  intros HG Hd'.
  destruct (detect_node_back _ n d' Hd') as (d & Hd & -> & -> & -> & _).
  pose proof (extractions_from_entities (Corpus.successes sv reviews_dir))
    as Hfrom.
  rewrite <- (initial_graph_successes sv reviews_dir G HG) in Hfrom.
  destruct (Hfrom n d Hd) as (fe & e & Hfe & He & Hid & ->).
  by exists fe, e.
Qed.

Lemma occurs_local_heading (c : context) :
  local_graph c ≠ [] →
  Py.occurs "## Specific Entity Relationships" (assemble c) = true.
Proof.
  intros Hne. unfold assemble.
  apply occurs_after, occurs_after, occurs_before.
  rewrite bool_decide_eq_false_2 by done. apply occurs_here.
Qed.

End EndToEndFacts.

Section EndToEndProperties.

Import GraphBuilder QueryEngine.

(** X12. In the graph a successful build saves, every node has a type, a
    value and a source file, all three from one extracted entity with
    the id of the node, and the source file is one of the review files
    of the directory the build read: against that directory the query
    finds the review text of every entry point. *)
Theorem built_nodes_point_at_review_files (sv : services)
    (reviews_dir : Py.dict string) (index_path index_path' : index_dir) :
  build_knowledge_graph sv reviews_dir index_path = (Ok true, index_path') →
  ∃ G, graph_pkl index_path' = Some G ∧
       ∀ n, n ∈ Py.keys (Nx.nodes G) →
         ∃ d f text extracted_data e,
           Nx.node G n = Ok d ∧
           (f, text) ∈ review_files reviews_dir ∧
           extract_entities_from_review sv text = Some extracted_data ∧
           e ∈ entities (as_read extracted_data) ∧ entity_id e = n ∧
           Nx.type d = Some (entity_type e) ∧
           Nx.value d = Some (entity_value e) ∧
           Nx.source_file d = Some f ∧
           readable_file_of G reviews_dir n = Some f.
Proof.
  intros Hb.
  destruct (build_true _ _ _ _ Hb)
    as (G0 & summaries & ix & ids & HG & _ & _ & _ & ->).
  set (G := (detect_and_store_communities G0).1).
  exists G. split; [done|]. intros n Hn.
  apply get_is_Some in Hn as [d Hd].
  destruct (built_node sv reviews_dir G0 n d HG Hd)
    as ([f ex] & e & Hfe & He & Hid & Ht & Hv & Hs).
  destruct (elem_of_successes _ _ _ _ Hfe) as (text & p & Hin & Hex & ->).
  exists d, f, text, p, e. rewrite node_Ok. do 8 (split; [done|]).
  unfold readable_file_of. fold G. rewrite Hd. simpl in *. rewrite Hs. simpl.
  apply list_elem_of_filter in Hin as [Htxt Hin]. simpl in Htxt.
  assert (f ≠ "") as Hne by (by intros ->).
  assert (Py.contains reviews_dir f = true) as ->.
  { apply contains_true, list_elem_of_fmap. by exists (f, text). }
  by rewrite bool_decide_eq_true_2.
Qed.

Lemma built_nodes_point_at_review_files_witness :
  build_knowledge_graph Examples.sv Examples.reviews_dir no_index
  = (Ok true, Examples.built_index) ∧
  ∃ G, graph_pkl Examples.built_index = Some G ∧
       ∀ n, n ∈ Py.keys (Nx.nodes G) →
         ∃ d f text extracted_data e,
           Nx.node G n = Ok d ∧
           (f, text) ∈ review_files Examples.reviews_dir ∧
           extract_entities_from_review Examples.sv text
           = Some extracted_data ∧
           e ∈ entities (as_read extracted_data) ∧ entity_id e = n ∧
           Nx.type d = Some (entity_type e) ∧
           Nx.value d = Some (entity_value e) ∧
           Nx.source_file d = Some f ∧
           readable_file_of G Examples.reviews_dir n = Some f.
Proof.
  assert (build_knowledge_graph Examples.sv Examples.reviews_dir no_index
          = (Ok true, Examples.built_index)) as Hb
    by (vm_compute; reflexivity).
  split; [exact Hb|].
  exact (built_nodes_point_at_review_files Examples.sv Examples.reviews_dir
           no_index Examples.built_index Hb).
Defined.

(** X13. A query on the index a successful build left does not raise, as
    long as the query is embedded with the width of the index: the
    search gives five entry points (the last id standing in for each
    place the index could not fill), each is a node of the graph, the
    context holds five local fragments, and the answer is what the
    generation model returns for the prompt, or the error text when that
    call fails. The services and the reviews directory of the query need
    not be those of the build. *)
Theorem query_on_built_index_answers (sv : services)
    (reviews_dir : Py.dict string) (index_path index_path' : index_dir)
    (sv' : services) (query : string) (reviews_dir' : Py.dict string)
    (q : Faiss.vec) :
  build_knowledge_graph sv reviews_dir index_path = (Ok true, index_path') →
  embed_content sv' RETRIEVAL_QUERY query = Ok q →
  Faiss.d <$> entity_embeddings_faiss index_path' = Some (length q) →
  ∃ G summaries ids entry st,
    graph_pkl index_path' = Some G ∧
    community_summaries_json index_path' = Some summaries ∧
    faiss_node_ids_json index_path' = Some ids ∧
    length entry = 5 ∧ (∀ n, n ∈ entry → n ∈ ids) ∧
    augment G summaries reviews_dir' entry = Ok st ∧
    length (local_graph (ctx st)) = 5 ∧
    Py.occurs "## Specific Entity Relationships" (assemble (ctx st)) = true ∧
    answer_query_with_graph sv' query index_path' reviews_dir'
    = (Ok (Py.try_except
             (generate_content sv' (answer_prompt (assemble (ctx st)) query))
             generation_error),
       [EmbedContent RETRIEVAL_QUERY query;
        GenerateContent (answer_prompt (assemble (ctx st)) query)]).
Proof.
  intros Hb Hq Hd.
  destruct (built_index_fits _ _ _ _ Hb)
    as (G & summaries & ix & ids & -> & Hwf & Hne & Hin & Hlen).
  simpl in Hd. injection Hd as Hd.
  destruct (answer_total sv' query
              (IndexDir (Some G) (Some summaries) (Some ix) (Some ids))
              reviews_dir' G summaries ix ids q)
    as (st & indices & entry & Hs & He & Hle & Hmem & Ha & Hl & Hans);
    [done | done | done | done | lia | done | done |].
  exists G, summaries, ids, entry, st.
  do 5 (split; [done|]). do 2 (split; [done|]). split; [|done].
  apply occurs_local_heading. intros E. by rewrite E in Hl.
Qed.

Lemma query_on_built_index_answers_witness :
  build_knowledge_graph Examples.sv Examples.reviews_dir no_index
  = (Ok true, Examples.built_index) ∧
  ∃ st,
    length (local_graph (ctx st)) = 5 ∧
    answer_query_with_graph Examples.sv Examples.query Examples.built_index
                            Examples.reviews_dir
    = (Ok (Py.try_except
             (generate_content Examples.sv
                (answer_prompt (assemble (ctx st)) Examples.query))
             generation_error),
       [EmbedContent RETRIEVAL_QUERY Examples.query;
        GenerateContent (answer_prompt (assemble (ctx st)) Examples.query)]).
Proof.
  assert (build_knowledge_graph Examples.sv Examples.reviews_dir no_index
          = (Ok true, Examples.built_index)) as Hb
    by (vm_compute; reflexivity).
  split; [exact Hb|].
  destruct (query_on_built_index_answers Examples.sv Examples.reviews_dir
              no_index Examples.built_index Examples.sv Examples.query
              Examples.reviews_dir [23; 1]%Z Hb eq_refl)
    as (G & summaries & ids & entry & st & _ & _ & _ & _ & _ & _ & Hl & _ & Ha).
  - vm_compute. reflexivity.
  - exists st. split; [exact Hl | exact Ha].
Defined.

End EndToEndProperties.

(* ===================================================================== *)
(** ** Further facts: the scraper *)
(* ===================================================================== *)

Section NameFacts.

Implicit Types (s t : string) (c : Ascii.ascii).

Lemma lower_char_idem c : Text.lower_char (Text.lower_char c) = Text.lower_char c.
Proof. destruct c as [[] [] [] [] [] [] [] []]; reflexivity. Qed.

Lemma lower_char_space c :
  Text.lower_char c = Text.space ↔ c = Text.space.
Proof.
  destruct c as [[] [] [] [] [] [] [] []]; split; intros H;
    first [reflexivity | discriminate H].
Qed.

Lemma lower_char_underscore : Text.lower_char Text.underscore = Text.underscore.
Proof. reflexivity. Qed.

Lemma lower_idem s : Text.lower (Text.lower s) = Text.lower s.
Proof.
  induction s as [|c s IH]; [done|]. simpl. by rewrite lower_char_idem, IH.
Qed.

Lemma lower_replace s :
  Text.lower (Text.replace Text.space Text.underscore s)
  = Text.replace Text.space Text.underscore (Text.lower s).
Proof.
  induction s as [|c s IH]; [done|]. simpl. rewrite IH. f_equal.
  destruct (decide (c = Text.space)) as [->|Hc]; [done|].
  rewrite decide_False; [done|]. by rewrite lower_char_space.
Qed.

Lemma replace_lacks s :
  Text.lacks Text.space (Text.replace Text.space Text.underscore s).
Proof.
  induction s as [|c s IH]; [apply lacks_nil|].
  simpl. apply lacks_cons. split; [|done].
  by destruct (decide (c = Text.space)) as [->|Hc].
Qed.

Lemma replace_none c c' s : Text.lacks c s → Text.replace c c' s = s.
Proof.
  induction s as [|a s IH]; [done|].
  intros [Hc Hs]%lacks_cons. simpl. rewrite decide_False by done.
  by rewrite IH.
Qed.

Lemma sanitized_idem app_name :
  Scraper.sanitized (Scraper.sanitized app_name) = Scraper.sanitized app_name.
Proof.
  unfold Scraper.sanitized.
  rewrite lower_replace, lower_idem.
  apply replace_none, replace_lacks.
Qed.

Lemma ascii_lower s : Text.ascii s → Text.ascii (Text.lower s).
Proof.
  induction s as [|c s IH]; [done|]. intros [Hc Hs]. split; [|by apply IH].
  unfold Text.lower_char. case_bool_decide; [|done].
  rewrite Ascii.nat_ascii_embedding; lia.
Qed.

Lemma ascii_replace s :
  Text.ascii s → Text.ascii (Text.replace Text.space Text.underscore s).
Proof.
  induction s as [|c s IH]; [done|]. intros [Hc Hs]. split; [|by apply IH].
  case_decide; [vm_compute; lia | done].
Qed.

Lemma ascii_sanitized app_name :
  Text.ascii app_name → Text.ascii (Scraper.sanitized app_name).
Proof. intros H. by apply ascii_replace, ascii_lower. Qed.

Lemma ascii_app s t : Text.ascii (s +:+ t) ↔ Text.ascii s ∧ Text.ascii t.
Proof.
  induction s as [|c s IH].
  - change ("" +:+ t) with t. simpl. tauto.
  - rewrite string_app_cons. simpl. rewrite IH. tauto.
Qed.

End NameFacts.

Section NumberFacts.

Implicit Types (s t : string) (c : Ascii.ascii) (x : N).

Lemma pretty_N_go_app x s t :
  pretty_N_go x s +:+ t = pretty_N_go x (s +:+ t).
Proof.
  revert s. induction (N.lt_wf_0 x) as [x _ IH]; intros s.
  destruct (decide (0 < x)%N) as [Hx|Hx].
  - rewrite !(pretty_N_go_step x) by done.
    rewrite IH by (by apply N.div_lt). by rewrite string_app_cons.
  - assert (x = 0%N) as -> by lia. by rewrite !pretty_N_go_0.
Qed.

Lemma is_nat_char x :
  (x < 10)%N → Ascii.is_nat (pretty_N_char x) = Some (N.to_nat x).
Proof.
  intros Hx.
  assert (x = 0 ∨ x = 1 ∨ x = 2 ∨ x = 3 ∨ x = 4 ∨ x = 5 ∨ x = 6 ∨ x = 7
          ∨ x = 8 ∨ x = 9)%N as Hc by lia.
  repeat destruct Hc as [->|Hc]; try reflexivity. by subst x.
Qed.

Lemma digits_value_go x :
  ∃ m, ∀ acc s,
    Text.digits_value acc (pretty_N_go x s)
    = Text.digits_value (acc * m + N.to_nat x) s.
Proof.
  induction (N.lt_wf_0 x) as [x _ IH].
  destruct (decide (0 < x)%N) as [Hx|Hx].
  - destruct (IH (x `div` 10)%N) as [m Hm]; [by apply N.div_lt|].
    exists (m * 10). intros acc s.
    rewrite (pretty_N_go_step x), Hm by done. simpl.
    rewrite is_nat_char by (by apply N.mod_lt). f_equal.
    pose proof (N.div_mod x 10 ltac:(done)) as Hdm.
    remember (x `div` 10)%N as y. remember (x `mod` 10)%N as z. lia.
  - assert (x = 0%N) as -> by lia. exists 1. intros acc s.
    rewrite pretty_N_go_0. f_equal. lia.
Qed.

Lemma pretty_N_go_head x s :
  (0 < x)%N →
  ∃ c r, pretty_N_go x s = String c r ∧ is_Some (Ascii.is_nat c).
Proof.
  revert s. induction (N.lt_wf_0 x) as [x _ IH]; intros s Hx.
  rewrite (pretty_N_go_step x) by done.
  destruct (decide (0 < x `div` 10)%N) as [Hd|Hd].
  - apply IH; [by apply N.div_lt | done].
  - apply N.nlt_ge, N.le_0_r in Hd. rewrite Hd, pretty_N_go_0.
    eexists _, _. split; [done|].
    rewrite is_nat_char by (by apply N.mod_lt). eauto.
Qed.

Lemma digits_value_stop acc post :
  Text.no_digit_first post → Text.digits_value acc post = acc.
Proof. destruct post as [|c post]; simpl; [done|]. by intros ->. Qed.

Lemma first_number_skip pre s :
  Text.no_digit pre → Text.first_number (pre +:+ s) = Text.first_number s.
Proof.
  induction pre as [|c pre IH]; [done|]. intros [Hc Hpre].
  rewrite string_app_cons. simpl. rewrite Hc. by apply IH.
Qed.

Lemma first_number_digit c r :
  is_Some (Ascii.is_nat c) →
  Text.first_number (String c r) = Some (Text.digits_value 0 (String c r)).
Proof. intros [d Hd]. unfold Text.first_number. by rewrite Hd. Qed.

Lemma first_number_pretty (n : nat) post :
  Text.no_digit_first post → Text.first_number (pretty n +:+ post) = Some n.
Proof.
  intros Hpost. unfold pretty, pretty_nat, pretty, pretty_N.
  case_decide as Hn.
  - assert (n = 0) as -> by lia. rewrite string_app_cons. simpl.
    by rewrite digits_value_stop.
  - rewrite pretty_N_go_app.
    destruct (pretty_N_go_head (N.of_nat n) ("" +:+ post))
      as (c & r & Hs & Hd); [lia|].
    rewrite Hs, first_number_digit by done. f_equal. rewrite <- Hs.
    destruct (digits_value_go (N.of_nat n)) as [m Hm].
    rewrite Hm, digits_value_stop by done. lia.
Qed.

End NumberFacts.

Section LengthFacts.

Implicit Types (s t u : string).

Lemma length_string_app s t :
  String.length (s +:+ t) = String.length s + String.length t.
Proof.
  induction s as [|c s IH]; [done|]. rewrite string_app_cons. simpl.
  by rewrite IH.
Qed.




Lemma string_app_inj_r s t u : s +:+ u = t +:+ u → s = t.
Proof.
  intros H. apply (f_equal String.rev) in H.
  rewrite !rev_app_distr in H. apply (inj _) in H.
  by rewrite <- (rev_involutive s), H, rev_involutive.
Qed.

End LengthFacts.

Section ScraperFacts.

Import Scraper.

Lemma load_batches_unfold n (loaded : list card) pending :
  load_batches n loaded pending =
  if bool_decide (n ≤ length loaded) then loaded
  else match pending with
       | batch :: pending' => load_batches n (loaded ++ batch) pending'
       | [] => loaded
       end.
Proof. by destruct pending. Qed.

(** Where the loading loop stops does not matter to the first
    [review_count] cards. *)
Lemma load_batches_take n (loaded : list card) pending :
  take n (load_batches n loaded pending) = take n (loaded ++ mjoin pending).
Proof.
  revert loaded. induction pending as [|batch pending IH]; intros loaded;
    rewrite load_batches_unfold; case_bool_decide as Hn.
  - by rewrite app_nil_r.
  - by rewrite app_nil_r.
  - by rewrite take_app_le.
  - rewrite IH. simpl. by rewrite app_assoc.
Qed.

Lemma fold_extract (cards : list card) (acc : list row) :
  fold_left extract cards acc = acc ++ omap review_of cards.
Proof.
  revert acc. induction cards as [|c cards IH]; intros acc.
  - by rewrite app_nil_r.
  - cbn [fold_left]. rewrite IH, omap_cons_option_list, app_assoc. f_equal.
    destruct c as [f|f closes|]; simpl; try destruct (read f);
      simpl; by rewrite ?app_nil_r.
Qed.

Lemma omap_length {A B} (f : A → option B) (l : list A) :
  length (omap f l) ≤ length l.
Proof.
  induction l as [|x l IH]; [done|].
  rewrite omap_cons_option_list, length_app.
  destruct (f x); simpl; lia.
Qed.

Lemma take_min {A} (l : list A) n : take (length l `min` n) l = take n l.
Proof.
  destruct (decide (n ≤ length l)) as [Hn|Hn].
  - by rewrite Nat.min_r.
  - rewrite Nat.min_l by lia. by rewrite firstn_all, take_ge by lia.
Qed.

Lemma head_tail_join {A} (page : list (list A)) :
  default [] (head page) ++ mjoin (tail page) = mjoin page.
Proof. by destruct page. Qed.

Lemma collect_take n (page : list (list card)) :
  collect n page = omap review_of (take n (mjoin page)).
Proof.
  unfold collect. cbv zeta.
  by rewrite fold_extract, take_min, load_batches_take, head_tail_join.
Qed.

Local Instance file_name_inj : Inj (=) (=) file_name.
Proof.
  intros i j H. unfold file_name in H.
  apply (inj _), string_app_inj_r, (inj pretty) in H. lia.
Qed.










End ScraperFacts.

Section ScrapeFacts.

Import Scraper.





Lemma get_app_other {V} (d : Py.dict V) k v k' :
  k' ≠ k → Py.get (d ++ [(k, v)]) k' = Py.get d k'.
Proof.
  intros Hne. induction d as [|[k0 v0] d IH]; simpl.
  - by rewrite decide_False.
  - by rewrite IH.
Qed.

End ScrapeFacts.

(* ===================================================================== *)
(** ** Further properties: the scraper *)
(* ===================================================================== *)

Section ScraperProperties.

Import Scraper.

(** X14. The directory name of an app whose name is typed in ASCII is an
    ASCII text that holds no space, that lowering leaves as it is, and
    whose own directory name it is: the spellings of an app that differ
    in capitals and in spaces against underscores share one directory,
    which both [main] and the scraper compute from the name typed. *)
Theorem sanitized_names_are_stable (app_name : string) :
  Text.ascii app_name →
  Text.ascii (sanitized app_name) ∧
  Text.lacks Text.space (sanitized app_name) ∧
  Text.lower (sanitized app_name) = sanitized app_name ∧
  sanitized (sanitized app_name) = sanitized app_name.
Proof.
  intros Hascii. split; [by apply ascii_sanitized|].
  split; [apply replace_lacks|]. split; [|apply sanitized_idem].
  unfold sanitized. by rewrite lower_replace, lower_idem.
Qed.

Lemma sanitized_names_are_stable_witness :
  Text.ascii "Spotify Music" ∧
  sanitized "Spotify Music" = "spotify_music" ∧
  sanitized "spotify_music" = "spotify_music".
Proof.
  assert (Text.ascii "Spotify Music") as Hascii
    by (vm_compute; repeat split; lia).
  split; [exact Hascii|]. split; [reflexivity|].
  exact (proj2 (proj2 (proj2
           (sanitized_names_are_stable "Spotify Music" Hascii)))).
Defined.

(** X15. The rating of a review is the number that the first run of digits
    of the label spells: a plain label made of text without digits, the
    decimal notation of [n] and text that does not start with a digit
    gives [n], and the review is kept with its title and body stripped.
    A plain label without any digit gives no review. *)
Theorem rating_is_first_number_of_label (n : nat) (pre post t b : string) :
  Text.plain (pre +:+ pretty n +:+ post) →
  Text.no_digit pre → Text.no_digit_first post →
  Text.first_number (pre +:+ pretty n +:+ post) = Some n ∧
  read (Fields (Some t) (Some (pre +:+ pretty n +:+ post)) (Some b))
  = Some (Row (Py.strip t) n (Py.strip b)) ∧
  Text.plain pre ∧
  Text.first_number pre = None ∧
  read (Fields (Some t) (Some pre) (Some b)) = None.
Proof.
  intros [Hascii Hlen] Hpre Hpost.
  assert (Text.first_number (pre +:+ pretty n +:+ post) = Some n) as Hn.
  { rewrite first_number_skip by done. by apply first_number_pretty. }
  assert (Text.first_number pre = None) as Hnone.
  { rewrite <- (string_app_nil_r pre). by rewrite first_number_skip. }
  split; [done|]. split; [|split; [|split; [done|]]].
  - unfold read. simpl. by rewrite Hn.
  - split; [by apply ascii_app in Hascii as [? _]|].
    rewrite length_string_app in Hlen. lia.
  - unfold read. simpl. by rewrite Hnone.
Qed.

Lemma rating_is_first_number_of_label_witness :
  Text.plain "Rated 4 out of 5" ∧
  Text.first_number "Rated 4 out of 5" = Some 4 ∧
  read (Fields (Some " Good ") (Some "Rated 4 out of 5") (Some "Nice. "))
  = Some (Row "Good" 4 "Nice.").
Proof.
  assert (Text.plain "Rated 4 out of 5") as Hplain
    by (vm_compute; repeat split; lia).
  split; [exact Hplain|].
  destruct (rating_is_first_number_of_label 4 "Rated " " out of 5"
              " Good " "Nice. ") as (Hn & Hr & _).
  - exact Hplain.
  - vm_compute. repeat split.
  - reflexivity.
  - split; [exact Hn | exact Hr].
Defined.

(** X16. The reviews taken from a page are those of its first [review_count]
    cards, in the order of the page, whatever the batches in which the
    page showed them: a card that fails is passed over, a review read
    from a modal is kept whether or not the modal closes, and cards past
    [review_count] are loaded and never read. *)
Theorem collect_reads_first_cards (review_count : nat)
    (page : list (list card)) :
  collect review_count page
  = omap review_of (take review_count (mjoin page)) ∧
  length (collect review_count page) ≤ review_count ∧
  (∀ f closes, review_of (Long f closes) = review_of (Short f)) ∧
  ∀ page', mjoin page' = mjoin page →
           collect review_count page' = collect review_count page.
Proof.
  split; [apply collect_take|]. split; [|split].
  - rewrite collect_take.
    etrans; [apply omap_length|]. rewrite length_take. lia.
  - done.
  - intros page' Hp. by rewrite !collect_take, Hp.
Qed.





End ScraperProperties.

(* ===================================================================== *)
(** ** Further facts: main *)
(* ===================================================================== *)

Section MainFacts.

Import QueryEngine Main.

Lemma query_loop_exit sv ix rd word rest :
  Text.lower word = "exit" → query_loop sv ix rd (word :: rest) = ([], Exit).
Proof. intros Hw. simpl. by rewrite decide_True. Qed.

Lemma query_loop_answer sv ix rd q a rest :
  Text.lower q ≠ "exit" →
  (answer_query_with_graph sv q ix rd).1 = Ok a →
  query_loop sv ix rd (q :: rest)
  = (a :: (query_loop sv ix rd rest).1, (query_loop sv ix rd rest).2).
Proof.
  intros Hq Ha. simpl. rewrite decide_False, Ha by done.
  by destruct (query_loop sv ix rd rest).
Qed.

Lemma query_loop_raise sv ix rd q e rest :
  Text.lower q ≠ "exit" →
  (answer_query_with_graph sv q ix rd).1 = Raised e →
  query_loop sv ix rd (q :: rest) = ([], Uncaught e).
Proof. intros Hq Ha. simpl. by rewrite decide_False, Ha. Qed.

Lemma query_loop_app sv ix rd asked replies rest :
  Forall2 (λ q a, Text.lower q ≠ "exit" ∧
                  (answer_query_with_graph sv q ix rd).1 = Ok a)
          asked replies →
  query_loop sv ix rd (asked ++ rest)
  = (replies ++ (query_loop sv ix rd rest).1, (query_loop sv ix rd rest).2).
Proof.
  induction 1 as [|q a asked replies [Hq Ha] _ IH].
  - cbn [app]. by destruct (query_loop sv ix rd rest).
  - cbn [app]. rewrite (query_loop_answer _ _ _ _ a) by done.
    by rewrite IH.
Qed.

(** A run that finds the index there. *)
Lemma main_cached sv open_page app_name country app_id stdin (fs : disk) ix :
  Py.get fs (Scraper.sanitized app_name) ≫= graphrag_index = Some ix →
  main sv open_page (app_name :: country :: app_id :: stdin) fs
  = Run (query_loop sv ix (listdir fs (Scraper.sanitized app_name)) stdin).1
        (query_loop sv ix (listdir fs (Scraper.sanitized app_name)) stdin).2
        fs.
Proof.
  intros Hix. unfold main. cbv zeta. rewrite Hix.
  by destruct (query_loop _ _ _ _).
Qed.

Lemma build_nothing sv :
  GraphBuilder.build_knowledge_graph sv [] no_index = (Ok false, no_index).
Proof. reflexivity. Qed.

End MainFacts.

(* ===================================================================== *)
(** ** Further properties: main *)
(* ===================================================================== *)

Section MainProperties.

Import QueryEngine Main.

(** X19. The query loop answers the questions typed before the first line
    that reads [exit] in any mix of capitals, in order, and reads nothing
    after it; without such a line it ends on the end of the input; a
    question whose answer raises ends the run with that exception, after
    the answers before it. *)
Theorem query_loop_answers_until_exit (sv : services)
    (index_path : index_dir) (reviews_dir : Py.dict string)
    (asked replies : list string) :
  Forall2 (λ q a, Text.lower q ≠ "exit" ∧
                  (answer_query_with_graph sv q index_path reviews_dir).1
                  = Ok a)
          asked replies →
  (∀ word rest, Text.lower word = "exit" →
     query_loop sv index_path reviews_dir (asked ++ word :: rest)
     = (replies, Exit)) ∧
  query_loop sv index_path reviews_dir asked = (replies, EOFError) ∧
  (∀ q e rest, Text.lower q ≠ "exit" →
     (answer_query_with_graph sv q index_path reviews_dir).1 = Raised e →
     query_loop sv index_path reviews_dir (asked ++ q :: rest)
     = (replies, Uncaught e)).
Proof.
  intros Hasked. split; [|split].
  - intros word rest Hw.
    rewrite (query_loop_app _ _ _ _ replies) by done.
    rewrite query_loop_exit by done. simpl. by rewrite app_nil_r.
  - rewrite <- (app_nil_r asked) at 1.
    rewrite (query_loop_app _ _ _ _ replies) by done.
    simpl. by rewrite app_nil_r.
  - intros q e rest Hq He.
    rewrite (query_loop_app _ _ _ _ replies) by done.
    rewrite (query_loop_raise _ _ _ _ e) by done. simpl.
    by rewrite app_nil_r.
Qed.

Lemma query_loop_answers_until_exit_witness :
  query_loop Examples.sv Examples.built_index Examples.reviews_dir
             [Examples.query; "Exit"; "What do users want?"]
  = (["Users report crashes when opening playlists."], Exit).
Proof.
  refine (proj1 (query_loop_answers_until_exit Examples.sv
                   Examples.built_index Examples.reviews_dir
                   [Examples.query]
                   ["Users report crashes when opening playlists."] _)
            "Exit" ["What do users want?"] eq_refl).
  constructor; [split | constructor].
  - vm_compute. discriminate.
  - vm_compute. reflexivity.
Defined.

(** X20. A run that came to the query loop and ended on [exit] leaves the
    index in the directory of the app, and every later run for a
    spelling of that app goes straight to the query loop on that index:
    it neither opens the page nor builds, and leaves the disk as it
    is. *)
Theorem later_runs_reuse_the_index (sv : services)
    (open_page : Scraper.browser) (app_name country app_id : string)
    (stdin : list string) (fs : disk) :
  ended (main sv open_page (app_name :: country :: app_id :: stdin) fs)
  = Exit →
  let fs' :=
    disk_after (main sv open_page (app_name :: country :: app_id :: stdin)
                     fs) in
  ∃ index_path,
    Py.get fs' (Scraper.sanitized app_name) ≫= graphrag_index
    = Some index_path ∧
    ∀ sv' open_page' app_name' country' app_id' stdin',
      Scraper.sanitized app_name' = Scraper.sanitized app_name →
      main sv' open_page' (app_name' :: country' :: app_id' :: stdin') fs'
      = Run (query_loop sv' index_path
                        (listdir fs' (Scraper.sanitized app_name)) stdin').1
            (query_loop sv' index_path
                        (listdir fs' (Scraper.sanitized app_name)) stdin').2
            fs'.
Proof.
  intros Hexit fs'.
  assert (∃ index_path,
            Py.get fs' (Scraper.sanitized app_name) ≫= graphrag_index
            = Some index_path) as [index_path Hix].
  { unfold fs' in *. clear fs'. unfold main in *. cbv zeta in *.
    destruct (Py.get fs (Scraper.sanitized app_name) ≫= graphrag_index)
      as [ix|] eqn:Hcached.
    - destruct (query_loop _ _ _ _). simpl. eauto.
    - destruct (Scraper.scrape_and_save_reviews _ _ _ _ _ _)
        as [[[scraped_dir|]|e] fs1]; [|done..].
      destruct (GraphBuilder.build_knowledge_graph _ _ _)
        as [[[|]|e] ix]; [|done..].
      destruct (query_loop _ _ _ _). simpl.
      rewrite get_upsert_eq. simpl. eauto. }
  exists index_path. split; [done|].
  intros sv' open_page' app_name' country' app_id' stdin' Hn.
  rewrite <- Hn in *. by apply main_cached.
Qed.

Lemma later_runs_reuse_the_index_witness :
  ended (main Examples.sv Samples.open_page
              ["Spotify Music"; "us"; "324684580"; Examples.query; "exit"]
              [])
  = Exit ∧
  ∃ fs',
    main Samples.sv_generation_down Samples.no_browser
         ["spotify_music"; "gb"; "0"; "EXIT"] fs'
    = Run [] Exit fs'.
Proof.
  assert (ended (main Examples.sv Samples.open_page
                   ["Spotify Music"; "us"; "324684580"; Examples.query;
                    "exit"] [])
          = Exit) as He by (vm_compute; reflexivity).
  split; [exact He|].
  destruct (later_runs_reuse_the_index _ _ _ _ _ _ _ He)
    as (index_path & _ & Hlater).
  eexists.
  exact (Hlater Samples.sv_generation_down Samples.no_browser "spotify_music"
                "gb" "0" ["EXIT"] eq_refl).
Defined.



End MainProperties.
